(** * Palliative_Analysis: transcript aggregation and docx regeneration

    A shallow embedding of the two utility scripts of the repository,

      - [build_nvivo_aggregate.py]  (module [Aggregator] below), and
      - [regenerate_valid_docx.py]  (module [Converter] below),

    together with what both of them rely on: the Python string primitives
    (module [Py]), the UTF-8 codec ([Codec]), files, output streams and
    exceptions ([OS]) and the document model of python-docx ([Docx]).
    Python [str] values are sequences of Unicode code points, [bytes]
    values are sequences of octets; the directory of the transcripts is an
    ordered list of named nodes; Python exceptions are an explicit outcome
    threaded through a small state-and-error monad.

    The definitions come first; the facts about them follow, module by
    module: first the properties of the two scripts taken one by one,
    then those of whole runs ([AggregatorProperties],
    [ConverterProperties]) and of the two scripts used one after the
    other ([Pipeline]). *)

From Stdlib Require Import Strings.String Strings.Ascii Strings.Byte.
From Stdlib Require Import Numbers.DecimalString.
From Stdlib Require Import List NArith Bool Lia Arith.
From Stdlib Require Import Permutation Sorted.
Import ListNotations.

Set Implicit Arguments.
Local Open Scope N_scope.
Local Open Scope list_scope.

(* ================================================================== *)
(** ** Python strings *)
(* ================================================================== *)

Module Py.

(** A code point.  A Python [str] is a list of them. *)
Definition char := N.
Definition str := list char.

(** [lit "abc"] is the Python literal ['abc'] (ASCII literals only). *)
Definition lit (s : string) : str :=
  map N_of_ascii (list_ascii_of_string s).

Definition LF : char := 10.
Definition CR : char := 13.
Definition STAR : char := 42.
Definition UNDERSCORE : char := 95.
Definition REPLACEMENT : char := 65533.

(** [str.__eq__] *)
Fixpoint str_eqb (a b : str) : bool :=
  match a, b with
  | [], [] => true
  | x :: a', y :: b' => (x =? y) && str_eqb a' b'
  | _, _ => false
  end.

(** [x in xs] for a list of strings. *)
Definition str_in (x : str) (xs : list str) : bool := existsb (str_eqb x) xs.

(** [Py_UNICODE_ISSPACE]: the code points [str.strip] removes and
    [str.isspace] accepts. *)
Definition isspace (c : char) : bool :=
  ((9 <=? c) && (c <=? 13)) || ((28 <=? c) && (c <=? 32))
  || (c =? 133) || (c =? 160) || (c =? 5760)
  || ((8192 <=? c) && (c <=? 8202))
  || (c =? 8232) || (c =? 8233) || (c =? 8239) || (c =? 8287)
  || (c =? 12288).

(** [Py_UNICODE_ISLINEBREAK]: the line boundaries of [str.splitlines]. *)
Definition islinebreak (c : char) : bool :=
  ((10 <=? c) && (c <=? 13)) || ((28 <=? c) && (c <=? 30))
  || (c =? 133) || (c =? 8232) || (c =? 8233).

(** [s.lstrip()], [s.rstrip()], [s.strip()] *)
Fixpoint lstrip (s : str) : str :=
  match s with
  | [] => []
  | c :: t => if isspace c then lstrip t else s
  end.

Fixpoint rstrip (s : str) : str :=
  match s with
  | [] => []
  | c :: t =>
      match rstrip t with
      | [] => if isspace c then [] else [c]
      | t' => c :: t'
      end
  end.

Definition strip (s : str) : str := rstrip (lstrip s).

(** [s.rstrip(chars)] for a one-character set. *)
Fixpoint rstrip_char (d : char) (s : str) : str :=
  match s with
  | [] => []
  | c :: t =>
      match rstrip_char d t with
      | [] => if c =? d then [] else [c]
      | t' => c :: t'
      end
  end.

(** [s.splitlines()]: the line boundaries are removed, [\r\n] counts as
    one boundary, and a final unterminated line is kept only when it is
    not empty. *)
Fixpoint splitlines (s : str) : list str :=
  match s with
  | [] => []
  | c :: t =>
      if islinebreak c then
        match t with
        | c' :: t' =>
            if (c =? CR) && (c' =? LF) then [] :: splitlines t'
            else [] :: splitlines t
        | [] => [[]]
        end
      else
        match splitlines t with
        | [] => [[c]]
        | l :: ls => (c :: l) :: ls
        end
  end.

(** [sep.join(xs)] *)
Fixpoint join (sep : str) (xs : list str) : str :=
  match xs with
  | [] => []
  | [x] => x
  | x :: rest => x ++ sep ++ join sep rest
  end.

(** [s.startswith(p)], returning what follows the prefix. *)
Fixpoint strip_prefix (p s : str) : option str :=
  match p, s with
  | [], _ => Some s
  | x :: p', y :: s' => if x =? y then strip_prefix p' s' else None
  | _ :: _, [] => None
  end.

Definition startswith (p s : str) : bool :=
  match strip_prefix p s with Some _ => true | None => false end.

Definition endswith (p s : str) : bool := startswith (rev p) (rev s).

(** [old in s] (substring test). *)
Fixpoint contains (old s : str) : bool :=
  startswith old s ||
  match s with
  | [] => false
  | _ :: t => contains old t
  end.

(** [s.replace('**', '')]: occurrences are found left to right and do
    not overlap. *)
Fixpoint remove_marker (s : str) : str :=
  match s with
  | [] => []
  | c :: t =>
      match t with
      | [] => [c]
      | c' :: t' =>
          if (c =? STAR) && (c' =? STAR) then remove_marker t'
          else c :: remove_marker t
      end
  end.

(** [s.split(d)] for a one-character separator. *)
Fixpoint split_char (d : char) (s : str) : list str :=
  match s with
  | [] => [[]]
  | c :: t =>
      if c =? d then [] :: split_char d t
      else
        match split_char d t with
        | [] => [[c]]
        | p :: ps => (c :: p) :: ps
        end
  end.

(** [str(n)] for a non-negative integer. *)
Definition str_of_N (n : N) : str :=
  lit (NilEmpty.string_of_uint (N.to_uint n)).

(** Lexicographic comparison of strings by code point ([a <= b]). *)
Fixpoint str_leb (a b : str) : bool :=
  match a, b with
  | [], _ => true
  | _ :: _, [] => false
  | x :: a', y :: b' => (x <? y) || ((x =? y) && str_leb a' b')
  end.

(** Text-mode reading with [newline=None]: [\r\n] and a lone [\r] both
    arrive as [\n]. *)
Fixpoint universal_newlines (s : str) : str :=
  match s with
  | [] => []
  | c :: t =>
      if c =? CR then
        LF :: match t with
              | [] => []
              | c' :: t' =>
                  if c' =? LF then universal_newlines t'
                  else universal_newlines t
              end
      else c :: universal_newlines t
  end.

(** *** Decimal digits

    [\d] in a [str] pattern and [int()] both go through the Unicode
    decimal-digit table of the interpreter ([Py_UNICODE_TODECIMAL]).  The
    table is a parameter; [ascii_decimal] is its ASCII part. *)
Section Decimal.

Variable decimal : char -> option N.

Definition isdecimal (c : char) : bool :=
  match decimal c with Some _ => true | None => false end.

(** [int(s)] on a non-empty string of decimal digits.  The other forms
    [int] accepts (sign, surrounding blanks, underscores) are answered
    [None] here, as is everything [int] rejects with [ValueError]. *)
Fixpoint int_digits (acc : N) (s : str) : option N :=
  match s with
  | [] => Some acc
  | c :: t =>
      match decimal c with
      | Some d => int_digits (10 * acc + d) t
      | None => None
      end
  end.

Definition int (s : str) : option N :=
  match s with
  | [] => None
  | _ :: _ => int_digits 0 s
  end.

End Decimal.

Definition ascii_decimal (c : char) : option N :=
  if (48 <=? c) && (c <=? 57) then Some (c - 48) else None.

(** The marker of emphasis, [**]. *)
Definition MARKER : str := [STAR; STAR].

(** Texts made of whitespace only, and texts without a line boundary. *)
Definition all_space (s : str) : Prop := Forall (fun c => isspace c = true) s.
Definition no_break (s : str) : Prop :=
  Forall (fun c => islinebreak c = false) s.




End Py.

(* ================================================================== *)
(** ** The UTF-8 codec *)
(* ================================================================== *)

Module Codec.
Import Py.

Definition bytes := list byte.

Definition octet (n : N) : byte :=
  match Byte.of_N n with Some b => b | None => x00 end.

(** [b'PK'] and friends. *)
Definition blit (s : string) : bytes := list_byte_of_string s.

Fixpoint bytes_eqb (a b : bytes) : bool :=
  match a, b with
  | [], [] => true
  | x :: a', y :: b' => Byte.eqb x y && bytes_eqb a' b'
  | _, _ => false
  end.

Definition iscont (b : N) : bool := (128 <=? b) && (b <=? 191).

(** Second byte of a three-byte form: [E0] excludes overlong encodings,
    [ED] excludes the surrogates. *)
Definition second_ok3 (b0 b1 : N) : bool :=
  iscont b1 &&
  (if b0 =? 224 then 160 <=? b1 else if b0 =? 237 then b1 <? 160 else true).

(** Second byte of a four-byte form: [F0] excludes overlong encodings,
    [F4] stays below U+110000. *)
Definition second_ok4 (b0 b1 : N) : bool :=
  iscont b1 &&
  (if b0 =? 240 then 144 <=? b1 else if b0 =? 244 then b1 <? 144 else true).

(** What an error handler does with an ill-formed subsequence:
    [errors='strict'] raises [UnicodeDecodeError] (the result is [None]),
    [errors='replace'] puts U+FFFD in its place and goes on. *)
Definition emit (c : char) (rest : option str) : option str :=
  option_map (cons c) rest.

Definition bad (replace : bool) (rest : option str) : option str :=
  if replace then option_map (cons REPLACEMENT) rest else None.

(** [bs.decode('utf-8', errors=...)]: each maximal ill-formed subsequence
    is one error. *)
Fixpoint utf8_decode (replace : bool) (bs : bytes) : option str :=
  match bs with
  | [] => Some []
  | b0 :: t =>
      let n0 := Byte.to_N b0 in
      if n0 <? 128 then emit n0 (utf8_decode replace t)
      else if (n0 <? 194) || (244 <? n0)
      then bad replace (utf8_decode replace t)
      else
        match t with
        | [] => bad replace (Some [])
        | b1 :: t1 =>
            let n1 := Byte.to_N b1 in
            if n0 <? 224 then
              if iscont n1
              then emit ((n0 - 192) * 64 + (n1 - 128)) (utf8_decode replace t1)
              else bad replace (utf8_decode replace t)
            else if n0 <? 240 then
              if second_ok3 n0 n1 then
                match t1 with
                | [] => bad replace (Some [])
                | b2 :: t2 =>
                    let n2 := Byte.to_N b2 in
                    if iscont n2
                    then emit ((n0 - 224) * 4096 + (n1 - 128) * 64 + (n2 - 128))
                              (utf8_decode replace t2)
                    else bad replace (utf8_decode replace t1)
                end
              else bad replace (utf8_decode replace t)
            else
              if second_ok4 n0 n1 then
                match t1 with
                | [] => bad replace (Some [])
                | b2 :: t2 =>
                    let n2 := Byte.to_N b2 in
                    if iscont n2 then
                      match t2 with
                      | [] => bad replace (Some [])
                      | b3 :: t3 =>
                          let n3 := Byte.to_N b3 in
                          if iscont n3
                          then emit ((n0 - 240) * 262144 + (n1 - 128) * 4096
                                     + (n2 - 128) * 64 + (n3 - 128))
                                    (utf8_decode replace t3)
                          else bad replace (utf8_decode replace t2)
                      end
                    else bad replace (utf8_decode replace t1)
                end
              else bad replace (utf8_decode replace t)
        end
  end.

(** [s.encode('utf-8')]; a surrogate code point raises
    [UnicodeEncodeError] ([None]). *)
Definition utf8_encode_char (c : char) : option bytes :=
  if c <? 128 then Some [octet c]
  else if c <? 2048 then Some [octet (192 + c / 64); octet (128 + c mod 64)]
  else if c <? 65536 then
    if (55296 <=? c) && (c <=? 57343) then None
    else Some [octet (224 + c / 4096); octet (128 + (c / 64) mod 64);
               octet (128 + c mod 64)]
  else if c <? 1114112 then
    Some [octet (240 + c / 262144); octet (128 + (c / 4096) mod 64);
          octet (128 + (c / 64) mod 64); octet (128 + c mod 64)]
  else None.

Fixpoint utf8_encode (s : str) : option bytes :=
  match s with
  | [] => Some []
  | c :: t =>
      match utf8_encode_char c, utf8_encode t with
      | Some b, Some r => Some (b ++ r)
      | _, _ => None
      end
  end.

(** The scalar values: what a well-formed text holds and UTF-8 can
    encode. *)
Definition scalar (c : char) : Prop :=
  c < 55296 \/ (57343 < c /\ c < 1114112).

End Codec.

(* ================================================================== *)
(** ** Exceptions, the directory of transcripts, and the effect monad *)
(* ================================================================== *)

Module OS.
Import Py Codec.

(** The exception classes the two scripts can meet. *)
Inductive exn : Type :=
| OSError
| UnicodeDecodeError
| UnicodeEncodeError
| RuntimeError (msg : str)
| ValueError
| IndexError
| PackageNotFoundError.

Inductive outcome (A : Type) : Type :=
| Return (a : A)
| Raise (e : exn).
Arguments Return {A} a.
Arguments Raise {A} e.

(** A directory entry is a regular file with its bytes, or something
    that exists but cannot be opened (a directory, a file without
    permission): every [open] on it fails with [OSError]. *)
Inductive node : Type :=
| File (data : bytes)
| NoAccess.

(** The part of the machine the scripts touch: [ROOT] (its path as text
    and its entries in the order the operating system lists them), the
    clock reading of [datetime.utcnow()] already formatted with
    ['%Y-%m-%d %H:%M UTC'], and the two output streams (one element per
    [print] call). *)
Record world : Type := World {
  root : str;
  utcnow : str;
  directory : list (str * node);
  stdout : list str;
  stderr : list str
}.

Fixpoint lookup (name : str) (d : list (str * node)) : option node :=
  match d with
  | [] => None
  | (n, x) :: d' => if str_eqb name n then Some x else lookup name d'
  end.

(** Writing replaces the entry of that name or creates one. *)
Fixpoint store (name : str) (x : node) (d : list (str * node))
  : list (str * node) :=
  match d with
  | [] => [(name, x)]
  | (n, y) :: d' =>
      if str_eqb name n then (n, x) :: d' else (n, y) :: store name x d'
  end.

Definition set_directory (d : list (str * node)) (w : world) : world :=
  World (root w) (utcnow w) d (stdout w) (stderr w).

(** Computations that read and change the world and may raise. *)
Definition M (A : Type) : Type := world -> outcome A * world.

Definition ret {A} (a : A) : M A := fun w => (Return a, w).
Definition raise {A} (e : exn) : M A := fun w => (Raise e, w).
Definition bind {A B} (c : M A) (k : A -> M B) : M B :=
  fun w =>
    match c w with
    | (Return a, w') => k a w'
    | (Raise e, w') => (Raise e, w')
    end.

(** [try: body except ...: handler]; the handler answers [None] for an
    exception its [except] clause does not name, which then propagates. *)
Definition try_except {A} (body : M A) (handler : exn -> option (M A))
  : M A :=
  fun w =>
    match body w with
    | (Return a, w') => (Return a, w')
    | (Raise e, w') =>
        match handler e with
        | Some h => h w'
        | None => (Raise e, w')
        end
    end.

Definition lift {A} (o : outcome A) : M A := fun w => (o, w).

Module Notations.
Notation "x <- c ;; k" := (bind c (fun x => k))
    (at level 61, c at next level, right associativity).
Notation "c ;;; k" := (bind c (fun _ => k))
    (at level 61, right associativity).
End Notations.
Import Notations.

(** [for x in xs: ys.append(f(x))] *)
Fixpoint for_each {A B} (f : A -> M B) (xs : list A) : M (list B) :=
  match xs with
  | [] => ret []
  | x :: rest =>
      y <- f x ;;
      ys <- for_each f rest ;;
      ret (y :: ys)
  end.

(** [str(path)] and [path.with_suffix(path.suffix + extra)].  A path of
    [ROOT] is kept as its name. *)
Definition path_str (name : str) : M str :=
  fun w => (Return (root w ++ lit "/" ++ name), w).

(** [Path.suffix]: from the last dot on, unless that dot opens or closes
    the name. *)
Fixpoint last_dot (s : str) : option str :=
  match s with
  | [] => None
  | c :: t =>
      match last_dot t with
      | Some r => Some r
      | None => if c =? 46 then Some s else None
      end
  end.

Definition suffix (name : str) : str :=
  match name with
  | [] => []
  | c :: t =>
      match last_dot t with
      | Some ((_ :: _ :: _) as r) => r
      | _ => []
      end
  end.

Definition with_suffix (name new_suffix : str) : str :=
  firstn (length name - length (suffix name)) name ++ new_suffix.

Definition path_exists (name : str) : M bool :=
  fun w =>
    (Return (match lookup name (directory w) with
             | Some _ => true
             | None => false
             end), w).

(** [path.open('rb')] followed by reading: a missing entry and an entry
    that cannot be opened both raise [OSError]. *)
Definition read_bytes (name : str) : M bytes :=
  fun w =>
    match lookup name (directory w) with
    | Some (File data) => (Return data, w)
    | Some NoAccess | None => (Raise OSError, w)
    end.

(** [path.read_text(encoding='utf-8', errors=...)] *)
Definition read_text (name : str) (replace : bool) : M str :=
  data <- read_bytes name ;;
  match utf8_decode replace data with
  | Some t => ret (universal_newlines t)
  | None => raise UnicodeDecodeError
  end.

(** [open(..., 'wb')] followed by one write. *)
Definition write_bytes (name : str) (data : bytes) : M unit :=
  fun w =>
    match lookup name (directory w) with
    | Some NoAccess => (Raise OSError, w)
    | _ => (Return tt, set_directory (store name (File data) (directory w)) w)
    end.

(** [path.write_text(text, encoding='utf-8')]: the file is opened (and
    emptied) before the text is encoded. *)
Definition write_text (name : str) (text : str) : M unit :=
  match utf8_encode text with
  | Some data => write_bytes name data
  | None => write_bytes name [] ;;; raise UnicodeEncodeError
  end.

Definition print (line : str) : M unit :=
  fun w =>
    (Return tt,
     World (root w) (utcnow w) (directory w) (stdout w ++ [line]) (stderr w)).

Definition eprint (line : str) : M unit :=
  fun w =>
    (Return tt,
     World (root w) (utcnow w) (directory w) (stdout w) (stderr w ++ [line])).

Definition now : M str := fun w => (Return (utcnow w), w).

(** Stable insertion sort by a key: what [list.sort(key=...)] and
    [sorted] return. *)
Section StableSort.
Variables (A K : Type) (leb : K -> K -> bool) (key : A -> K).

Fixpoint insert_by (x : A) (l : list A) : list A :=
  match l with
  | [] => [x]
  | y :: l' =>
      if leb (key x) (key y) then x :: l else y :: insert_by x l'
  end.

Fixpoint sort_by (l : list A) : list A :=
  match l with
  | [] => []
  | x :: l' => insert_by x (sort_by l')
  end.
End StableSort.

(** Order of the keys, for the sorted result. *)
Definition key_le (A : Type) (key : A -> N) (a b : A) : Prop :=
  key a <= key b.

(** [keeps m x c]: when [m] names the node [x], it still does after
    [c]. *)
Definition keeps (A : Type) (m : str) (x : node) (c : M A) : Prop :=
  forall w, lookup m (directory w) = Some x ->
            lookup m (directory (snd (c w))) = Some x.

End OS.

(* ================================================================== *)
(** ** The document object model of python-docx *)
(* ================================================================== *)

Module Docx.
Import Py OS.

(** Documents as python-docx (1.0 and later) shows them: paragraphs made
    of runs and hyperlinks, each run with its text, its bold flag and its
    font.  The text of a run may hold a tabulation and, for a line break
    inside the paragraph, a line feed. *)

(** [run.font]: the name, the East Asian name ([w:rFonts/@w:eastAsia])
    and the size in points. *)
Record font : Type := Font {
  font_name : option str;
  east_asia : option str;
  font_size : option N
}.

Definition no_font : font := Font None None None.

(** [run.bold] is [True], [False] or [None] (inherited). *)
Record run : Type := Run {
  text : str;
  bold : option bool;
  run_font : font
}.

(** One piece of the inline content of a paragraph: a run of the
    paragraph itself, or a hyperlink with the runs inside it. *)
Inductive inline : Type :=
| Direct (r : run)
| Hyperlink (inner : list run).

Record paragraph : Type := Para { content : list inline }.

(** A paragraph made of runs only. *)
Definition Paragraph (rs : list run) : paragraph := Para (map Direct rs).

(** [para.runs]: the runs that are children of the paragraph; the runs
    inside a hyperlink are not among them. *)
Definition own_run (i : inline) : list run :=
  match i with
  | Direct r => [r]
  | Hyperlink _ => []
  end.

Definition runs (p : paragraph) : list run := flat_map own_run (content p).

(** [para.text]: the texts of the runs and of the hyperlinks, in the
    order of the document. *)
Definition inline_text (i : inline) : str :=
  match i with
  | Direct r => text r
  | Hyperlink inner => concat (map text inner)
  end.

Definition paragraph_text (p : paragraph) : str :=
  concat (map inline_text (content p)).

Record document : Type := Document_ {
  normal_font : font;
  paragraphs : list paragraph
}.

(** [Document()]: the default template, which has no paragraph. *)
Definition new_document : document := Document_ no_font [].

(** [doc.add_paragraph(...)]: the new paragraph goes to the end of the
    body. *)
Definition add_paragraph (d : document) (p : paragraph) : document :=
  Document_ (normal_font d) (paragraphs d ++ [p]).

(** The characters an XML document can hold (the production [Char] of
    XML 1.0, [xmlIsChar] in libxml2). *)
Definition xml_char (c : char) : bool :=
  (c =? 9) || (c =? 10) || (c =? 13)
  || ((32 <=? c) && (c <=? 55295))
  || ((57344 <=? c) && (c <=? 65533))
  || ((65536 <=? c) && (c <=? 1114111)).

(** [paragraph.add_run(text)]: the text goes into the XML tree, and lxml
    refuses a string with any other character with [ValueError] ("All
    strings must be XML compatible").  The new run inherits its bold
    flag and its font. *)
Definition add_run (t : str) : outcome run :=
  if forallb xml_char t then Return (Run t None no_font)
  else Raise ValueError.

(** [run.bold = True] *)
Definition set_bold (r : run) : run := Run (text r) (Some true) (run_font r).

End Docx.

(* ================================================================== *)
(** ** build_nvivo_aggregate.py *)
(* ================================================================== *)

Module Aggregator.
Import Py Codec OS OS.Notations Docx.

Definition AGGREGATE_NAME : str := lit "AllTranscripts_NVivo.txt".

(** [fnmatch(name, "transcript_PATIENT_*.docx")] *)
Definition glob_match (name : str) : bool :=
  match strip_prefix (lit "transcript_PATIENT_") name with
  | Some rest => endswith (lit ".docx") rest
  | None => false
  end.

(** [ROOT.glob("transcript_PATIENT_*.docx")], in listing order. *)
Definition glob : M (list str) :=
  fun w => (Return (filter glob_match (map fst (directory w))), w).

(** The paragraph loop of [extract_text_from_docx]. *)
Definition is_bold (r : run) : bool :=
  match bold r with Some true => true | _ => false end.

Definition has_text (r : run) : bool :=
  match strip (text r) with [] => false | _ :: _ => true end.

Definition paragraph_line (para : paragraph) : str :=
  match rstrip (paragraph_text para) with
  | [] => []
  | (_ :: _) as text =>
      match runs para with
      | [] => text
      | _ :: _ =>
          if forallb is_bold (filter has_text (runs para))
          then lit "**" ++ text ++ lit "**"
          else text
      end
  end.

Definition extract_lines (doc : document) : list str :=
  map paragraph_line (paragraphs doc).

(** Header normalisation and trimming, the end of the loop body of
    [build_aggregate]. *)
Definition header_line (patient_id : str) : str :=
  lit "====TRANSCRIPT: " ++ patient_id ++ lit "====".

Definition normalize_header (patient_id content : str) : str :=
  if negb (str_in (header_line patient_id) (firstn 3 (splitlines content)))
  then header_line patient_id ++ [LF; LF] ++ strip content ++ [LF]
  else content.

Definition entry_text (patient_id content : str) : str :=
  strip (normalize_header patient_id content) ++ [LF].

Definition footer (stamp : str) (transcripts : list (str * str)) : str :=
  lit "---" ++ [LF; LF] ++ lit "END OF ALL TRANSCRIPTS" ++ [LF; LF]
  ++ lit "Generated: " ++ stamp ++ [LF]
  ++ lit "Total Patients: " ++ str_of_N (N.of_nat (length transcripts))
  ++ lit " (" ++ join (lit ", ") (map fst transcripts) ++ lit ")" ++ [LF]
  ++ lit "Source: palliative_data.csv" ++ [LF]
  ++ lit "Format: Appendix I questionnaire structure with Esther "
  ++ lit "transcript style" ++ [LF].

(** [Document(str(docx_path))]: a path that names nothing is no package. *)
Definition open_package (parse : option bytes -> outcome document)
           (docx_path : str) : M document :=
  fun w =>
    (match lookup docx_path (directory w) with
     | Some (File data) => parse (Some data)
     | Some NoAccess => parse None
     | None => Raise PackageNotFoundError
     end, w).

Section Environment.

(** The decimal-digit table behind [\d] and [int]. *)
Variable decimal : char -> option N.

(** The module-level name [Document]: [None] when [import docx] failed,
    otherwise what python-docx does with the entry it finds at a path.
    On the bytes of a file it can read ([Some data]) it answers a
    document or raises (bytes that are no package:
    [PackageNotFoundError]); on an entry it cannot read ([None]) it
    does what the library does there (a directory is taken for an
    unpacked package, and one that is none ends in [FileNotFoundError],
    an [OSError]; a file without permission is no package). *)
Variable Document : option (option bytes -> outcome document).

(** [TRANSCRIPT_PATTERN = re.compile(r"transcript_(PATIENT_\d{3})\.docx$")]:
    [$] holds at the end of the text and before a final newline. *)
Definition at_end (s : str) : bool :=
  match s with
  | [] => true
  | [c] => c =? LF
  | _ => false
  end.

(** One attempt at a fixed position; the answer is group 1. *)
Definition match_here (s : str) : option str :=
  match strip_prefix (lit "transcript_") s with
  | None => None
  | Some s1 =>
      match strip_prefix (lit "PATIENT_") s1 with
      | Some (d1 :: d2 :: d3 :: s2) =>
          if isdecimal decimal d1 && isdecimal decimal d2
             && isdecimal decimal d3
          then
            match strip_prefix (lit ".docx") s2 with
            | Some s3 =>
                if at_end s3 then Some (lit "PATIENT_" ++ [d1; d2; d3])
                else None
            | None => None
            end
          else None
      | _ => None
      end
  end.

(** [TRANSCRIPT_PATTERN.search(name)]: the leftmost position that
    matches. *)
Fixpoint TRANSCRIPT_PATTERN_search (s : str) : option str :=
  match match_here s with
  | Some g => Some g
  | None =>
      match s with
      | [] => None
      | _ :: t => TRANSCRIPT_PATTERN_search t
      end
  end.

(** The loop of [iter_transcript_paths]: [(pid, p)] for the names the
    pattern accepts. *)
Fixpoint collect (names : list str) : list (str * str) :=
  match names with
  | [] => []
  | p :: rest =>
      match TRANSCRIPT_PATTERN_search p with
      | None => collect rest
      | Some pid => (pid, p) :: collect rest
      end
  end.

(** [lambda t: int(t[0].split('_')[1])] *)
Definition sort_key (t : str * str) : outcome N :=
  match nth_error (split_char UNDERSCORE (fst t)) 1 with
  | None => Raise IndexError
  | Some digits =>
      match int decimal digits with
      | Some n => Return n
      | None => Raise ValueError
      end
  end.

(** The keys are computed once per element, before any comparison. *)
Fixpoint with_keys (files : list (str * str))
  : outcome (list (N * (str * str))) :=
  match files with
  | [] => Return []
  | t :: rest =>
      match sort_key t, with_keys rest with
      | Return k, Return ks => Return ((k, t) :: ks)
      | Raise e, _ => Raise e
      | _, Raise e => Raise e
      end
  end.

Definition sort_files (files : list (str * str))
  : outcome (list (str * str)) :=
  match with_keys files with
  | Return keyed => Return (map snd (sort_by N.leb fst keyed))
  | Raise e => Raise e
  end.

Definition iter_transcript_paths : M (list (str * str)) :=
  names <- glob ;;
  lift (sort_files (collect names)).

Definition read_from_backup (orig_path : str) : M (option str) :=
  present <- path_exists orig_path ;;
  if present then
    try_except (t <- read_text orig_path false ;; ret (Some t))
               (fun _ => Some (ret None))
  else ret None.

Definition extract_text_from_docx (docx_path : str) : M str :=
  match Document with
  | None =>
      raise (RuntimeError
               (lit "python-docx not available; cannot extract text"))
  | Some parse =>
      doc <- open_package parse docx_path ;;
      ret (join [LF] (extract_lines doc))
  end.

(** The body of the loop over the transcripts. *)
Definition transcript_entry (t : str * str) : M str :=
  let (patient_id, path) := t in
  let backup := with_suffix path (suffix path ++ lit ".orig.txt") in
  content <- read_from_backup backup ;;
  content <- match content with
             | Some c => ret c
             | None => extract_text_from_docx path
             end ;;
  ret (entry_text patient_id content).

Definition build_aggregate : M N :=
  transcripts <- iter_transcript_paths ;;
  match transcripts with
  | [] => eprint (lit "No transcript files found.") ;;; ret 1
  | _ :: _ =>
      entries <- for_each transcript_entry transcripts ;;
      stamp <- now ;;
      let aggregate_text :=
        join [LF] entries ++ [LF] ++ footer stamp transcripts in
      write_text AGGREGATE_NAME aggregate_text ;;;
      out_path <- path_str AGGREGATE_NAME ;;
      print (lit "Wrote aggregate file: " ++ out_path ++ lit " ("
             ++ str_of_N (N.of_nat (length transcripts))
             ++ lit " transcripts)") ;;;
      ret 0
  end.

End Environment.

End Aggregator.

(* ================================================================== *)
(** ** regenerate_valid_docx.py *)
(* ================================================================== *)

Module Converter.
Import Py Codec OS OS.Notations Docx.

Definition Arial : str := lit "Arial".

(** [apply_font(paragraph)]: the runs of [paragraph.runs] get the font. *)
Definition apply_font (p : paragraph) : paragraph :=
  Para
    (map (fun i =>
            match i with
            | Direct r =>
                Direct (Run (text r) (bold r)
                            (Font (Some Arial) (Some Arial) (Some 12)))
            | Hyperlink inner => Hyperlink inner
            end)
         (content p)).

(** The body of the loop over [text.splitlines()]: the paragraph that is
    added for a line, or the exception of [add_run]. *)
Definition line_paragraph (raw_line : str) : outcome paragraph :=
  let line := rstrip_char CR raw_line in
  match strip line with
  | [] => Return (Paragraph [])
  | _ :: _ =>
      let had_bold_marker := contains (lit "**") line in
      let clean_line := remove_marker line in
      match add_run clean_line with
      | Return r =>
          Return (apply_font
                    (Paragraph [if had_bold_marker then set_bold r else r]))
      | Raise e => Raise e
      end
  end.

(** [Document()], the Normal style set to Arial 12, then one paragraph
    per line; the first line [add_run] refuses ends the loop. *)
Definition styled_document : document :=
  Document_ (Font (Some Arial) None (Some 12)) (paragraphs new_document).

Fixpoint add_lines (lines : list str) (doc : document) : outcome document :=
  match lines with
  | [] => Return doc
  | raw_line :: rest =>
      match line_paragraph raw_line with
      | Return p => add_lines rest (add_paragraph doc p)
      | Raise e => Raise e
      end
  end.

Definition build_document (text : str) : outcome document :=
  add_lines (splitlines text) styled_document.

Definition if_verbose (verbose : bool) (line : str) : M unit :=
  if verbose then print line else ret tt.

Section Environment.

(** The writer of python-docx: the bytes [doc.save] puts on disk. *)
Variable package_bytes : document -> bytes.

(** [fnmatch(name, pattern)] for the [--pattern] of the command line. *)
Variable fnmatch : str -> str -> bool.

Definition is_valid_docx (path : str) : M bool :=
  try_except
    (data <- read_bytes path ;;
     ret (bytes_eqb (firstn 2 data) (blit "PK")))
    (fun e => match e with OSError => Some (ret false) | _ => None end).

(** [sorted(ROOT.glob(pattern))] *)
Definition iter_transcript_files (pattern : str) : M (list str) :=
  fun w =>
    (Return (sort_by str_leb (fun p => p)
                     (filter (fun name => fnmatch name pattern)
                             (map fst (directory w)))), w).

Definition convert_plaintext_to_docx (src : str) (force verbose : bool)
  : M bool :=
  valid <- is_valid_docx src ;;
  if valid && negb force then
    if_verbose verbose (lit "SKIP (already valid): " ++ src) ;;;
    ret false
  else
    read <- try_except
              (t <- read_text src true ;; ret (Some t))
              (fun e =>
                 match e with
                 | UnicodeDecodeError =>
                     Some (shown <- path_str src ;;
                           if_verbose verbose
                             (lit "ERROR: Cannot read as text: " ++ shown) ;;;
                           ret None)
                 | _ => None
                 end) ;;
    match read with
    | None => ret false
    | Some text =>
        let backup := with_suffix src (suffix src ++ lit ".orig.txt") in
        present <- path_exists backup ;;
        (if negb present then write_text backup text else ret tt) ;;;
        doc <- lift (build_document text) ;;
        write_bytes src (package_bytes doc) ;;;
        if_verbose verbose (lit "Converted -> " ++ src) ;;;
        ret true
    end.

(** The counting loop of [main]. *)
Fixpoint convert_each (files : list str) (force : bool) (converted : N)
  : M N :=
  match files with
  | [] => ret converted
  | f :: rest =>
      done <- convert_plaintext_to_docx f force true ;;
      convert_each rest force (if done then converted + 1 else converted)
  end.

(** [main], after the command line gave [--force] and [--pattern]. *)
Definition main (force : bool) (pattern : str) : M N :=
  files <- iter_transcript_files pattern ;;
  match files with
  | [] =>
      eprint (lit "No transcript files found matching pattern") ;;;
      ret 1
  | _ :: _ =>
      converted <- convert_each files force 0 ;;
      print (lit "Done. " ++ str_of_N converted
             ++ lit " file(s) converted.") ;;;
      ret 0
  end.

End Environment.

Definition default_pattern : str := lit "transcript_PATIENT_*.docx".

End Converter.

Unset Implicit Arguments.

(* ================================================================== *)
(** ** Views of the two scripts used in the statements *)
(* ================================================================== *)

Module AggregatorViews.
Import Py Codec OS OS.Notations Docx Aggregator.

(** The names [glob] yields, and the text of a usable backup. *)
Definition names (w : world) : list str :=
  filter glob_match (map fst (directory w)).

Definition backup_text (orig_path : str) (w : world) : option str :=
  match lookup orig_path (directory w) with
  | Some (File data) => option_map universal_newlines (utf8_decode false data)
  | _ => None
  end.

Definition backup_path (path : str) : str :=
  with_suffix path (suffix path ++ lit ".orig.txt").

Definition NOT_AVAILABLE : str :=
  lit "python-docx not available; cannot extract text".

(** [e] is the block the aggregator builds for the transcript [t]. *)
Definition block_of (Document : option (option bytes -> outcome document))
           (w : world) (t : str * str) (e : str) : Prop :=
  fst (transcript_entry Document t w) = Return e.

(** The identifiers and names the pattern stands for. *)
Definition fixed_width_id (decimal : char -> option N) (pid : str) : Prop :=
  exists d1 d2 d3,
    isdecimal decimal d1 = true /\ isdecimal decimal d2 = true
    /\ isdecimal decimal d3 = true /\ pid = lit "PATIENT_" ++ [d1; d2; d3].

Definition names_transcript (decimal : char -> option N) (name pid : str)
  : Prop :=
  fixed_width_id decimal pid
  /\ exists pre, name = pre ++ lit "transcript_" ++ pid ++ lit ".docx".

(** What the rest of the machine can see of a run: the result, both
    output streams and the aggregate file. *)
Definition observe {A : Type} (r : outcome A * world)
  : outcome A * list str * list str * option node :=
  (fst r, stdout (snd r), stderr (snd r),
   lookup AGGREGATE_NAME (directory (snd r))).

(** The outcome of [extract_text_from_docx] and of the loop body. *)
Definition extract_outcome (Document : option (option bytes -> outcome document))
           (path : str) (w : world) : outcome str :=
  match Document with
  | None => Raise (RuntimeError NOT_AVAILABLE)
  | Some parse =>
      match fst (open_package parse path w) with
      | Return doc => Return (join [LF] (extract_lines doc))
      | Raise e => Raise e
      end
  end.

Definition entry_outcome (Document : option (option bytes -> outcome document))
           (w : world) (t : str * str) : outcome str :=
  match backup_text (backup_path (snd t)) w with
  | Some c => Return (entry_text (fst t) c)
  | None =>
      match extract_outcome Document (snd t) w with
      | Return c => Return (entry_text (fst t) c)
      | Raise e => Raise e
      end
  end.

(** The end of [build_aggregate], from the time stamp on. *)
Definition finish (ts : list (str * str)) (entries : list str) : M N :=
  stamp <- now ;;
  write_text AGGREGATE_NAME
    (join [LF] entries ++ [LF] ++ footer stamp ts) ;;;
  out_path <- path_str AGGREGATE_NAME ;;
  print (lit "Wrote aggregate file: " ++ out_path ++ lit " ("
         ++ str_of_N (N.of_nat (length ts)) ++ lit " transcripts)") ;;;
  ret 0.

(** A line of [extract_text_from_docx] that carries the markers. *)
Definition wrapped (para : paragraph) : Prop :=
  paragraph_line para = lit "**" ++ rstrip (paragraph_text para) ++ lit "**".

End AggregatorViews.

Module ConverterViews.
Import Py Codec OS OS.Notations Docx Converter.

Definition PK : bytes := blit "PK".

(** The backup sidecar of a source. *)
Definition backup_of (src : str) : str :=
  with_suffix src (suffix src ++ lit ".orig.txt").

Definition arial_12 : font := Font (Some Arial) (Some Arial) (Some 12).

Definition example_text : str :=
  lit "**Question 1**" ++ [LF] ++ [LF] ++ lit "An answer.".

(** The conversion proper, once the text has been read. *)
Definition rewrite_source (package_bytes : document -> bytes)
           (src text : str) (verbose : bool) : M bool :=
  present <- path_exists (backup_of src) ;;
  (if negb present then write_text (backup_of src) text else ret tt) ;;;
  doc <- lift (build_document text) ;;
  write_bytes src (package_bytes doc) ;;;
  if_verbose verbose (lit "Converted -> " ++ src) ;;;
  ret true.

(** The lines the loop body gets through: the blank ones, which get no
    run, and those whose text without the markers XML can hold. *)
Definition accepted_line (line : str) : bool :=
  match strip line with
  | [] => true
  | _ :: _ => forallb xml_char (remove_marker line)
  end.

(** The paragraph of a line with text. *)
Definition text_paragraph (line : str) : paragraph :=
  Paragraph [Run (remove_marker line)
                 (if contains MARKER line then Some true else None)
                 arial_12].

(** The paragraph the loop adds for a line it gets through, and the
    document of a text all of whose lines it gets through. *)
Definition paragraph_of_line (line : str) : paragraph :=
  match strip line with
  | [] => Paragraph []
  | _ :: _ => text_paragraph line
  end.

Definition document_of (text : str) : document :=
  Document_ (Font (Some Arial) None (Some 12))
            (map paragraph_of_line (splitlines text)).

(** The document of the sample text. *)
Definition example_document : document :=
  Document_ (Font (Some Arial) None (Some 12))
            [Paragraph [Run (lit "Question 1") (Some true) arial_12];
             Paragraph [];
             Paragraph [Run (lit "An answer.") None arial_12]].

End ConverterViews.

(* ================================================================== *)
(** ** Sample data *)
(* ================================================================== *)

Module Examples.
Import Py Codec OS Docx.

(** A stand-in for the writer of python-docx: the signature, then the
    texts of the paragraphs. *)
Definition sample_package (d : document) : bytes :=
  blit "PK" ++
  concat (map (fun p => match utf8_encode (paragraph_text p) with
                        | Some b => b
                        | None => []
                        end) (paragraphs d)).

(** A parser that knows one document. *)
Definition question_parse (entry : option bytes) : outcome document :=
  Return (Document_ no_font
            [Paragraph [Run (lit "Question 1 ") (Some true) no_font];
             Paragraph [];
             Paragraph [Run (lit "An ") None no_font;
                        Run (lit "answer.") (Some true) no_font]]).

(** [fnmatch] at the default pattern. *)
Definition sample_fnmatch (name pattern : str) : bool :=
  Aggregator.glob_match name.

Definition src1 : str := lit "transcript_PATIENT_001.docx".
Definition src2 : str := lit "transcript_PATIENT_002.docx".
Definition src10 : str := lit "transcript_PATIENT_010.docx".

(** [b"caf\xe9\n"]: Latin-1 text, no valid UTF-8. *)
Definition latin1_source : bytes := [x63; x61; x66; xe9; x0a].

Definition stamp : str := lit "2025-01-02 03:04 UTC".

Definition converter_world : world :=
  World (lit "/data") stamp
        [(src1, File latin1_source); (src2, File (blit "**Q1**"))] [] [].

Definition unreadable_world : world :=
  World (lit "/data") stamp [(src1, NoAccess)] [] [].

Definition valid_world : world :=
  World (lit "/data") stamp [(src1, File (blit "PK-package"))] [] [].

Definition backed_up_world : world :=
  World (lit "/data") stamp
        [(src1, File (blit "**Q1**"));
         (src1 ++ lit ".orig.txt", File (blit "first text"))] [] [].

(** Two transcripts with their backups, listed out of order, and a name
    of the glob the pattern rejects. *)
Definition aggregator_world : world :=
  World (lit "/data") stamp
        [(src10, File (blit "PK"));
         (lit "transcript_PATIENT_0001.docx", File (blit "PK"));
         (src2, File (blit "PK"));
         (src2 ++ lit ".orig.txt", File (blit "two"));
         (src10 ++ lit ".orig.txt", File (blit "ten"))] [] [].

Definition aggregator_world_without : world :=
  set_directory
    [(src10, File (blit "PK"));
     (src2, File (blit "PK"));
     (src2 ++ lit ".orig.txt", File (blit "two"));
     (src10 ++ lit ".orig.txt", File (blit "ten"))] aggregator_world.

(** A transcript without backup. *)
Definition bare_world : world :=
  World (lit "/data") stamp [(src1, File (blit "PK"))] [] [].

(** A paragraph with a line break inside its only run, and the document
    that holds nothing else. *)
Definition soft_break_paragraph : paragraph :=
  Paragraph [Run (lit "top" ++ [LF] ++ lit "bottom") (Some true) no_font].

Definition soft_break_document : document :=
  Document_ no_font [soft_break_paragraph].

Definition soft_break_parse (entry : option bytes) : outcome document :=
  Return soft_break_document.

(** A paragraph whose text is that of a hyperlink, beside an empty run
    of its own. *)
Definition link_paragraph : paragraph :=
  Para [Direct (Run [] None no_font);
        Hyperlink [Run (lit "link") None no_font]].

(** A line with the control character U+0001. *)
Definition control_line : str := lit "a" ++ [1] ++ lit "b".

Definition control_world : world :=
  World (lit "/data") stamp [(src1, File [x61; x01; x62])] [] [].

(** [fnmatch] for patterns made of ordinary characters and [*]. *)
Fixpoint wildcard (pattern : str) : str -> bool :=
  match pattern with
  | [] => fun name => match name with [] => true | _ :: _ => false end
  | c :: rest =>
      if c =? STAR then
        fix star (name : str) : bool :=
          wildcard rest name
          || match name with
             | [] => false
             | _ :: name' => star name'
             end
      else
        fun name =>
          match name with
          | x :: name' => (x =? c) && wildcard rest name'
          | [] => false
          end
  end.

Definition wildcard_fnmatch (name pattern : str) : bool :=
  wildcard pattern name.

(** The pattern without the extension, which selects the sidecars too. *)
Definition wide_pattern : str := lit "transcript_PATIENT_*".

(** A name of the glob that is more than [transcript_], an identifier
    and [.docx], with its backup. *)
Definition odd_name : str :=
  lit "transcript_PATIENT_Xtranscript_PATIENT_007.docx".

Definition odd_world : world :=
  World (lit "/data") stamp
        [(odd_name, File (blit "PK"));
         (odd_name ++ lit ".orig.txt", File (blit "odd"))] [] [].

End Examples.

(* ================================================================== *)
(** ** Views and sample data for the properties of whole runs *)
(* ================================================================== *)

Module DiscoveryViews.
Import Py Codec OS OS.Notations Docx Aggregator AggregatorViews.

(** The order of two discovered transcripts: both keys parse and the
    first is not the greater. *)
Definition key_order (decimal : char -> option N) (a b : str * str) : Prop :=
  exists ka kb,
    sort_key decimal a = Return ka /\ sort_key decimal b = Return kb
    /\ ka <= kb.

(** The transcripts of number [k]. *)
Definition has_key (decimal : char -> option N) (k : N) (t : str * str)
  : bool :=
  match sort_key decimal t with
  | Return n => n =? k
  | Raise _ => false
  end.

(** The world after the message of a run that found nothing. *)
Definition nothing_found (w : world) : world :=
  World (root w) (utcnow w) (directory w) (stdout w)
        (stderr w ++ [lit "No transcript files found."]).

(** The text of the aggregate file. *)
Definition aggregate_text (stamp : str) (ts : list (str * str))
           (entries : list str) : str :=
  join [LF] entries ++ [LF] ++ footer stamp ts.

Definition wrote_line (w : world) (ts : list (str * str)) : str :=
  lit "Wrote aggregate file: " ++ (root w ++ lit "/" ++ AGGREGATE_NAME)
  ++ lit " (" ++ str_of_N (N.of_nat (length ts)) ++ lit " transcripts)".

End DiscoveryViews.

Module MoreExamples.
Import Py Codec OS Docx Examples.

(** A directory whose only transcript-like name has four digits. *)
Definition rejected_world : world :=
  World (lit "/data") stamp
        [(lit "transcript_PATIENT_0001.docx", File (blit "PK"));
         (lit "notes.txt", File (blit "n"))] [] [].

(** Two names of the same number, listed before a smaller one. *)
Definition tie_names : list str :=
  [lit "transcript_PATIENT_Xtranscript_PATIENT_007.docx";
   lit "transcript_PATIENT_007.docx";
   lit "transcript_PATIENT_003.docx"].

Definition tie_world : world :=
  World (lit "/data") stamp
        (map (fun n => (n, File (blit "PK"))) tie_names) [] [].


(** A parser that rejects everything. *)
Definition no_package (entry : option bytes) : outcome document :=
  Raise PackageNotFoundError.

End MoreExamples.

Module ConversionViews.
Import Py Codec OS OS.Notations Docx Converter ConverterViews.

(** What [read_text(encoding='utf-8', errors='replace')] gives for the
    bytes of a file, and the bytes [write_text] stores for a text. *)
Definition decoded (data : bytes) : str :=
  match utf8_decode true data with
  | Some t => universal_newlines t
  | None => []
  end.

Definition encoded (text : str) : bytes :=
  match utf8_encode text with
  | Some b => b
  | None => []
  end.

(** The answer of [is_valid_docx] in a world. *)
Definition valid_at (w : world) (path : str) : bool :=
  match lookup path (directory w) with
  | Some (File data) => bytes_eqb (firstn 2 data) PK
  | _ => false
  end.

(** The directory after the backup step and after the whole conversion
    of a source with the bytes [data]. *)
Definition with_backup (src : str) (text : str) (d : list (str * node))
  : list (str * node) :=
  match lookup (backup_of src) d with
  | Some _ => d
  | None => store (backup_of src) (File (encoded text)) d
  end.

Definition converted_directory (package_bytes : document -> bytes)
           (src : str) (data : bytes) (doc : document)
           (d : list (str * node)) : list (str * node) :=
  store src (File (package_bytes doc)) (with_backup src (decoded data) d).

(** The world after one more line on standard output. *)
Definition said (verbose : bool) (line : str) (w : world) : world :=
  if verbose
  then World (root w) (utcnow w) (directory w) (stdout w ++ [line]) (stderr w)
  else w.

Definition skip_line (src : str) : str := lit "SKIP (already valid): " ++ src.
Definition converted_line (src : str) : str := lit "Converted -> " ++ src.
Definition done_line (n : N) : str :=
  lit "Done. " ++ str_of_N n ++ lit " file(s) converted.".

(** The names [ROOT.glob(pattern)] yields. *)
Definition matching (fnmatch : str -> str -> bool) (pattern : str)
           (w : world) : list str :=
  filter (fun name => fnmatch name pattern) (map fst (directory w)).


(** The files [main] works on, in its order. *)
Definition files_of (fnmatch : str -> str -> bool) (pattern : str)
           (w : world) : list str :=
  sort_by str_leb (fun p => p) (matching fnmatch pattern w).

(** The world after the message of a run that matched nothing. *)
Definition nothing_matched (w : world) : world :=
  World (root w) (utcnow w) (directory w) (stdout w)
        (stderr w ++ [lit "No transcript files found matching pattern"]).

(** The files a run has to convert. *)
Definition to_convert (force : bool) (w : world) (f : str) : bool :=
  force || negb (valid_at w f).

End ConversionViews.

Module PipelineViews.
Import Py Codec OS OS.Notations Docx.





End PipelineViews.

(* ================================================================== *)
(** ** Facts about the string primitives *)
(* ================================================================== *)

Module PyFacts.
Import Py.

Lemma str_eqb_eq (a b : str) : str_eqb a b = true <-> a = b.
Proof.
  revert b; induction a as [|x a IH]; intros [|y b]; simpl; split;
    try congruence; try reflexivity.
  - rewrite andb_true_iff, N.eqb_eq, IH. intros [-> ->]; reflexivity.
  - intros H; injection H as -> ->.
    rewrite andb_true_iff, N.eqb_eq, IH; split; reflexivity.
Qed.

Lemma str_eqb_refl (a : str) : str_eqb a a = true.
Proof. apply str_eqb_eq; reflexivity. Qed.

Lemma str_eqb_neq (a b : str) : str_eqb a b = false <-> a <> b.
Proof.
  rewrite <- str_eqb_eq. destruct (str_eqb a b); split; congruence.
Qed.


Lemma strip_prefix_app (p r : str) : strip_prefix p (p ++ r) = Some r.
Proof.
  induction p as [|x p IH]; simpl; [reflexivity|].
  rewrite N.eqb_refl. exact IH.
Qed.

Lemma strip_prefix_Some (p s r : str) :
  strip_prefix p s = Some r <-> s = p ++ r.
Proof.
  split; [|intros ->; apply strip_prefix_app].
  revert s; induction p as [|x p IH]; intros s; simpl.
  - congruence.
  - destruct s as [|y s]; [discriminate|].
    destruct (N.eqb_spec x y) as [->|]; [|discriminate].
    intros H. f_equal. apply IH, H.
Qed.

Lemma startswith_app (p s : str) :
  startswith p s = true <-> exists r, s = p ++ r.
Proof.
  unfold startswith. destruct (strip_prefix p s) as [r|] eqn:E.
  - apply strip_prefix_Some in E. split; [eauto | reflexivity].
  - split; [discriminate|]. intros [r ->].
    rewrite strip_prefix_app in E. discriminate.
Qed.

Lemma endswith_app (p s : str) :
  endswith p s = true <-> exists r, s = r ++ p.
Proof.
  unfold endswith. rewrite startswith_app. split.
  - intros [r E]. exists (rev r).
    rewrite <- (rev_involutive s), E, rev_app_distr, rev_involutive.
    reflexivity.
  - intros [r ->]. exists (rev r). apply rev_app_distr.
Qed.

(** *** Whitespace and trimming *)

Lemma lstrip_nil (s : str) : lstrip s = [] <-> all_space s.
Proof.
  induction s as [|c s IH]; simpl.
  - split; [constructor | reflexivity].
  - destruct (isspace c) eqn:E.
    + rewrite IH. split; [intros H; constructor; assumption|].
      intros H; inversion H; assumption.
    + split; [discriminate|]. intros H; inversion H; congruence.
Qed.

Lemma rstrip_nil (s : str) : rstrip s = [] <-> all_space s.
Proof.
  induction s as [|c s IH]; simpl.
  - split; [constructor | reflexivity].
  - destruct (rstrip s) as [|d r] eqn:E.
    + destruct (isspace c) eqn:Ec.
      * split; [|reflexivity]. intros _. constructor; [assumption|].
        apply IH; reflexivity.
      * split; [discriminate|]. intros H; inversion H; congruence.
    + split; [discriminate|]. intros H; inversion H; subst.
      assert (d :: r = []) by (apply IH; assumption). discriminate.
Qed.

Lemma lstrip_suffix (s : str) : exists w, s = w ++ lstrip s /\ all_space w.
Proof.
  induction s as [|c s [w [E W]]]; simpl.
  - exists []; split; [reflexivity | constructor].
  - destruct (isspace c) eqn:Ec.
    + exists (c :: w). split; [simpl; congruence | constructor; assumption].
    + exists []. split; [reflexivity | constructor].
Qed.

Lemma rstrip_prefix (s : str) : exists w, s = rstrip s ++ w /\ all_space w.
Proof.
  induction s as [|c s [w [E W]]]; simpl.
  - exists []; split; [reflexivity | constructor].
  - destruct (rstrip s) as [|d r] eqn:Er.
    + destruct (isspace c) eqn:Ec.
      * exists (c :: w). simpl in E |- *. split; [congruence | constructor; assumption].
      * exists w. simpl in E |- *. split; [congruence | assumption].
    + exists w. split; [|assumption]. simpl. f_equal. exact E.
Qed.

Lemma all_space_app (a b : str) : all_space (a ++ b) <-> all_space a /\ all_space b.
Proof. apply Forall_app. Qed.

Lemma strip_nil (s : str) : strip s = [] <-> all_space s.
Proof.
  unfold strip. rewrite rstrip_nil.
  destruct (lstrip_suffix s) as [w [E W]].
  split; intros H.
  - rewrite E. apply all_space_app; split; assumption.
  - rewrite E in H. apply all_space_app in H. apply H.
Qed.




End PyFacts.

Module LineFacts.
Import Py PyFacts.

(** Induction two characters at a time, as [splitlines] and
    [remove_marker] recurse. *)
Lemma str_ind2 (P : str -> Prop) :
  P [] -> (forall c, P [c]) ->
  (forall c c' t, P t -> P (c' :: t) -> P (c :: c' :: t)) ->
  forall s, P s.
Proof.
  intros H0 H1 H2 s.
  assert (H : P s /\ forall c, P (c :: s)).
  { induction s as [|c s [IH1 IH2]]; split; auto. }
  apply H.
Qed.


Lemma splitlines_no_break (s l : str) : In l (splitlines s) -> no_break l.
Proof.
  revert l. induction s as [|c|c c' t IH1 IH2] using str_ind2; intros l.
  - simpl. tauto.
  - simpl. destruct (islinebreak c) eqn:E; simpl; intros [<-|[]].
    + constructor.
    + constructor; [assumption | constructor].
  - change (splitlines (c :: c' :: t)) with
      (if islinebreak c
       then if (c =? CR) && (c' =? LF) then [] :: splitlines t
            else [] :: splitlines (c' :: t)
       else match splitlines (c' :: t) with
            | [] => [[c]]
            | l0 :: ls => (c :: l0) :: ls
            end).
    destruct (islinebreak c) eqn:E.
    + destruct ((c =? CR) && (c' =? LF)); intros [<-|H]; try constructor;
        auto.
    + destruct (splitlines (c' :: t)) as [|l0 ls] eqn:E'.
      * intros [<-|[]]. constructor; [assumption | constructor].
      * intros [<-|H].
        -- constructor; [assumption|]. apply IH2. left; reflexivity.
        -- apply IH2. right; assumption.
Qed.

Lemma rstrip_char_no_break (l : str) : no_break l -> rstrip_char CR l = l.
Proof.
  induction 1 as [|c l Hc Hl IH]; simpl; [reflexivity|].
  rewrite IH. destruct l; [|reflexivity].
  destruct (N.eqb_spec c CR) as [->|]; [discriminate Hc | reflexivity].
Qed.

(** *** [join] *)

Lemma join_cons (sep x : str) (xs : list str) :
  xs <> [] -> join sep (x :: xs) = x ++ sep ++ join sep xs.
Proof. destruct xs; [congruence | reflexivity]. Qed.

Lemma join_head (sep x : str) (l : list str) :
  join sep (x :: l) = x ++ concat (map (fun y => sep ++ y) l).
Proof.
  revert x. induction l as [|y l IH]; intros x.
  - simpl. rewrite app_nil_r. reflexivity.
  - rewrite join_cons by discriminate. rewrite IH. simpl.
    rewrite <- !app_assoc. reflexivity.
Qed.

(** Where an element of the list lies in the joined text. *)
Lemma join_middle (sep x : str) (l1 l2 : list str) :
  join sep (l1 ++ x :: l2)
  = concat (map (fun y => y ++ sep) l1) ++ x
    ++ concat (map (fun y => sep ++ y) l2).
Proof.
  induction l1 as [|a l1 IH].
  - apply join_head.
  - change ((a :: l1) ++ x :: l2) with (a :: (l1 ++ x :: l2)).
    rewrite join_cons by (destruct l1; discriminate).
    rewrite IH. simpl. rewrite <- !app_assoc. reflexivity.
Qed.

(** *** Removing the marker *)

Lemma startswith_two (a b c c' : char) (t : str) :
  startswith [a; b] (c :: c' :: t) = (c =? a) && (c' =? b).
Proof.
  unfold startswith. simpl.
  rewrite (N.eqb_sym a c), (N.eqb_sym b c').
  destruct (c =? a), (c' =? b); reflexivity.
Qed.

Lemma startswith_two_short (a b c : char) : startswith [a; b] [c] = false.
Proof. unfold startswith. simpl. destruct (a =? c); reflexivity. Qed.

Lemma contains_marker_cons (c c' : char) (t : str) :
  contains MARKER (c :: c' :: t)
  = ((c =? STAR) && (c' =? STAR)) || contains MARKER (c' :: t).
Proof.
  change (contains MARKER (c :: c' :: t))
    with (startswith MARKER (c :: c' :: t) || contains MARKER (c' :: t)).
  unfold MARKER at 1. rewrite startswith_two. reflexivity.
Qed.

Lemma contains_marker_short (c : char) : contains MARKER [c] = false.
Proof.
  change (contains MARKER [c])
    with (startswith MARKER [c] || (startswith MARKER [] || false)).
  unfold MARKER. rewrite startswith_two_short. reflexivity.
Qed.

Lemma remove_marker_cons (c c' : char) (t : str) :
  remove_marker (c :: c' :: t)
  = if (c =? STAR) && (c' =? STAR) then remove_marker t
    else c :: remove_marker (c' :: t).
Proof. reflexivity. Qed.

Lemma remove_marker_keep (c : char) (t : str) :
  (c =? STAR) = false -> remove_marker (c :: t) = c :: remove_marker t.
Proof.
  intros E. destruct t; [reflexivity|].
  rewrite remove_marker_cons, E. reflexivity.
Qed.

(** No occurrence of the marker is left. *)
Lemma remove_marker_clean_aux (s : str) :
  contains MARKER (remove_marker s) = false
  /\ forall c, c <> STAR -> contains MARKER (c :: remove_marker s) = false.
Proof.
  assert (G : forall r c, c <> STAR -> contains MARKER r = false ->
                          contains MARKER (c :: r) = false).
  { intros r c Hc Hr. apply N.eqb_neq in Hc. destruct r as [|d r].
    - apply contains_marker_short.
    - rewrite contains_marker_cons, Hc, Hr. reflexivity. }
  induction s as [|c|c c' t [IH1 IH1'] [IH2 IH2']] using str_ind2.
  - split; [reflexivity|]. intros c Hc. apply G; auto.
  - split; [apply contains_marker_short|]. intros d Hd.
    apply G; [assumption | apply contains_marker_short].
  - rewrite remove_marker_cons.
    destruct ((c =? STAR) && (c' =? STAR)) eqn:E.
    + split; assumption.
    + assert (K : contains MARKER (c :: remove_marker (c' :: t)) = false).
      { destruct (N.eqb_spec c STAR) as [->|Hc].
        - simpl in E.
          rewrite (remove_marker_keep _ _ E).
          rewrite contains_marker_cons, E, andb_false_r, orb_false_l.
          rewrite <- (remove_marker_keep _ _ E). exact IH2.
        - apply IH2'. assumption. }
      split; [exact K|]. intros d Hd. apply G; assumption.
Qed.

Lemma remove_marker_clean (s : str) :
  contains MARKER (remove_marker s) = false.
Proof. apply remove_marker_clean_aux. Qed.

(** A line without the marker is kept as it is. *)
Lemma remove_marker_absent (s : str) :
  contains MARKER s = false -> remove_marker s = s.
Proof.
  induction s as [|c|c c' t IH1 IH2] using str_ind2; try reflexivity.
  rewrite contains_marker_cons, remove_marker_cons.
  intros H. apply orb_false_iff in H. destruct H as [H1 H2].
  rewrite H1. f_equal. apply IH2, H2.
Qed.

(** Only stars are removed, and they go in pairs. *)
Lemma remove_marker_others (s : str) :
  filter (fun c => negb (c =? STAR)) (remove_marker s)
  = filter (fun c => negb (c =? STAR)) s.
Proof.
  induction s as [|c|c c' t IH1 IH2] using str_ind2; try reflexivity.
  rewrite remove_marker_cons.
  destruct ((c =? STAR) && (c' =? STAR)) eqn:E.
  - apply andb_true_iff in E. destruct E as [E1 E2].
    simpl. rewrite E1, E2. simpl. exact IH1.
  - change (filter (fun c0 => negb (c0 =? STAR)) (c :: remove_marker (c' :: t)))
      with (if negb (c =? STAR)
            then c :: filter (fun c0 => negb (c0 =? STAR)) (remove_marker (c' :: t))
            else filter (fun c0 => negb (c0 =? STAR)) (remove_marker (c' :: t))).
    rewrite IH2. reflexivity.
Qed.

End LineFacts.

Module OSFacts.
Import Py Codec OS OS.Notations PyFacts.

Lemma lookup_store_same (n : str) (x : node) (d : list (str * node)) :
  lookup n (store n x d) = Some x.
Proof.
  induction d as [|[m y] d IH]; simpl.
  - rewrite str_eqb_refl. reflexivity.
  - destruct (str_eqb n m) eqn:E; simpl; rewrite E; [reflexivity | exact IH].
Qed.

Lemma lookup_store_other (m n : str) (x : node) (d : list (str * node)) :
  m <> n -> lookup m (store n x d) = lookup m d.
Proof.
  intros Hmn. induction d as [|[k y] d IH]; simpl.
  - apply str_eqb_neq in Hmn. rewrite Hmn. reflexivity.
  - destruct (str_eqb n k) eqn:E; simpl.
    + apply str_eqb_eq in E. subst k.
      apply str_eqb_neq in Hmn. rewrite Hmn. reflexivity.
    + rewrite IH. reflexivity.
Qed.

Lemma lookup_without (m n : str) (x : node) (d1 d2 : list (str * node)) :
  m <> n -> lookup m (d1 ++ (n, x) :: d2) = lookup m (d1 ++ d2).
Proof.
  intros Hmn. induction d1 as [|[k y] d1 IH]; simpl.
  - apply str_eqb_neq in Hmn. rewrite Hmn. reflexivity.
  - rewrite IH. reflexivity.
Qed.

(** *** Path suffixes *)

Lemma last_dot_suffix (s r : str) :
  last_dot s = Some r -> exists pre, s = pre ++ r.
Proof.
  revert r. induction s as [|c s IH]; intros r; simpl; [discriminate|].
  destruct (last_dot s) as [r'|].
  - intros H; injection H as <-. destruct (IH _ eq_refl) as [pre ->].
    exists (c :: pre). reflexivity.
  - destruct (c =? 46); [|discriminate].
    intros H; injection H as <-. exists []. reflexivity.
Qed.

Lemma suffix_is_suffix (name : str) : exists pre, name = pre ++ suffix name.
Proof.
  unfold suffix. destruct name as [|c t].
  - exists []. reflexivity.
  - destruct (last_dot t) as [r|] eqn:E.
    + destruct r as [|a [|b r]];
        try (exists (c :: t); rewrite app_nil_r; reflexivity).
      destruct (last_dot_suffix _ _ E) as [pre ->].
      exists (c :: pre). reflexivity.
    + exists (c :: t). rewrite app_nil_r. reflexivity.
Qed.

(** [path.with_suffix(path.suffix + extra)] appends [extra] to the
    name. *)
Lemma with_suffix_append (name extra : str) :
  with_suffix name (suffix name ++ extra) = name ++ extra.
Proof.
  unfold with_suffix. destruct (suffix_is_suffix name) as [pre E].
  revert E. generalize (suffix name). intros suf ->.
  rewrite length_app, Nat.add_sub.
  rewrite firstn_app, Nat.sub_diag, firstn_all. simpl.
  rewrite app_nil_r, <- app_assoc. reflexivity.
Qed.

Lemma append_neq (name extra : str) : extra <> [] -> name ++ extra <> name.
Proof.
  intros He E. apply (f_equal (@length _)) in E. rewrite length_app in E.
  destruct extra; [congruence | simpl in E; lia].
Qed.

(** *** Sorting *)

Section Permuting.
Variables (A K : Type) (leb : K -> K -> bool) (key : A -> K).

Lemma insert_by_permutation (x : A) (l : list A) :
  Permutation (insert_by leb key x l) (x :: l).
Proof.
  induction l as [|y l IH]; simpl; [reflexivity|].
  destruct (leb (key x) (key y)); [reflexivity|].
  rewrite IH. apply perm_swap.
Qed.

Lemma sort_by_permutation (l : list A) : Permutation (sort_by leb key l) l.
Proof.
  induction l as [|x l IH]; simpl; [reflexivity|].
  rewrite insert_by_permutation. constructor. exact IH.
Qed.
End Permuting.

Section Sorting.
Variables (A : Type) (key : A -> N).

Lemma insert_by_perm (x : A) (l : list A) :
  Permutation (insert_by N.leb key x l) (x :: l).
Proof. apply insert_by_permutation. Qed.

Lemma sort_by_perm (l : list A) : Permutation (sort_by N.leb key l) l.
Proof. apply sort_by_permutation. Qed.

Lemma insert_by_sorted (x : A) (l : list A) :
  StronglySorted (key_le key) l -> StronglySorted (key_le key) (insert_by N.leb key x l).
Proof.
  induction 1 as [|y l Hs IH Hall]; simpl.
  - constructor; constructor.
  - destruct (N.leb_spec (key x) (key y)) as [Hle|Hlt].
    + constructor; [constructor; assumption|].
      constructor; [exact Hle|].
      eapply Forall_impl; [|exact Hall].
      unfold key_le. intros a Ha. lia.
    + constructor; [exact IH|].
      apply (Permutation_Forall (Permutation_sym (insert_by_perm x l))).
      constructor; [unfold key_le; lia | exact Hall].
Qed.

Lemma sort_by_sorted (l : list A) : StronglySorted (key_le key) (sort_by N.leb key l).
Proof.
  induction l as [|x l IH]; simpl; [constructor|].
  apply insert_by_sorted, IH.
Qed.

(** In a sorted list an element with a smaller key stands before one
    with a larger key. *)
Lemma sorted_before (l : list A) (x y : A) :
  StronglySorted (key_le key) l -> In x l -> In y l -> key x < key y ->
  exists l1 l2 l3, l = l1 ++ x :: l2 ++ y :: l3.
Proof.
  induction 1 as [|a l Hs IH Hall]; intros Hx Hy Hlt; [destruct Hx|].
  destruct Hx as [->|Hx].
  - destruct Hy as [->|Hy]; [lia|].
    destruct (in_split _ _ Hy) as [l2 [l3 ->]].
    exists [], l2, l3. reflexivity.
  - destruct Hy as [->|Hy].
    + rewrite Forall_forall in Hall. specialize (Hall _ Hx).
      unfold key_le in Hall. lia.
    + destruct (IH Hx Hy Hlt) as [l1 [l2 [l3 ->]]].
      exists (a :: l1), l2, l3. reflexivity.
Qed.
End Sorting.

(** *** Loops that only read *)

Lemma for_each_readonly {A B : Type} (f : A -> M B) (w : world) :
  (forall x, snd (f x w) = w) ->
  forall xs, snd (for_each f xs w) = w
    /\ (forall ys, fst (for_each f xs w) = Return ys ->
          Forall2 (fun x y => fst (f x w) = Return y) xs ys)
    /\ (forall e, fst (for_each f xs w) = Raise e ->
          exists x, In x xs /\ fst (f x w) = Raise e)
    /\ (forall x e, In x xs -> fst (f x w) = Raise e ->
          exists e', fst (for_each f xs w) = Raise e').
Proof.
  intros Hro. induction xs as [|x xs [IH1 [IH2 [IH3 IH4]]]].
  - simpl. repeat split.
    + intros ys H. injection H as <-. constructor.
    + discriminate.
    + intros x e [].
  - simpl. unfold bind.
    pose proof (Hro x) as Hx. destruct (f x w) as [[y|e] w1] eqn:Ef;
      simpl in Hx; subst w1.
    + destruct (for_each f xs w) as [[ys|e] w2] eqn:Er; simpl in IH1; subst w2;
        simpl.
      * repeat split.
        -- intros zs H. injection H as <-.
           constructor; [rewrite Ef; reflexivity | apply IH2; reflexivity].
        -- discriminate.
        -- intros x' e [<-|Hin] He.
           ++ rewrite Ef in He. discriminate.
           ++ destruct (IH4 _ _ Hin He) as [e' He']. discriminate.
      * repeat split.
        -- discriminate.
        -- intros e' H. injection H as <-.
           destruct (IH3 _ eq_refl) as [x' [Hin Hx']].
           exists x'. split; [right|]; assumption.
        -- intros. eauto.
    + simpl. repeat split.
      * discriminate.
      * intros e' H. injection H as <-. exists x. rewrite Ef. auto.
      * intros. eauto.
Qed.

End OSFacts.

Module AggregatorFacts.
Import Py Codec OS OS.Notations Docx Aggregator AggregatorViews.
Import PyFacts LineFacts OSFacts.

Section Environment.
Variable decimal : char -> option N.
Variable Document : option (option bytes -> outcome document).

Lemma iter_transcript_paths_eq (w : world) :
  iter_transcript_paths decimal w
  = (sort_files decimal (collect decimal (names w)), w).
Proof. reflexivity. Qed.

Lemma read_from_backup_eq (p : str) (w : world) :
  read_from_backup p w = (Return (backup_text p w), w).
Proof.
  unfold read_from_backup, backup_text, bind, path_exists, try_except,
    read_text, read_bytes, bind, ret, raise. cbv beta iota.
  destruct (lookup p (directory w)) as [[data|]|] eqn:L; cbv beta iota;
    rewrite ?L; try reflexivity.
  destruct (utf8_decode false data); reflexivity.
Qed.

Lemma extract_readonly (p : str) (w : world) :
  snd (extract_text_from_docx Document p w) = w.
Proof.
  unfold extract_text_from_docx. destruct Document as [parse|];
    [|reflexivity].
  unfold bind, open_package, ret. cbv beta iota.
  destruct (lookup p (directory w)) as [[data|]|]; cbv beta iota;
    try reflexivity.
  - destruct (parse (Some data)); reflexivity.
  - destruct (parse None); reflexivity.
Qed.

Lemma transcript_entry_readonly (t : str * str) (w : world) :
  snd (transcript_entry Document t w) = w.
Proof.
  destruct t as [pid path]. unfold transcript_entry.
  unfold bind at 1. rewrite read_from_backup_eq.
  destruct (backup_text _ w) as [c|]; [reflexivity|].
  unfold bind. pose proof (extract_readonly path w) as H.
  destruct (extract_text_from_docx Document path w) as [[c|e] w'];
    simpl in H; subst; reflexivity.
Qed.

(** What a completed run leaves behind. *)
Lemma build_aggregate_success (w w' : world) (code : N) :
  build_aggregate decimal Document w = (Return code, w') ->
  (code = 1 /\ fst (iter_transcript_paths decimal w) = Return [])
  \/ (exists ts entries data,
        code = 0 /\ ts <> []
        /\ fst (iter_transcript_paths decimal w) = Return ts
        /\ Forall2 (fun t e => fst (transcript_entry Document t w) = Return e)
                   ts entries
        /\ utf8_encode (join [LF] entries ++ [LF] ++ footer (utcnow w) ts)
           = Some data
        /\ lookup AGGREGATE_NAME (directory w') = Some (File data)).
Proof.
  unfold build_aggregate. unfold bind at 1.
  rewrite iter_transcript_paths_eq.
  destruct (sort_files decimal (collect decimal (names w))) as [ts|e];
    simpl; [|discriminate].
  destruct ts as [|t ts].
  - unfold bind, eprint, ret. intros H. injection H as <- <-. left. auto.
  - unfold bind at 1.
    destruct (for_each_readonly (transcript_entry Document) w
                (fun x => transcript_entry_readonly x w) (t :: ts))
      as [Hw [Hok _]].
    destruct (for_each (transcript_entry Document) (t :: ts) w)
      as [[entries|e] w1]; simpl in Hw; subst w1; [|discriminate].
    specialize (Hok _ eq_refl).
    unfold bind at 1. unfold now at 1.
    unfold bind at 1. unfold write_text.
    destruct (utf8_encode _) as [data|] eqn:Enc.
    + unfold write_bytes.
      destruct (lookup AGGREGATE_NAME (directory w)) as [[old|]|] eqn:L;
        try discriminate;
        unfold bind, path_str, print, ret; simpl;
        intros H; injection H as <- <-; right;
        exists (t :: ts), entries, data; simpl;
        rewrite lookup_store_same; repeat split; auto; discriminate.
    + unfold bind, write_bytes, raise.
      destruct (lookup AGGREGATE_NAME (directory w)) as [[old|]|];
        discriminate.
Qed.

End Environment.

End AggregatorFacts.

Module AggregateOrder.
Import Py Codec OS OS.Notations Docx Aggregator AggregatorViews.
Import PyFacts LineFacts OSFacts AggregatorFacts.

Lemma utf8_encode_app (a b : str) (d : bytes) :
  utf8_encode (a ++ b) = Some d ->
  exists da db, utf8_encode a = Some da /\ utf8_encode b = Some db
                /\ d = da ++ db.
Proof.
  revert d. induction a as [|c a IH]; intros d; simpl.
  - intros H. exists [], d. auto.
  - destruct (utf8_encode_char c) as [bc|]; [|discriminate].
    destruct (utf8_encode (a ++ b)) as [r|]; [|discriminate].
    intros H; injection H as <-.
    destruct (IH _ eq_refl) as [da [db [-> [-> ->]]]].
    exists (bc ++ da), db. rewrite app_assoc. auto.
Qed.

Section Environment.
Variable decimal : char -> option N.
Variable Document : option (option bytes -> outcome document).

Lemma with_keys_spec (files : list (str * str)) (keyed : list (N * (str * str))) :
  with_keys decimal files = Return keyed ->
  map snd keyed = files
  /\ Forall (fun kt => sort_key decimal (snd kt) = Return (fst kt)) keyed.
Proof.
  revert keyed. induction files as [|t files IH]; intros keyed; simpl.
  - intros H; injection H as <-. split; constructor.
  - destruct (sort_key decimal t) as [k|e] eqn:Ek; [|discriminate].
    destruct (with_keys decimal files) as [ks|e]; [|discriminate].
    intros H; injection H as <-. destruct (IH _ eq_refl) as [E F].
    split; [simpl; congruence | constructor; assumption].
Qed.

(** The discovered list is ordered by the numeric key. *)
Lemma sort_files_before (files ts : list (str * str)) (t1 t2 : str * str)
      (n1 n2 : N) :
  sort_files decimal files = Return ts ->
  In t1 ts -> In t2 ts ->
  sort_key decimal t1 = Return n1 -> sort_key decimal t2 = Return n2 ->
  n1 < n2 ->
  exists T1 T2 T3, ts = T1 ++ t1 :: T2 ++ t2 :: T3.
Proof.
  unfold sort_files. destruct (with_keys decimal files) as [keyed|e] eqn:Ek;
    [|discriminate].
  intros H; injection H as <-. intros H1 H2 K1 K2 Hlt.
  destruct (with_keys_spec _ _ Ek) as [_ Hkeys].
  set (K := sort_by N.leb fst keyed) in *.
  assert (HK : Forall (fun kt => sort_key decimal (snd kt) = Return (fst kt)) K).
  { apply (Permutation_Forall (Permutation_sym (sort_by_perm _ fst keyed))).
    exact Hkeys. }
  rewrite Forall_forall in HK.
  apply in_map_iff in H1. destruct H1 as [[k1 u1] [E1 I1]].
  apply in_map_iff in H2. destruct H2 as [[k2 u2] [E2 I2]].
  simpl in E1, E2. subst u1 u2.
  pose proof (HK _ I1) as A1. pose proof (HK _ I2) as A2. simpl in A1, A2.
  assert (k1 = n1) by congruence. assert (k2 = n2) by congruence.
  subst k1 k2.
  destruct (sorted_before _ fst K (n1, t1) (n2, t2)
              (sort_by_sorted _ fst keyed) I1 I2 Hlt)
    as [L1 [L2 [L3 EK]]].
  exists (map snd L1), (map snd L2), (map snd L3).
  rewrite EK, map_app. simpl. rewrite map_app. reflexivity.
Qed.

(** C1.  When a run of the aggregator completes, two discovered
    transcripts whose identifiers have numeric values [n1 < n2] are
    listed in that order, and in the text written to the aggregate
    file (and in its bytes) the whole block of the first one comes
    before the block of the second one. *)
Theorem aggregate_blocks_in_numeric_order
    (w w' : world) (code : N) (ts : list (str * str))
    (I1 p1 I2 p2 : str) (n1 n2 : N) :
  build_aggregate decimal Document w = (Return code, w') ->
  fst (iter_transcript_paths decimal w) = Return ts ->
  In (I1, p1) ts -> In (I2, p2) ts ->
  sort_key decimal (I1, p1) = Return n1 ->
  sort_key decimal (I2, p2) = Return n2 ->
  n1 < n2 ->
  exists T1 T2 T3 E1 b1 E2 b2 E3,
    ts = T1 ++ (I1, p1) :: T2 ++ (I2, p2) :: T3
    /\ Forall2 (block_of Document w) T1 E1 /\ block_of Document w (I1, p1) b1
    /\ Forall2 (block_of Document w) T2 E2 /\ block_of Document w (I2, p2) b2
    /\ Forall2 (block_of Document w) T3 E3
    /\ exists pre mid post dpre d1 dmid d2 dpost,
        join [LF] (E1 ++ b1 :: E2 ++ b2 :: E3) ++ [LF] ++ footer (utcnow w) ts
        = pre ++ b1 ++ mid ++ b2 ++ post
        /\ pre = concat (map (fun e => e ++ [LF]) E1)
        /\ mid = concat (map (fun e => [LF] ++ e) E2) ++ [LF]
        /\ utf8_encode pre = Some dpre /\ utf8_encode b1 = Some d1
        /\ utf8_encode mid = Some dmid /\ utf8_encode b2 = Some d2
        /\ utf8_encode post = Some dpost
        /\ lookup AGGREGATE_NAME (directory w')
           = Some (File (dpre ++ d1 ++ dmid ++ d2 ++ dpost)).
Proof.
  intros Hrun Hts H1 H2 K1 K2 Hlt.
  destruct (build_aggregate_success _ _ _ _ _ Hrun)
    as [[_ Hnil]|[ts' [entries [data [_ [_ [Hts' [Hall [Henc Hfile]]]]]]]]].
  { rewrite Hnil in Hts. injection Hts as <-. destruct H1. }
  rewrite Hts' in Hts. injection Hts as ->.
  rewrite iter_transcript_paths_eq in Hts'. simpl in Hts'.
  destruct (sort_files_before _ _ _ _ _ _ Hts' H1 H2 K1 K2 Hlt)
    as [T1 [T2 [T3 ET]]].
  subst ts.
  apply Forall2_app_inv_l in Hall.
  destruct Hall as [E1 [R1 [F1 [F2 ->]]]].
  inversion F2 as [|? b1 ? R2 B1 F3]; subst.
  apply Forall2_app_inv_l in F3.
  destruct F3 as [E2 [R3 [F3 [F4 ->]]]].
  inversion F4 as [|? b2 ? E3 B2 F5]; subst.
  exists T1, T2, T3, E1, b1, E2, b2, E3.
  repeat (split; [assumption || reflexivity|]).
  set (pre := concat (map (fun e => e ++ [LF]) E1)).
  set (mid := concat (map (fun e => [LF] ++ e) E2) ++ [LF]).
  set (post := concat (map (fun e => [LF] ++ e) E3) ++ [LF]
               ++ footer (utcnow w)
                    (T1 ++ (I1, p1) :: T2 ++ (I2, p2) :: T3)).
  assert (Etext :
    join [LF] (E1 ++ b1 :: E2 ++ b2 :: E3) ++ [LF]
      ++ footer (utcnow w) (T1 ++ (I1, p1) :: T2 ++ (I2, p2) :: T3)
    = pre ++ b1 ++ mid ++ b2 ++ post).
  { unfold pre, mid, post.
    rewrite join_middle, map_app, concat_app.
    repeat (progress (rewrite <- ?app_assoc; simpl)). reflexivity. }
  rewrite Etext in Henc.
  destruct (utf8_encode_app _ _ _ Henc) as [dpre [r1 [Hpre [Hr1 ->]]]].
  destruct (utf8_encode_app _ _ _ Hr1) as [d1 [r2 [Hb1 [Hr2 ->]]]].
  destruct (utf8_encode_app _ _ _ Hr2) as [dmid [r3 [Hmid [Hr3 ->]]]].
  destruct (utf8_encode_app _ _ _ Hr3) as [d2 [dpost [Hb2 [Hpost ->]]]].
  exists pre, mid, post, dpre, d1, dmid, d2, dpost.
  repeat (split; [assumption || reflexivity|]). exact Hfile.
Qed.

End Environment.

End AggregateOrder.

Module Discovery.
Import Py Codec OS OS.Notations Docx Aggregator AggregatorViews.
Import PyFacts LineFacts OSFacts AggregatorFacts AggregateOrder.

Section Environment.
Variable decimal : char -> option N.
Variable Document : option (option bytes -> outcome document).

Lemma extract_text_from_docx_eq (p : str) (w : world) :
  extract_text_from_docx Document p w = (extract_outcome Document p w, w).
Proof.
  unfold extract_text_from_docx, extract_outcome.
  destruct Document as [parse|]; [|reflexivity].
  unfold bind, open_package, ret. cbv beta iota.
  destruct (lookup p (directory w)) as [[data|]|]; cbv beta iota;
    try reflexivity.
  - destruct (parse (Some data)); reflexivity.
  - destruct (parse None); reflexivity.
Qed.

Lemma transcript_entry_eq (t : str * str) (w : world) :
  transcript_entry Document t w = (entry_outcome Document w t, w).
Proof.
  destruct t as [pid path]. unfold transcript_entry, entry_outcome.
  unfold bind at 1. rewrite read_from_backup_eq.
  fold (backup_path path). simpl fst. simpl snd.
  destruct (backup_text (backup_path path) w) as [c|]; [reflexivity|].
  unfold bind. rewrite extract_text_from_docx_eq.
  destruct (extract_outcome Document path w); reflexivity.
Qed.

(** *** The pattern *)

Lemma match_here_Some (s pid : str) :
  match_here decimal s = Some pid ->
  fixed_width_id decimal pid
  /\ exists tail, s = lit "transcript_" ++ pid ++ lit ".docx" ++ tail
                  /\ at_end tail = true.
Proof.
  unfold match_here.
  destruct (strip_prefix (lit "transcript_") s) as [s1|] eqn:E1;
    [|discriminate].
  destruct (strip_prefix (lit "PATIENT_") s1) as [[|d1 [|d2 [|d3 s2]]]|] eqn:E2;
    try discriminate.
  destruct (isdecimal decimal d1 && isdecimal decimal d2
            && isdecimal decimal d3) eqn:D; [|discriminate].
  destruct (strip_prefix (lit ".docx") s2) as [s3|] eqn:E3; [|discriminate].
  destruct (at_end s3) eqn:E4; [|discriminate].
  intros H; injection H as <-.
  apply strip_prefix_Some in E1, E2, E3. subst s s1 s2.
  apply andb_true_iff in D. destruct D as [D D3].
  apply andb_true_iff in D. destruct D as [D1 D2].
  split.
  - exists d1, d2, d3. auto.
  - exists s3. split; [reflexivity | assumption].
Qed.

Lemma match_here_complete (d1 d2 d3 : char) (tail : str) :
  isdecimal decimal d1 = true -> isdecimal decimal d2 = true ->
  isdecimal decimal d3 = true -> at_end tail = true ->
  match_here decimal
    (lit "transcript_" ++ (lit "PATIENT_" ++ [d1; d2; d3]) ++ lit ".docx" ++ tail)
  = Some (lit "PATIENT_" ++ [d1; d2; d3]).
Proof.
  intros D1 D2 D3 T. unfold match_here.
  rewrite strip_prefix_app, <- app_assoc, strip_prefix_app.
  change ([d1; d2; d3] ++ lit ".docx" ++ tail)
    with (d1 :: d2 :: d3 :: lit ".docx" ++ tail).
  cbv beta iota.
  rewrite D1, D2, D3, strip_prefix_app, T. reflexivity.
Qed.

Lemma search_Some (s pid : str) :
  TRANSCRIPT_PATTERN_search decimal s = Some pid ->
  exists pre rest, s = pre ++ rest /\ match_here decimal rest = Some pid.
Proof.
  induction s as [|c s IH]; simpl.
  - discriminate.
  - destruct (match_here decimal (c :: s)) eqn:E.
    + intros H; injection H as <-. exists [], (c :: s). auto.
    + intros H. destruct (IH H) as [pre [rest [-> M]]].
      exists (c :: pre), rest. auto.
Qed.

Lemma search_unfold (s : str) :
  TRANSCRIPT_PATTERN_search decimal s
  = match match_here decimal s with
    | Some g => Some g
    | None =>
        match s with
        | [] => None
        | _ :: t => TRANSCRIPT_PATTERN_search decimal t
        end
    end.
Proof. destruct s; reflexivity. Qed.

Lemma search_None (pre rest : str) :
  TRANSCRIPT_PATTERN_search decimal (pre ++ rest) = None ->
  match_here decimal rest = None.
Proof.
  induction pre as [|c pre IH]; rewrite search_unfold.
  - simpl app. destruct (match_here decimal rest);
      [discriminate | reflexivity].
  - simpl app. destruct (match_here decimal (c :: pre ++ rest));
      [discriminate | exact IH].
Qed.

Lemma glob_match_shape (name : str) :
  glob_match name = true ->
  exists mid, name = lit "transcript_PATIENT_" ++ mid ++ lit ".docx".
Proof.
  unfold glob_match.
  destruct (strip_prefix (lit "transcript_PATIENT_") name) as [rest|] eqn:E;
    [|discriminate].
  apply strip_prefix_Some in E. intros H. apply endswith_app in H.
  destruct H as [mid ->]. exists mid. exact E.
Qed.

Lemma ends_docx_no_newline (a b tail : str) :
  a ++ lit ".docx" = b ++ lit ".docx" ++ tail -> at_end tail = true ->
  tail = [].
Proof.
  intros E T. destruct tail as [|c [|c' tail]]; try reflexivity;
    [|discriminate].
  simpl in T. apply N.eqb_eq in T. subst c.
  apply (f_equal (@rev _)) in E.
  rewrite !rev_app_distr in E. simpl in E. discriminate.
Qed.

(** The names the pattern accepts, among those the glob yields. *)
Lemma search_accepts (name pid : str) :
  glob_match name = true ->
  TRANSCRIPT_PATTERN_search decimal name = Some pid ->
  names_transcript decimal name pid.
Proof.
  intros G S. destruct (search_Some _ _ S) as [pre [rest [-> M]]].
  destruct (match_here_Some _ _ M) as [F [tail [-> T]]].
  destruct (glob_match_shape _ G) as [mid E].
  assert (tail = []) as ->.
  { apply (ends_docx_no_newline
             (lit "transcript_PATIENT_" ++ mid)
             (pre ++ lit "transcript_" ++ pid)); [|assumption].
    rewrite <- !app_assoc. rewrite <- E. reflexivity. }
  split; [assumption|]. exists pre. rewrite app_nil_r. reflexivity.
Qed.

Lemma search_rejects (name : str) :
  glob_match name = true ->
  ~ (exists pid, names_transcript decimal name pid) ->
  TRANSCRIPT_PATTERN_search decimal name = None.
Proof.
  intros G N.
  destruct (TRANSCRIPT_PATTERN_search decimal name) as [pid|] eqn:S;
    [|reflexivity].
  exfalso. apply N. exists pid. apply search_accepts; assumption.
Qed.

Lemma search_finds (name pid : str) :
  names_transcript decimal name pid ->
  TRANSCRIPT_PATTERN_search decimal name <> None.
Proof.
  intros [[d1 [d2 [d3 [D1 [D2 [D3 ->]]]]]] [pre ->]] S.
  apply search_None in S.
  rewrite <- (app_nil_r (lit ".docx")) in S.
  rewrite match_here_complete in S by (assumption || reflexivity).
  discriminate.
Qed.

End Environment.

(** The pattern is searched for, not matched from the start of the name:
    what stands before [transcript_PATIENT_ddd.docx] is not looked at. *)
Remark search_skips_what_precedes :
  glob_match (lit "transcript_PATIENT_Xtranscript_PATIENT_001.docx") = true
  /\ TRANSCRIPT_PATTERN_search ascii_decimal
       (lit "transcript_PATIENT_Xtranscript_PATIENT_001.docx")
     = Some (lit "PATIENT_001")
  /\ TRANSCRIPT_PATTERN_search ascii_decimal
       (lit "transcript_PATIENT_0001.docx") = None
  /\ TRANSCRIPT_PATTERN_search ascii_decimal
       (lit "transcript_PATIENT_01.docx") = None.
Proof. repeat split; reflexivity. Qed.

End Discovery.

Module Exclusion.
Import Py Codec OS OS.Notations Docx Aggregator AggregatorViews.
Import PyFacts LineFacts OSFacts AggregatorFacts AggregateOrder Discovery.

Section Environment.
Variable decimal : char -> option N.
Variable Document : option (option bytes -> outcome document).

Lemma collect_In (names : list str) (pid p : str) :
  In (pid, p) (collect decimal names)
  <-> In p names /\ TRANSCRIPT_PATTERN_search decimal p = Some pid.
Proof.
  induction names as [|q names IH]; simpl; [tauto|].
  destruct (TRANSCRIPT_PATTERN_search decimal q) as [g|] eqn:E; simpl;
    rewrite IH; split.
  - intros [H|H]; [injection H as -> ->; auto | tauto].
  - intros [[->|H] S]; [left; congruence | tauto].
  - tauto.
  - intros [[->|H] S]; [congruence | tauto].
Qed.

Lemma collect_app (l1 l2 : list str) :
  collect decimal (l1 ++ l2) = collect decimal l1 ++ collect decimal l2.
Proof.
  induction l1 as [|q l1 IH]; simpl; [reflexivity|].
  destruct (TRANSCRIPT_PATTERN_search decimal q); simpl; rewrite IH;
    reflexivity.
Qed.

Lemma sort_files_perm (files ts : list (str * str)) :
  sort_files decimal files = Return ts -> Permutation ts files.
Proof.
  unfold sort_files.
  destruct (with_keys decimal files) as [keyed|] eqn:E; [|discriminate].
  intros H; injection H as <-.
  destruct (with_keys_spec _ _ _ E) as [<- _].
  apply Permutation_map, sort_by_perm.
Qed.

(** Every discovered pair is a name of the listing that the glob and
    the pattern both accept, with the identifier the pattern
    extracts. *)
Lemma discovered_accepted (w : world) (ts : list (str * str)) (pid p : str) :
  fst (iter_transcript_paths decimal w) = Return ts ->
  In (pid, p) ts ->
  In p (map fst (directory w)) /\ glob_match p = true
  /\ TRANSCRIPT_PATTERN_search decimal p = Some pid.
Proof.
  rewrite iter_transcript_paths_eq. simpl. intros S Hin.
  apply (Permutation_in _ (sort_files_perm _ _ S)) in Hin.
  apply collect_In in Hin. destruct Hin as [Hin Hs].
  unfold names in Hin. apply filter_In in Hin. tauto.
Qed.

Lemma names_without (w : world) (d1 d2 : list (str * node)) (n : str)
      (x : node) :
  directory w = d1 ++ (n, x) :: d2 ->
  TRANSCRIPT_PATTERN_search decimal n = None ->
  collect decimal (names w)
  = collect decimal (names (set_directory (d1 ++ d2) w)).
Proof.
  intros E S. unfold names. simpl. rewrite E.
  rewrite !map_app, !filter_app, !collect_app. simpl.
  destruct (glob_match n); [|reflexivity].
  simpl. rewrite S. reflexivity.
Qed.

Lemma backup_text_agree (m : str) (w w0 : world) :
  lookup m (directory w) = lookup m (directory w0) ->
  backup_text m w = backup_text m w0.
Proof. unfold backup_text. intros ->. reflexivity. Qed.

Lemma entry_outcome_agree (n : str) (w w0 : world) (t : str * str) :
  (forall m, m <> n -> lookup m (directory w) = lookup m (directory w0)) ->
  snd t <> n -> backup_path (snd t) <> n ->
  entry_outcome Document w t = entry_outcome Document w0 t.
Proof.
  intros A H1 H2. unfold entry_outcome, extract_outcome, open_package.
  cbv beta. cbn [fst].
  rewrite (backup_text_agree _ w w0 (A _ H2)), (A _ H1). reflexivity.
Qed.

Lemma for_each_entries_agree (w w0 : world) (ts : list (str * str)) :
  (forall t, In t ts ->
             entry_outcome Document w t = entry_outcome Document w0 t) ->
  exists r, for_each (transcript_entry Document) ts w = (r, w)
            /\ for_each (transcript_entry Document) ts w0 = (r, w0).
Proof.
  induction ts as [|t ts IH]; intros A.
  - exists (Return []). auto.
  - destruct IH as [r [E E0]]; [intros; apply A; right; assumption|].
    simpl. unfold bind. rewrite !transcript_entry_eq, E, E0.
    rewrite <- (A t (or_introl eq_refl)).
    destruct (entry_outcome Document w t) as [e|e].
    + destruct r as [es|e']; eexists; split; reflexivity.
    + eexists; split; reflexivity.
Qed.

Lemma glob_match_not_backup (n p : str) :
  glob_match n = true -> backup_path p <> n.
Proof.
  intros G E. destruct (glob_match_shape _ G) as [mid E'].
  unfold backup_path in E. rewrite with_suffix_append in E.
  rewrite E' in E. apply (f_equal (@rev _)) in E.
  rewrite !rev_app_distr in E. simpl in E. discriminate.
Qed.

Lemma glob_match_not_aggregate (n : str) :
  glob_match n = true -> AGGREGATE_NAME <> n.
Proof.
  intros G E. destruct (glob_match_shape _ G) as [mid E'].
  rewrite E' in E. discriminate.
Qed.

Lemma build_aggregate_eq (w : world) :
  build_aggregate decimal Document w
  = match sort_files decimal (collect decimal (names w)) with
    | Raise e => (Raise e, w)
    | Return [] => (eprint (lit "No transcript files found.") ;;; ret 1) w
    | Return ((_ :: _) as ts) =>
        match for_each (transcript_entry Document) ts w with
        | (Return entries, w1) => finish ts entries w1
        | (Raise e, w1) => (Raise e, w1)
        end
    end.
Proof.
  unfold build_aggregate. unfold bind at 1.
  rewrite iter_transcript_paths_eq.
  destruct (sort_files decimal (collect decimal (names w))) as [[|t ts]|e];
    reflexivity.
Qed.

Lemma observe_finish (w w0 : world) (ts : list (str * str))
      (entries : list str) :
  root w0 = root w -> utcnow w0 = utcnow w -> stdout w0 = stdout w ->
  stderr w0 = stderr w ->
  lookup AGGREGATE_NAME (directory w) = lookup AGGREGATE_NAME (directory w0) ->
  observe (finish ts entries w) = observe (finish ts entries w0).
Proof.
  intros Er Eu Eo Ee Agg.
  unfold finish, bind, now, write_text. cbv beta iota. rewrite Eu.
  destruct (utf8_encode _) as [data|];
    unfold observe, bind, write_bytes, path_str, print, ret, raise;
    cbv beta iota; rewrite <- Agg;
    destruct (lookup AGGREGATE_NAME (directory w)) as [[old|]|] eqn:L;
    simpl; rewrite ?lookup_store_same, ?Er, ?Eo, ?Ee, <- ?Agg, ?L;
    reflexivity.
Qed.

(** Taking a name the pattern rejects out of the directory changes
    nothing a run shows. *)
Lemma build_aggregate_without (w : world) (d1 d2 : list (str * node))
      (n : str) (x : node) :
  directory w = d1 ++ (n, x) :: d2 ->
  glob_match n = true ->
  TRANSCRIPT_PATTERN_search decimal n = None ->
  observe (build_aggregate decimal Document w)
  = observe (build_aggregate decimal Document (set_directory (d1 ++ d2) w)).
Proof.
  intros E G S.
  pose proof (names_without w d1 d2 n x E S) as Hn.
  set (w0 := set_directory (d1 ++ d2) w) in *.
  assert (A : forall m, m <> n ->
              lookup m (directory w) = lookup m (directory w0)).
  { intros m Hm. rewrite E. apply lookup_without. assumption. }
  pose proof (A _ (glob_match_not_aggregate _ G)) as Agg.
  rewrite !build_aggregate_eq, <- Hn.
  destruct (sort_files decimal (collect decimal (names w))) as [ts|e] eqn:Ets;
    [|unfold observe; simpl; rewrite Agg; reflexivity].
  destruct ts as [|t ts].
  { unfold observe, bind, eprint, ret. simpl. rewrite Agg. reflexivity. }
  destruct (for_each_entries_agree w w0 (t :: ts)) as [r [R R0]].
  { intros [pid p] Hin. apply (entry_outcome_agree n); [exact A | |].
    - simpl. intros ->.
      apply (Permutation_in _ (sort_files_perm _ _ Ets)) in Hin.
      apply collect_In in Hin. destruct Hin as [_ Hs]. congruence.
    - apply glob_match_not_backup. assumption. }
  rewrite R, R0.
  destruct r as [entries|e];
    [|unfold observe; simpl; rewrite Agg; reflexivity].
  apply observe_finish; auto.
Qed.

End Environment.

End Exclusion.

Module AggregatorClaims.
Import Py Codec OS OS.Notations Docx Aggregator AggregatorViews.
Import PyFacts LineFacts OSFacts AggregatorFacts AggregateOrder Discovery
       Exclusion.

Section Environment.
Variable decimal : char -> option N.

(** C9 (amended).  Discovery keeps a name of the glob only when the
    pattern finds in it, up to its end, [transcript_] followed by an
    identifier [PATIENT_] plus exactly three decimal digits and by
    [.docx]; the identifier reported is that one, and what comes
    before it in the name is not looked at.  A name of the glob that
    does not end in this way is left out without a trace: the
    discovered list, the result of the run, both output streams and
    the aggregate file are what they are when the file is not in the
    directory at all. *)
Theorem discovery_keeps_fixed_width_names
    (Document : option (option bytes -> outcome document))
    (w : world) (d1 d2 : list (str * node)) (n : str) (x : node) :
  directory w = d1 ++ (n, x) :: d2 ->
  glob_match n = true ->
  ~ (exists pid, names_transcript decimal n pid) ->
  (forall ts pid p,
      fst (iter_transcript_paths decimal w) = Return ts ->
      In (pid, p) ts -> names_transcript decimal p pid)
  /\ (forall ts, fst (iter_transcript_paths decimal w) = Return ts ->
                 ~ In n (map snd ts))
  /\ fst (iter_transcript_paths decimal w)
     = fst (iter_transcript_paths decimal (set_directory (d1 ++ d2) w))
  /\ observe (build_aggregate decimal Document w)
     = observe (build_aggregate decimal Document
                                (set_directory (d1 ++ d2) w)).
Proof.
  intros E G Hn.
  pose proof (search_rejects decimal n G Hn) as S.
  split; [|split; [|split]].
  - intros ts pid p Hts Hin.
    destruct (discovered_accepted decimal w ts pid p Hts Hin) as [_ [Gp Sp]].
    apply search_accepts; assumption.
  - intros ts Hts Hin. apply in_map_iff in Hin.
    destruct Hin as [[pid p] [Ep Hin]]. simpl in Ep. subst p.
    destruct (discovered_accepted decimal w ts pid n Hts Hin) as [_ [_ Sn]].
    congruence.
  - rewrite !iter_transcript_paths_eq. simpl.
    rewrite (names_without decimal w d1 d2 n x E S). reflexivity.
  - apply (build_aggregate_without decimal Document w d1 d2 n x); assumption.
Qed.

(** C8.  Without the document parser ([Document] is [None]), a
    discovered transcript that has no usable backup makes the loop body
    raise [RuntimeError], and the exception leaves [build_aggregate]:
    the run ends with it and nothing has been written or printed. *)
Theorem missing_parser_is_fatal
    (w : world) (ts : list (str * str)) (pid p : str) :
  fst (iter_transcript_paths decimal w) = Return ts ->
  In (pid, p) ts ->
  fst (read_from_backup (backup_path p) w) = Return None ->
  transcript_entry None (pid, p) w = (Raise (RuntimeError NOT_AVAILABLE), w)
  /\ build_aggregate decimal None w = (Raise (RuntimeError NOT_AVAILABLE), w).
Proof.
  intros Hts Hin Hb. rewrite read_from_backup_eq in Hb. simpl in Hb.
  injection Hb as Hb.
  assert (Ht : transcript_entry None (pid, p) w
               = (Raise (RuntimeError NOT_AVAILABLE), w)).
  { rewrite transcript_entry_eq. unfold entry_outcome. simpl.
    rewrite Hb. reflexivity. }
  split; [exact Ht|].
  rewrite build_aggregate_eq. rewrite iter_transcript_paths_eq in Hts.
  simpl in Hts. rewrite Hts.
  destruct ts as [|t ts']; [destruct Hin|].
  destruct (for_each_readonly (transcript_entry None) w
              (fun t0 => transcript_entry_readonly None t0 w) (t :: ts'))
    as [Hw [_ [Hraise Hsome]]].
  destruct (for_each (transcript_entry None) (t :: ts') w) as [r w1] eqn:F.
  simpl in Hw. subst w1.
  destruct (Hsome (pid, p) (RuntimeError NOT_AVAILABLE) Hin) as [e' He'].
  { rewrite Ht. reflexivity. }
  simpl in He'. subst r.
  destruct (Hraise e' eq_refl) as [[pid' p'] [_ Hx]].
  rewrite transcript_entry_eq in Hx. unfold entry_outcome in Hx.
  simpl in Hx.
  destruct (backup_text (backup_path p') w); [discriminate|].
  injection Hx as <-. reflexivity.
Qed.

End Environment.

End AggregatorClaims.

Module Extraction.
Import Py Codec OS OS.Notations Docx Aggregator AggregatorViews.
Import PyFacts LineFacts OSFacts AggregatorFacts AggregateOrder Discovery.

Lemma has_text_false (r : run) : has_text r = false <-> all_space (text r).
Proof.
  unfold has_text. rewrite <- strip_nil.
  destruct (strip (text r)); split; congruence.
Qed.

Lemma all_space_concat (rs : list run) :
  all_space (concat (map text rs))
  <-> forall r, In r rs -> has_text r = false.
Proof.
  induction rs as [|r rs IH]; simpl.
  - split; [intros _ r [] | constructor].
  - rewrite all_space_app, IH. split.
    + intros [H1 H2] r' [<-|Hin]; [apply has_text_false; assumption | auto].
    + intros H. split; [apply has_text_false; auto | auto].
Qed.

Lemma forallb_filter {A : Type} (p q : A -> bool) (l : list A) :
  forallb p (filter q l) = true
  <-> forall a, In a l -> q a = true -> p a = true.
Proof.
  rewrite forallb_forall. split.
  - intros H a Hin Hq. apply H, filter_In. auto.
  - intros H a Hin. apply filter_In in Hin. apply H; tauto.
Qed.

Lemma is_bold_true (r : run) : is_bold r = true <-> bold r = Some true.
Proof.
  unfold is_bold. destruct (bold r) as [[|]|]; split; congruence.
Qed.

Lemma wrap_differs (t : str) : t <> lit "**" ++ t ++ lit "**".
Proof.
  intros E. apply (f_equal (@length _)) in E.
  rewrite !length_app in E. simpl in E. lia.
Qed.

Lemma runs_Paragraph (rs : list run) : runs (Paragraph rs) = rs.
Proof.
  unfold runs, Paragraph. cbn [content].
  induction rs as [|r rs IH]; [reflexivity|]. simpl. rewrite IH. reflexivity.
Qed.

Lemma paragraph_text_Paragraph (rs : list run) :
  paragraph_text (Paragraph rs) = concat (map text rs).
Proof.
  unfold paragraph_text, Paragraph. cbn [content]. rewrite map_map.
  reflexivity.
Qed.

(** When a line is wrapped: the paragraph has text, it has a run of its
    own, and its own runs with text are all bold. *)
Lemma paragraph_line_wrapped (para : paragraph) :
  wrapped para
  <-> ~ all_space (paragraph_text para)
      /\ runs para <> []
      /\ (forall r, In r (runs para) -> has_text r = true ->
                    bold r = Some true).
Proof.
  unfold wrapped, paragraph_line.
  destruct (rstrip (paragraph_text para)) as [|c t] eqn:ET.
  - split; [discriminate|]. intros [N _]. exfalso. apply N.
    apply rstrip_nil. exact ET.
  - assert (N : ~ all_space (paragraph_text para)).
    { intros A. apply rstrip_nil in A. congruence. }
    destruct (runs para) as [|r0 rs] eqn:ER.
    { split; [|intros [_ [H _]]; contradiction H; reflexivity].
      intros E. exfalso. exact (wrap_differs _ E). }
    destruct (forallb is_bold (filter has_text (r0 :: rs))) eqn:F.
    + split; [|reflexivity]. intros _. split; [exact N|].
      split; [discriminate|].
      intros r Hin Hr. apply is_bold_true.
      apply (proj1 (forallb_filter is_bold has_text (r0 :: rs)) F); assumption.
    + split.
      * intros E. exfalso. exact (wrap_differs _ E).
      * intros [_ [_ H]]. exfalso.
        assert (forallb is_bold (filter has_text (r0 :: rs)) = true).
        { apply forallb_filter. intros a Hin Ha. apply is_bold_true. auto. }
        congruence.
Qed.

(** For a paragraph made of runs only, having text is having a run with
    text. *)
Lemma paragraph_line_wrapped_runs (rs : list run) :
  wrapped (Paragraph rs)
  <-> (exists r, In r rs /\ has_text r = true)
      /\ (forall r, In r rs -> has_text r = true -> bold r = Some true).
Proof.
  rewrite paragraph_line_wrapped, runs_Paragraph, paragraph_text_Paragraph.
  split.
  - intros [N [_ H]]. split; [|exact H].
    destruct (existsb has_text rs) eqn:X.
    + apply existsb_exists in X. exact X.
    + exfalso. apply N. apply all_space_concat. intros r Hin.
      destruct (has_text r) eqn:Hr; [|reflexivity].
      assert (existsb has_text rs = true) by (apply existsb_exists; eauto).
      congruence.
  - intros [[r [Hin Hr]] H]. split; [|split; [|exact H]].
    + intros A. rewrite all_space_concat in A. rewrite (A r Hin) in Hr.
      discriminate.
    + intros E. rewrite E in Hin. destruct Hin.
Qed.

Lemma paragraph_line_plain (para : paragraph) :
  ~ wrapped para -> paragraph_line para = rstrip (paragraph_text para).
Proof.
  unfold wrapped, paragraph_line.
  destruct (rstrip (paragraph_text para)) as [|c t]; [reflexivity|].
  destruct (runs para); [reflexivity|].
  destruct (forallb is_bold _); [|reflexivity].
  intros H. exfalso. apply H. reflexivity.
Qed.

Lemma paragraph_line_blank (para : paragraph) :
  all_space (paragraph_text para) -> paragraph_line para = [].
Proof.
  intros H. apply rstrip_nil in H. unfold paragraph_line. rewrite H.
  reflexivity.
Qed.

(** *** Splitting the joined lines again *)

Lemma split_char_absent (d : char) (x : str) :
  ~ In d x -> split_char d x = [x].
Proof.
  induction x as [|c x IH]; simpl; [reflexivity|].
  intros H. destruct (N.eqb_spec c d) as [->|Hc]; [tauto|].
  rewrite IH by tauto. reflexivity.
Qed.

Lemma split_char_line (d : char) (x rest : str) :
  ~ In d x -> split_char d (x ++ d :: rest) = x :: split_char d rest.
Proof.
  induction x as [|c x IH]; simpl.
  - rewrite N.eqb_refl. reflexivity.
  - intros H. destruct (N.eqb_spec c d) as [->|Hc]; [tauto|].
    rewrite IH by tauto. reflexivity.
Qed.

Lemma split_join (d : char) (ls : list str) :
  ls <> [] -> Forall (fun l => ~ In d l) ls ->
  split_char d (join [d] ls) = ls.
Proof.
  induction ls as [|x ls IH]; [congruence|].
  intros _ H. inversion H as [|? ? Hx Hls]; subst.
  destruct ls as [|y ls].
  - simpl. apply split_char_absent; assumption.
  - rewrite join_cons by discriminate.
    change ([d] ++ join [d] (y :: ls)) with (d :: join [d] (y :: ls)).
    rewrite split_char_line by assumption.
    rewrite IH; [reflexivity | discriminate | assumption].
Qed.

Lemma rstrip_In (c : char) (s : str) : In c (rstrip s) -> In c s.
Proof.
  intros H. destruct (rstrip_prefix s) as [w [E _]]. rewrite E.
  apply in_or_app. left. exact H.
Qed.

Lemma paragraph_line_no_break (para : paragraph) :
  ~ In LF (paragraph_text para) -> ~ In LF (paragraph_line para).
Proof.
  intros N I. apply N. unfold paragraph_line in I.
  destruct (rstrip (paragraph_text para)) as [|c t] eqn:ET; [destruct I|].
  assert (K : In LF (c :: t) -> In LF (paragraph_text para))
    by (rewrite <- ET; apply rstrip_In).
  destruct (runs para); [exact (K I)|].
  destruct (forallb is_bold _); [|exact (K I)].
  change (lit "**" ++ (c :: t) ++ lit "**")
    with (STAR :: STAR :: ((c :: t) ++ [STAR; STAR])) in I.
  destruct I as [E|[E|I]]; try discriminate E.
  apply in_app_or in I. destruct I as [I|[E|[E|[]]]]; try discriminate E.
  exact (K I).
Qed.

(** C4 (amended).  With the parser at hand and a readable package, the
    text extracted is the lines of the paragraphs joined by newlines, one
    per paragraph and in their order; split at its newlines it gives
    these lines back as long as no paragraph holds a line break of its
    own.  A paragraph without text (or with blanks only) gives the empty
    line.  A line is wrapped in [**] exactly when the paragraph has text
    that is not blank, has a run of its own, and every run of its own
    with non-blank text has [bold] set; otherwise the line is the text
    of the paragraph without its trailing blanks, unmarked.  For a
    paragraph made of runs only this is: some run has non-blank text and
    every such run is bold. *)
Theorem extraction_marks_fully_bold_paragraphs
    (parse : option bytes -> outcome document) (path : str) (w : world)
    (data : bytes) (doc : document) :
  lookup path (directory w) = Some (File data) ->
  parse (Some data) = Return doc ->
  extract_text_from_docx (Some parse) path w
  = (Return (join [LF] (extract_lines doc)), w)
  /\ length (extract_lines doc) = length (paragraphs doc)
  /\ (forall i para, nth_error (paragraphs doc) i = Some para ->
        nth_error (extract_lines doc) i = Some (paragraph_line para))
  /\ (paragraphs doc <> [] ->
      Forall (fun para => ~ In LF (paragraph_text para)) (paragraphs doc) ->
      split_char LF (join [LF] (extract_lines doc)) = extract_lines doc)
  /\ (forall para,
        (all_space (paragraph_text para) -> paragraph_line para = [])
        /\ (wrapped para
            <-> ~ all_space (paragraph_text para)
                /\ runs para <> []
                /\ (forall r, In r (runs para) -> has_text r = true ->
                              bold r = Some true))
        /\ (~ wrapped para ->
            paragraph_line para = rstrip (paragraph_text para)))
  /\ (forall rs,
        wrapped (Paragraph rs)
        <-> (exists r, In r rs /\ has_text r = true)
            /\ (forall r, In r rs -> has_text r = true ->
                          bold r = Some true)).
Proof.
  intros L P. split.
  { rewrite extract_text_from_docx_eq. unfold extract_outcome, open_package.
    cbn [fst]. rewrite L, P. reflexivity. }
  split; [apply length_map|].
  split.
  { intros i para H. unfold extract_lines. rewrite nth_error_map, H.
    reflexivity. }
  split.
  { intros Hne Hall. apply split_join.
    - unfold extract_lines.
      destruct (paragraphs doc); [congruence | discriminate].
    - unfold extract_lines. apply Forall_forall. intros l Hl.
      apply in_map_iff in Hl. destruct Hl as [para [<- Hp]].
      apply paragraph_line_no_break.
      rewrite Forall_forall in Hall. exact (Hall para Hp). }
  split; [|exact paragraph_line_wrapped_runs].
  intros para. split; [apply paragraph_line_blank|].
  split; [apply paragraph_line_wrapped | apply paragraph_line_plain].
Qed.

End Extraction.
Module ConverterLines.
Import Py Codec OS Docx Converter ConverterViews Examples PyFacts LineFacts.

Lemma line_paragraph_blank (line : str) :
  no_break line -> strip line = [] ->
  line_paragraph line = Return (Paragraph []).
Proof.
  intros Hb Hs. unfold line_paragraph.
  rewrite (rstrip_char_no_break _ Hb), Hs. reflexivity.
Qed.

Lemma line_paragraph_text (line : str) :
  no_break line -> strip line <> [] ->
  forallb xml_char (remove_marker line) = true ->
  line_paragraph line
  = Return (Paragraph [Run (remove_marker line)
                           (if contains MARKER line then Some true else None)
                           arial_12]).
Proof.
  intros Hb Hs Hx. unfold line_paragraph, add_run.
  rewrite (rstrip_char_no_break _ Hb).
  destruct (strip line); [congruence|]. rewrite Hx.
  change (lit "**") with MARKER.
  destruct (contains MARKER line); reflexivity.
Qed.

Lemma line_paragraph_refused (line : str) :
  no_break line -> strip line <> [] ->
  forallb xml_char (remove_marker line) = false ->
  line_paragraph line = Raise ValueError.
Proof.
  intros Hb Hs Hx. unfold line_paragraph, add_run.
  rewrite (rstrip_char_no_break _ Hb).
  destruct (strip line); [congruence|]. rewrite Hx. reflexivity.
Qed.

(** The loop body in one equation. *)
Lemma line_paragraph_eq (line : str) :
  no_break line ->
  line_paragraph line
  = if accepted_line line then Return (paragraph_of_line line)
    else Raise ValueError.
Proof.
  intros Hb. unfold accepted_line, paragraph_of_line, text_paragraph.
  destruct (strip line) as [|c r] eqn:S.
  - apply line_paragraph_blank; assumption.
  - destruct (forallb xml_char (remove_marker line)) eqn:X.
    + apply line_paragraph_text; [assumption | congruence | assumption].
    + apply line_paragraph_refused; [assumption | congruence | assumption].
Qed.

Lemma add_lines_eq (lines : list str) (d : document) :
  Forall no_break lines ->
  add_lines lines d
  = if forallb accepted_line lines
    then Return (Document_ (normal_font d)
                           (paragraphs d ++ map paragraph_of_line lines))
    else Raise ValueError.
Proof.
  intros H. revert d. induction H as [|l lines Hl H IH]; intros d.
  - simpl. rewrite app_nil_r. destruct d; reflexivity.
  - cbn [add_lines forallb map]. rewrite (line_paragraph_eq l Hl).
    destruct (accepted_line l); [|reflexivity].
    rewrite IH. cbn [andb add_paragraph normal_font paragraphs].
    rewrite <- app_assoc. reflexivity.
Qed.

Lemma splitlines_all_no_break (text : str) :
  Forall no_break (splitlines text).
Proof.
  apply Forall_forall. intros l Hl. exact (splitlines_no_break text l Hl).
Qed.

Lemma build_document_eq (text : str) :
  build_document text
  = if forallb accepted_line (splitlines text)
    then Return (document_of text)
    else Raise ValueError.
Proof.
  unfold build_document.
  rewrite (add_lines_eq _ _ (splitlines_all_no_break text)). reflexivity.
Qed.

Lemma build_document_paragraphs (text : str) (doc : document) :
  build_document text = Return doc ->
  paragraphs doc = map paragraph_of_line (splitlines text)
  /\ map (@Return paragraph) (paragraphs doc)
     = map line_paragraph (splitlines text).
Proof.
  rewrite build_document_eq.
  destruct (forallb accepted_line (splitlines text)) eqn:A; [|discriminate].
  intros H. assert (E : doc = document_of text) by congruence. subst doc.
  split; [reflexivity|]. unfold document_of. cbn [paragraphs].
  rewrite map_map. apply map_ext_in. intros l Hl.
  rewrite (line_paragraph_eq l (splitlines_no_break text l Hl)).
  rewrite forallb_forall in A. rewrite (A l Hl). reflexivity.
Qed.

Lemma build_document_raises (text line : str) (e : exn) :
  In line (splitlines text) -> line_paragraph line = Raise e ->
  build_document text = Raise ValueError.
Proof.
  intros Hl R. rewrite build_document_eq.
  destruct (forallb accepted_line (splitlines text)) eqn:A; [|reflexivity].
  rewrite forallb_forall in A.
  rewrite (line_paragraph_eq line (splitlines_no_break text line Hl)) in R.
  rewrite (A line Hl) in R. discriminate.
Qed.

Lemma build_document_returns (text : str) :
  (forall line, In line (splitlines text) ->
                exists p, line_paragraph line = Return p) ->
  exists doc, build_document text = Return doc.
Proof.
  intros H. rewrite build_document_eq.
  assert (A : forallb accepted_line (splitlines text) = true).
  { apply forallb_forall. intros l Hl. destruct (H l Hl) as [p Hp].
    rewrite (line_paragraph_eq l (splitlines_no_break text l Hl)) in Hp.
    destruct (accepted_line l); [reflexivity | discriminate]. }
  rewrite A. eexists. reflexivity.
Qed.

(** C2 (amended).  The converter turns a line of the text into one
    paragraph unless the line holds a character XML cannot hold: a blank
    line (nothing left after trimming) into a paragraph without runs, a
    line with text whose characters XML can hold into a paragraph with a
    single Arial 12 run whose text is the line with the marker [**]
    removed -- no occurrence is left, nothing but stars is dropped, a
    line without the marker is kept as it is -- and whose bold flag is
    set exactly when the marker occurred in the line.  On a line with
    text and a character XML cannot hold [add_run] raises [ValueError],
    and no document is built from a text with such a line.  A document
    that is built has the paragraphs of the lines, in their order.  The
    lines ["**Question 1**"; ""; "An answer."] give the three paragraphs
    "Question 1" (bold), empty, "An answer." (not bold). *)
Theorem converter_line_paragraphs :
  (forall (text : str) (doc : document),
      build_document text = Return doc ->
      map (@Return paragraph) (paragraphs doc)
      = map line_paragraph (splitlines text))
  /\ (forall text : str,
        (forall line, In line (splitlines text) ->
                      exists p, line_paragraph line = Return p) ->
        exists doc, build_document text = Return doc)
  /\ (forall (text line : str) (e : exn),
        In line (splitlines text) -> line_paragraph line = Raise e ->
        build_document text = Raise ValueError)
  /\ (forall (text line : str), In line (splitlines text) ->
        (strip line = [] -> line_paragraph line = Return (Paragraph []))
        /\ (strip line <> [] ->
            forallb xml_char (remove_marker line) = true ->
            line_paragraph line
            = Return (Paragraph
                        [Run (remove_marker line)
                             (if contains MARKER line then Some true else None)
                             arial_12])
            /\ contains MARKER (remove_marker line) = false
            /\ filter (fun c => negb (c =? STAR)) (remove_marker line)
               = filter (fun c => negb (c =? STAR)) line
            /\ (contains MARKER line = false -> remove_marker line = line))
        /\ (strip line <> [] ->
            forallb xml_char (remove_marker line) = false ->
            line_paragraph line = Raise ValueError))
  /\ splitlines example_text = [lit "**Question 1**"; []; lit "An answer."]
  /\ build_document example_text
     = Return (Document_ (Font (Some Arial) None (Some 12))
                 [Paragraph [Run (lit "Question 1") (Some true) arial_12];
                  Paragraph [];
                  Paragraph [Run (lit "An answer.") None arial_12]]).
Proof.
  split; [intros text doc H; exact (proj2 (build_document_paragraphs _ _ H))|].
  split; [exact build_document_returns|].
  split; [exact build_document_raises|].
  split; [|split; reflexivity].
  intros text line Hin.
  pose proof (splitlines_no_break _ _ Hin) as Hb.
  split; [apply line_paragraph_blank; assumption|].
  split.
  - intros Hs Hx. split; [apply line_paragraph_text; assumption|].
    split; [apply remove_marker_clean|].
    split; [apply remove_marker_others | apply remove_marker_absent].
  - apply line_paragraph_refused; assumption.
Qed.

Lemma converter_line_paragraphs_witness :
  In (lit "**Question 1**") (splitlines example_text)
  /\ strip (lit "**Question 1**") <> []
  /\ forallb xml_char (remove_marker (lit "**Question 1**")) = true
  /\ line_paragraph (lit "**Question 1**")
     = Return (Paragraph [Run (lit "Question 1") (Some true) arial_12]).
Proof.
  split; [left; reflexivity|].
  split; [discriminate|].
  split; [reflexivity|].
  destruct converter_line_paragraphs as [_ [_ [_ [H _]]]].
  destruct (H example_text (lit "**Question 1**")) as [_ [H2 _]];
    [left; reflexivity|].
  destruct H2 as [E _]; [discriminate | reflexivity|].
  rewrite E. reflexivity.
Defined.

(** Against C2 as it was written (every line yields a paragraph): for a
    line with text and a control character the code builds no paragraph
    and no document. *)
Lemma control_character_yields_no_paragraph :
  In control_line (splitlines control_line)
  /\ strip control_line <> []
  /\ (forall p, line_paragraph control_line <> Return p)
  /\ line_paragraph control_line = Raise ValueError
  /\ build_document control_line = Raise ValueError.
Proof.
  split; [left; reflexivity|].
  split; [discriminate|].
  split; [intros p; discriminate|].
  split; reflexivity.
Qed.

End ConverterLines.

Module CodecFacts.
Import Py Codec PyFacts LineFacts.

Lemma utf8_encode_char_total (c : char) :
  scalar c -> exists b, utf8_encode_char c = Some b.
Proof.
  intros H. unfold utf8_encode_char.
  destruct (c <? 128); [eexists; reflexivity|].
  destruct (c <? 2048); [eexists; reflexivity|].
  destruct (N.ltb_spec c 65536) as [H1|H1].
  - destruct ((55296 <=? c) && (c <=? 57343)) eqn:E; [|eexists; reflexivity].
    apply andb_true_iff in E. destruct E as [E1 E2].
    apply N.leb_le in E1, E2. unfold scalar in H. lia.
  - destruct (N.ltb_spec c 1114112) as [H2|H2]; [eexists; reflexivity|].
    unfold scalar in H. lia.
Qed.

Lemma utf8_encode_total (s : str) :
  Forall scalar s -> exists b, utf8_encode s = Some b.
Proof.
  induction 1 as [|c s Hc Hs [b IH]]; simpl.
  - exists []. reflexivity.
  - destruct (utf8_encode_char_total c Hc) as [bc ->]. rewrite IH.
    eexists. reflexivity.
Qed.

Lemma universal_newlines_scalar (s : str) :
  Forall scalar s -> Forall scalar (universal_newlines s).
Proof.
  assert (HLF : scalar LF) by (left; reflexivity).
  induction s as [|c|c c' t IH1 IH2] using str_ind2; intros H.
  - constructor.
  - inversion H as [|? ? Hc _]; subst. simpl.
    destruct (c =? CR); constructor; (assumption || constructor).
  - change (universal_newlines (c :: c' :: t))
      with (if c =? CR
            then LF :: (if c' =? LF then universal_newlines t
                        else universal_newlines (c' :: t))
            else c :: universal_newlines (c' :: t)).
    inversion H as [|? ? Hc H']; subst. inversion H' as [|? ? Hc' Ht]; subst.
    destruct (c =? CR).
    + constructor; [assumption|]. destruct (c' =? LF); auto.
    + constructor; auto.
Qed.

(** Bounds on what the guards of the decoder let through. *)
Ltac bool_facts :=
  repeat match goal with
         | H : (_ && _) = true |- _ => apply andb_true_iff in H; destruct H
         | H : (_ || _) = false |- _ => apply orb_false_iff in H; destruct H
         | H : (_ <? _) = true |- _ => apply N.ltb_lt in H
         | H : (_ <? _) = false |- _ => apply N.ltb_ge in H
         | H : (_ <=? _) = true |- _ => apply N.leb_le in H
         | H : (_ <=? _) = false |- _ => apply N.leb_gt in H
         | H : (_ =? _) = true |- _ => apply N.eqb_eq in H
         | H : (_ =? _) = false |- _ => apply N.eqb_neq in H
         end.

Lemma two_byte_scalar (n0 n1 : N) :
  (n0 <? 224) = true -> iscont n1 = true ->
  scalar ((n0 - 192) * 64 + (n1 - 128)).
Proof. unfold iscont, scalar. intros. bool_facts. left. lia. Qed.

Lemma three_byte_scalar (n0 n1 n2 : N) :
  (n0 <? 224) = false -> (n0 <? 240) = true -> second_ok3 n0 n1 = true ->
  iscont n2 = true ->
  scalar ((n0 - 224) * 4096 + (n1 - 128) * 64 + (n2 - 128)).
Proof.
  unfold second_ok3, iscont, scalar. intros A B C D. bool_facts.
  destruct (N.eqb_spec n0 224); [left; lia|].
  destruct (N.eqb_spec n0 237); [bool_facts; left; lia|].
  destruct (N.lt_ge_cases n0 237); [left; lia | right; lia].
Qed.

Lemma four_byte_scalar (n0 n1 n2 n3 : N) :
  (n0 <? 240) = false -> (244 <? n0) = false -> second_ok4 n0 n1 = true ->
  iscont n2 = true -> iscont n3 = true ->
  scalar ((n0 - 240) * 262144 + (n1 - 128) * 4096 + (n2 - 128) * 64
          + (n3 - 128)).
Proof.
  unfold second_ok4, iscont, scalar. intros A B C D E. bool_facts.
  right. destruct (N.eqb_spec n0 240); [bool_facts; lia|].
  destruct (N.eqb_spec n0 244); [bool_facts; lia | lia].
Qed.

(** Whatever the decoder gives can be encoded again: no surrogate and
    nothing beyond U+10FFFF comes out of it. *)
Lemma utf8_decode_scalar (replace : bool) (bs : bytes) (t : str) :
  utf8_decode replace bs = Some t -> Forall scalar t.
Proof.
  remember (length bs) as n eqn:Hn.
  assert (Hle : (length bs <= n)%nat) by lia. clear Hn.
  revert bs t Hle. induction n as [|n IH]; intros bs t Hle.
  - destruct bs; [|simpl in Hle; lia].
    intros H; injection H as <-. constructor.
  - destruct bs as [|b0 r]; [intros H; injection H as <-; constructor|].
    assert (REP : scalar REPLACEMENT) by (right; split; reflexivity).
    assert (Emit : forall c r' u, (length r' <= n)%nat -> scalar c ->
                     emit c (utf8_decode replace r') = Some u ->
                     Forall scalar u).
    { intros c r' u Hr Hc. unfold emit.
      destruct (utf8_decode replace r') as [v|] eqn:E; [|discriminate].
      intros H; injection H as <-. constructor; [assumption|].
      apply (IH r' v Hr E). }
    assert (Bad : forall r' u, (length r' <= n)%nat ->
                    bad replace (utf8_decode replace r') = Some u ->
                    Forall scalar u).
    { intros r' u Hr. unfold bad. destruct replace; [|discriminate].
      destruct (utf8_decode true r') as [v|] eqn:E; [|discriminate].
      intros H; injection H as <-. constructor; [assumption|].
      apply (IH r' v Hr E). }
    assert (End_ : forall u, bad replace (Some []) = Some u -> Forall scalar u).
    { intros u. unfold bad. destruct replace; [|discriminate].
      intros H; injection H as <-. constructor; [exact REP | constructor]. }
    simpl in Hle. cbn [utf8_decode].
    pose proof (Byte.to_N_bounded b0) as B0.
    destruct (Byte.to_N b0 <? 128) eqn:A0.
    { apply Emit; [lia|]. bool_facts. left. lia. }
    destruct ((Byte.to_N b0 <? 194) || (244 <? Byte.to_N b0)) eqn:A1.
    { apply Bad. lia. }
    apply orb_false_iff in A1. destruct A1 as [A1 A2].
    destruct r as [|b1 r1]; [apply End_|]. simpl in Hle.
    destruct (Byte.to_N b0 <? 224) eqn:A3.
    { destruct (iscont (Byte.to_N b1)) eqn:C1.
      - apply Emit; [lia|]. apply two_byte_scalar; assumption.
      - apply Bad. simpl. lia. }
    destruct (Byte.to_N b0 <? 240) eqn:A4.
    { destruct (second_ok3 (Byte.to_N b0) (Byte.to_N b1)) eqn:C1;
        [|apply Bad; simpl; lia].
      destruct r1 as [|b2 r2]; [apply End_|]. simpl in Hle.
      destruct (iscont (Byte.to_N b2)) eqn:C2; [|apply Bad; simpl; lia].
      apply Emit; [lia|]. apply three_byte_scalar; assumption. }
    destruct (second_ok4 (Byte.to_N b0) (Byte.to_N b1)) eqn:C1;
      [|apply Bad; simpl; lia].
    destruct r1 as [|b2 r2]; [apply End_|]. simpl in Hle.
    destruct (iscont (Byte.to_N b2)) eqn:C2; [|apply Bad; simpl; lia].
    destruct r2 as [|b3 r3]; [apply End_|]. simpl in Hle.
    destruct (iscont (Byte.to_N b3)) eqn:C3; [|apply Bad; simpl; lia].
    apply Emit; [lia|]. apply four_byte_scalar; assumption.
Qed.

(** The text [read_text] gives always has an encoding. *)
Lemma decoded_text_encodes (replace : bool) (bs : bytes) (t : str) :
  utf8_decode replace bs = Some t ->
  exists enc, utf8_encode (universal_newlines t) = Some enc.
Proof.
  intros H. apply utf8_encode_total, universal_newlines_scalar.
  exact (utf8_decode_scalar replace bs t H).
Qed.

End CodecFacts.

Module TrimmedLines.
Import Py Codec OS Docx Aggregator AggregatorViews.
Import PyFacts LineFacts OSFacts CodecFacts.









Lemma all_space_cons (c : char) (s : str) :
  all_space (c :: s) <-> isspace c = true /\ all_space s.
Proof.
  unfold all_space. split.
  - intros H. inversion H. auto.
  - intros [H1 H2]. constructor; assumption.
Qed.




(** *** Trimming on the left *)


(** *** Trimming on the right *)













End TrimmedLines.

Module HeaderNormalization.
Import Py Codec OS Docx Aggregator AggregatorViews.
Import PyFacts LineFacts OSFacts CodecFacts TrimmedLines.

(** *** Header normalisation *)










End HeaderNormalization.

Module ConverterFacts.
Import Py Codec OS OS.Notations Docx Converter ConverterViews.
Import PyFacts LineFacts OSFacts.

Lemma bytes_eqb_eq (a b : bytes) : bytes_eqb a b = true <-> a = b.
Proof.
  revert b; induction a as [|x a IH]; intros [|y b]; simpl; split;
    try congruence; try reflexivity.
  - rewrite andb_true_iff, IH. intros [H ->].
    apply Byte.byte_dec_bl in H. congruence.
  - intros H; injection H as -> ->.
    rewrite andb_true_iff, IH. split; [apply Byte.byte_dec_lb|]; reflexivity.
Qed.

Lemma backup_of_eq (src : str) : backup_of src = src ++ lit ".orig.txt".
Proof. apply with_suffix_append. Qed.

Lemma backup_of_neq (src : str) : backup_of src <> src.
Proof. rewrite backup_of_eq. apply append_neq. discriminate. Qed.

(** *** Decoding with [errors='replace'] never fails *)

Lemma utf8_decode_replace_total (bs : bytes) :
  exists t, utf8_decode true bs = Some t.
Proof.
  remember (length bs) as n eqn:Hn.
  assert (Hle : (length bs <= n)%nat) by lia. clear Hn.
  revert bs Hle. induction n as [|n IH]; intros bs Hle.
  - destruct bs; [exists []; reflexivity | simpl in Hle; lia].
  - destruct bs as [|b0 t]; [exists []; reflexivity|].
    assert (Step : forall r, (length r <= n)%nat ->
              (forall c, exists u, emit c (utf8_decode true r) = Some u)
              /\ exists u, bad true (utf8_decode true r) = Some u).
    { intros r Hr. destruct (IH r Hr) as [u ->]. split.
      - intros c. exists (c :: u). reflexivity.
      - exists (REPLACEMENT :: u). reflexivity. }
    assert (End_ : exists u, bad true (Some []) = Some u)
      by (exists [REPLACEMENT]; reflexivity).
    simpl in Hle.
    cbn [utf8_decode].
    repeat match goal with
           | |- context [if ?c then _ else _] => destruct c
           | |- context [match ?l with [] => _ | _ :: _ => _ end] =>
               destruct l; simpl in Hle
           end;
      try exact End_;
      match goal with
      | |- exists _, emit _ (utf8_decode true ?r) = _ =>
          apply (proj1 (Step r ltac:(simpl in *; lia)))
      | |- exists _, bad true (utf8_decode true ?r) = _ =>
          apply (proj2 (Step r ltac:(simpl in *; lia)))
      end.
Qed.

Section Environment.
Variable package_bytes : document -> bytes.

Lemma is_valid_docx_eq (path : str) (w : world) :
  is_valid_docx path w
  = (Return match lookup path (directory w) with
            | Some (File data) => bytes_eqb (firstn 2 data) PK
            | _ => false
            end, w).
Proof.
  unfold is_valid_docx, try_except, bind, read_bytes, ret. cbv beta iota.
  destruct (lookup path (directory w)) as [[data|]|]; reflexivity.
Qed.

Lemma read_text_replace_eq (name : str) (w : world) :
  read_text name true w
  = (match lookup name (directory w) with
     | Some (File data) =>
         match utf8_decode true data with
         | Some t => Return (universal_newlines t)
         | None => Raise UnicodeDecodeError
         end
     | _ => Raise OSError
     end, w).
Proof.
  unfold read_text, bind, read_bytes, ret, raise. cbv beta iota.
  destruct (lookup name (directory w)) as [[data|]|]; try reflexivity.
  destruct (utf8_decode true data); reflexivity.
Qed.

(** The error branch of the converter is never taken. *)
Lemma read_text_replace_decodes (name : str) (w : world) :
  fst (read_text name true w) <> Raise UnicodeDecodeError.
Proof.
  rewrite read_text_replace_eq. simpl.
  destruct (lookup name (directory w)) as [[data|]|]; try discriminate.
  destruct (utf8_decode_replace_total data) as [t ->]. discriminate.
Qed.

Lemma convert_eq (src : str) (force verbose : bool) (w : world) :
  convert_plaintext_to_docx package_bytes src force verbose w
  = match lookup src (directory w) with
    | Some (File data) =>
        if bytes_eqb (firstn 2 data) PK && negb force then
          (if_verbose verbose (lit "SKIP (already valid): " ++ src) ;;;
           ret false) w
        else
          match utf8_decode true data with
          | Some t => rewrite_source package_bytes src (universal_newlines t) verbose w
          | None =>
              (shown <- path_str src ;;
               if_verbose verbose
                 (lit "ERROR: Cannot read as text: " ++ shown) ;;;
               ret false) w
          end
    | _ => (Raise OSError, w)
    end.
Proof.
  unfold convert_plaintext_to_docx. unfold bind at 1.
  rewrite is_valid_docx_eq.
  destruct (lookup src (directory w)) as [[data|]|] eqn:L.
  - destruct (bytes_eqb (firstn 2 data) PK && negb force); [reflexivity|].
    unfold bind at 1. unfold try_except. unfold bind at 1.
    rewrite read_text_replace_eq, L.
    destruct (utf8_decode true data); [reflexivity|].
    unfold bind, path_str, if_verbose, print, ret.
    destruct verbose; reflexivity.
  - simpl. unfold bind at 1. unfold try_except. unfold bind at 1.
    rewrite read_text_replace_eq, L. reflexivity.
  - simpl. unfold bind at 1. unfold try_except. unfold bind at 1.
    rewrite read_text_replace_eq, L. reflexivity.
Qed.

Lemma keeps_bind {A B : Type} (m : str) (x : node) (c : M A)
      (k : A -> M B) :
  keeps m x c -> (forall a, keeps m x (k a)) -> keeps m x (bind c k).
Proof.
  intros Hc Hk w L. unfold bind. specialize (Hc w L).
  destruct (c w) as [[a|e] w1]; simpl in Hc; [apply Hk|]; assumption.
Qed.

Lemma keeps_ret {A : Type} (m : str) (x : node) (a : A) :
  keeps m x (ret a).
Proof. intros w L. exact L. Qed.

Lemma keeps_raise {A : Type} (m : str) (x : node) (e : exn) :
  keeps m x (@raise A e).
Proof. intros w L. exact L. Qed.

Lemma keeps_lift {A : Type} (m : str) (x : node) (o : outcome A) :
  keeps m x (lift o).
Proof. intros w L. exact L. Qed.

Lemma keeps_if_verbose (m : str) (x : node) (verbose : bool) (line : str) :
  keeps m x (if_verbose verbose line).
Proof. intros w L. destruct verbose; exact L. Qed.

Lemma keeps_path_str (m : str) (x : node) (name : str) :
  keeps m x (path_str name).
Proof. intros w L. exact L. Qed.

Lemma keeps_write_bytes (m : str) (x : node) (name : str) (data : bytes) :
  m <> name -> keeps m x (write_bytes name data).
Proof.
  intros Hm w L. unfold write_bytes.
  destruct (lookup name (directory w)) as [[old|]|]; simpl;
    rewrite ?lookup_store_other; assumption.
Qed.

Lemma keeps_write_text (m : str) (x : node) (name text : str) :
  m <> name -> keeps m x (write_text name text).
Proof.
  intros Hm. unfold write_text. destruct (utf8_encode text).
  - apply keeps_write_bytes. assumption.
  - apply keeps_bind; [apply keeps_write_bytes; assumption|].
    intros _. apply keeps_raise.
Qed.

(** The guarded backup write: an existing sidecar is not written. *)
Lemma keeps_backup_step (m : str) (x : node) (backup text : str) :
  keeps m x (present <- path_exists backup ;;
             if negb present then write_text backup text else ret tt).
Proof.
  intros w L. unfold bind, path_exists. cbv beta iota.
  destruct (lookup backup (directory w)) as [b|] eqn:Lb; simpl negb;
    cbv beta iota.
  - exact L.
  - apply keeps_write_text; [congruence | exact L].
Qed.

Lemma rewrite_source_keeps (m : str) (x : node) (src text : str)
      (verbose : bool) :
  m <> src -> keeps m x (rewrite_source package_bytes src text verbose).
Proof.
  intros Hm. unfold rewrite_source.
  assert (E : forall (k : M bool),
    (present <- path_exists (backup_of src) ;;
     (if negb present then write_text (backup_of src) text else ret tt) ;;; k)
    = ((present <- path_exists (backup_of src) ;;
        if negb present then write_text (backup_of src) text else ret tt) ;;; k)).
  { intros k. unfold bind, path_exists. reflexivity. }
  rewrite E.
  apply keeps_bind; [apply keeps_backup_step|]. intros _.
  apply keeps_bind; [apply keeps_lift|]. intros doc.
  apply keeps_bind; [apply keeps_write_bytes; assumption|]. intros _.
  apply keeps_bind; [apply keeps_if_verbose|]. intros _.
  apply keeps_ret.
Qed.

Lemma rewrite_source_creates_backup (src text : str) (verbose : bool)
      (w : world) (enc : bytes) :
  lookup (backup_of src) (directory w) = None ->
  utf8_encode text = Some enc ->
  lookup (backup_of src)
         (directory (snd (rewrite_source package_bytes src text verbose w)))
  = Some (File enc).
Proof.
  intros Lb He.
  assert (Hs : (present <- path_exists (backup_of src) ;;
                if negb present then write_text (backup_of src) text
                else ret tt) w
               = (Return tt,
                  set_directory
                    (store (backup_of src) (File enc) (directory w)) w)).
  { unfold bind, path_exists. cbv beta iota. rewrite Lb.
    unfold write_text. rewrite He. unfold write_bytes.
    change (negb false) with true. cbv beta iota.
    rewrite Lb. reflexivity. }
  unfold rewrite_source.
  change (lookup (backup_of src)
            (directory (snd
               (((present <- path_exists (backup_of src) ;;
                  if negb present then write_text (backup_of src) text
                  else ret tt) ;;;
                 (doc <- lift (build_document text) ;;
                  write_bytes src (package_bytes doc) ;;;
                  if_verbose verbose (lit "Converted -> " ++ src) ;;;
                  ret true)) w)))
          = Some (File enc)).
  unfold bind at 1. rewrite Hs.
  apply keeps_bind.
  - apply keeps_lift.
  - intros doc. apply keeps_bind.
    + apply keeps_write_bytes, backup_of_neq.
    + intros _. apply keeps_bind; [apply keeps_if_verbose|].
      intros _. apply keeps_ret.
  - simpl. apply lookup_store_same.
Qed.

(** An entry other than the source that exists before a conversion is
    the same after it. *)
Lemma convert_frame (src : str) (force verbose : bool) (m : str) (x : node) :
  m <> src ->
  keeps m x (convert_plaintext_to_docx package_bytes src force verbose).
Proof.
  intros Hm w Lm. rewrite convert_eq.
  destruct (lookup src (directory w)) as [[data|]|] eqn:L; try assumption.
  destruct (bytes_eqb (firstn 2 data) PK && negb force).
  { destruct verbose; assumption. }
  destruct (utf8_decode true data) as [t|]; [|destruct verbose; assumption].
  apply rewrite_source_keeps; assumption.
Qed.

Lemma convert_each_frame (files : list str) (force : bool) (k : N)
      (w : world) (m : str) (x : node) :
  ~ In m files -> lookup m (directory w) = Some x ->
  lookup m (directory (snd (convert_each package_bytes files force k w)))
  = Some x.
Proof.
  revert k w. induction files as [|f files IH]; intros k w Hm Lm.
  - assumption.
  - simpl. unfold bind.
    assert (F : lookup m (directory (snd (convert_plaintext_to_docx
                  package_bytes f force true w))) = Some x).
    { apply convert_frame; [|assumption]. simpl in Hm. intuition congruence. }
    destruct (convert_plaintext_to_docx package_bytes f force true w)
      as [[done|e] w1]; simpl in F.
    + apply IH; [|apply F]. simpl in Hm. tauto.
    + exact F.
Qed.

End Environment.

End ConverterFacts.

Module ConverterClaims.
Import Py Codec OS OS.Notations Docx Converter ConverterViews.
Import PyFacts LineFacts OSFacts CodecFacts ConverterFacts Examples.

Section Environment.
Variable package_bytes : document -> bytes.
Variable fnmatch : str -> str -> bool.

Lemma main_files_In (pattern : str) (w : world) (m : str) :
  In m (sort_by str_leb (fun p => p)
                (filter (fun name => fnmatch name pattern)
                        (map fst (directory w)))) ->
  fnmatch m pattern = true.
Proof.
  intros H. apply (Permutation_in _ (sort_by_permutation _ _ _ _ _)) in H.
  apply filter_In in H. tauto.
Qed.

Lemma main_frame (force : bool) (pattern : str) (m : str) (x : node) :
  fnmatch m pattern = false ->
  keeps m x (main package_bytes fnmatch force pattern).
Proof.
  intros Hf w L. unfold main. unfold bind at 1.
  unfold iter_transcript_files.
  pose proof (main_files_In pattern w m) as Hin.
  destruct (sort_by str_leb (fun p => p) _) as [|f files]; [exact L|].
  unfold bind.
  pose proof (convert_each_frame package_bytes (f :: files) force 0 w m x)
    as F.
  destruct (convert_each package_bytes (f :: files) force 0 w)
    as [[k|e] w1]; simpl in F |- *; apply F; try assumption;
    intros H; apply Hin in H; congruence.
Qed.

(** C5 (amended).  A backup sidecar that exists is never written
    again as a backup: a conversion of its source leaves it as it is,
    whatever the flags, and so does a whole run of [main] whose pattern
    does not select the sidecar itself (a run whose pattern does takes
    the sidecar for a source).  In particular, when a mislabeled
    plain-text source without sidecar is converted, the sidecar then
    holds the text read, and a second conversion of the same source
    leaves it unchanged. *)
Theorem backup_first_write_wins (src : str) (w : world) :
  (forall x force verbose,
      lookup (backup_of src) (directory w) = Some x ->
      lookup (backup_of src)
             (directory (snd (convert_plaintext_to_docx package_bytes src
                                                        force verbose w)))
      = Some x)
  /\ (forall x force pattern,
        lookup (backup_of src) (directory w) = Some x ->
        fnmatch (backup_of src) pattern = false ->
        lookup (backup_of src)
               (directory (snd (main package_bytes fnmatch force pattern w)))
        = Some x)
  /\ (forall data t f1 v1 f2 v2,
        lookup src (directory w) = Some (File data) ->
        bytes_eqb (firstn 2 data) PK = false ->
        lookup (backup_of src) (directory w) = None ->
        utf8_decode true data = Some t ->
        let w1 := snd (convert_plaintext_to_docx package_bytes src f1 v1 w) in
        let w2 := snd (convert_plaintext_to_docx package_bytes src f2 v2 w1) in
        exists enc,
          utf8_encode (universal_newlines t) = Some enc
          /\ lookup (backup_of src) (directory w1) = Some (File enc)
          /\ lookup (backup_of src) (directory w2) = Some (File enc)).
Proof.
  split; [|split].
  - intros x force verbose L.
    apply convert_frame; [apply backup_of_neq | exact L].
  - intros x force pattern L Hf. apply main_frame; assumption.
  - intros data t f1 v1 f2 v2 L Hpk Lb Hd w1 w2.
    destruct (decoded_text_encodes true data t Hd) as [enc He].
    exists enc. split; [exact He|].
    assert (H1 : lookup (backup_of src) (directory w1) = Some (File enc)).
    { unfold w1. rewrite convert_eq, L, Hpk, Hd. simpl andb. cbv iota.
      apply rewrite_source_creates_backup; assumption. }
    split; [exact H1|].
    unfold w2. apply convert_frame; [apply backup_of_neq | exact H1].
Qed.

Lemma convert_skip (src : str) (data : bytes) (verbose : bool) (w : world) :
  lookup src (directory w) = Some (File data) ->
  firstn 2 data = PK ->
  convert_plaintext_to_docx package_bytes src false verbose w
  = (Return false,
     if verbose
     then World (root w) (utcnow w) (directory w)
                (stdout w ++ [lit "SKIP (already valid): " ++ src])
                (stderr w)
     else w).
Proof.
  intros L Hpk. rewrite convert_eq, L.
  apply bytes_eqb_eq in Hpk. rewrite Hpk. simpl andb. cbv iota.
  destruct verbose; reflexivity.
Qed.

Lemma convert_each_valid (files : list str) (k : N) (w : world)
      (src : str) (data : bytes) :
  lookup src (directory w) = Some (File data) ->
  firstn 2 data = PK ->
  lookup src (directory (snd (convert_each package_bytes files false k w)))
  = Some (File data).
Proof.
  revert k w. induction files as [|f files IH]; intros k w L Hpk.
  - exact L.
  - simpl. unfold bind.
    assert (F : lookup src (directory (snd (convert_plaintext_to_docx
                  package_bytes f false true w))) = Some (File data)).
    { destruct (list_eq_dec N.eq_dec src f) as [<-|Hne].
      - rewrite (convert_skip src data true w L Hpk). exact L.
      - apply convert_frame; assumption. }
    destruct (convert_plaintext_to_docx package_bytes f false true w)
      as [[done|e] w1]; simpl in F.
    + apply IH; assumption.
    + exact F.
Qed.

(** C6.  A source whose first two bytes are [PK] is skipped when the
    force flag is unset: the conversion answers [False], the directory
    is the same afterwards (nothing is written, to that file or any
    other), and the only effect is the line [SKIP (already valid): ...]
    on the standard output (printed unless [verbose] is off; [main]
    leaves it on).  The loop of [main] as a whole leaves such a file
    untouched as well. *)
Theorem valid_docx_is_skipped (src : str) (data : bytes) (w : world) :
  lookup src (directory w) = Some (File data) ->
  firstn 2 data = PK ->
  (forall verbose,
      convert_plaintext_to_docx package_bytes src false verbose w
      = (Return false,
         if verbose
         then World (root w) (utcnow w) (directory w)
                    (stdout w ++ [lit "SKIP (already valid): " ++ src])
                    (stderr w)
         else w))
  /\ (forall files k,
        lookup src
               (directory (snd (convert_each package_bytes files false k w)))
        = Some (File data)).
Proof.
  intros L Hpk. split.
  - intros verbose. apply (convert_skip src data); assumption.
  - intros files k. apply convert_each_valid; assumption.
Qed.

(** C10.  The validity check always returns: whatever the path and the
    state of the directory it answers a boolean and raises nothing.  For
    a path that cannot be opened (missing, or not readable) the answer
    is [False], so the converter goes on to read the text, and the
    [OSError] of that read, which no handler names, leaves
    [convert_plaintext_to_docx] with nothing written or printed. *)
Theorem validity_check_is_total (path : str) (w : world) :
  (exists b, is_valid_docx path w = (Return b, w))
  /\ (lookup path (directory w) = None
      \/ lookup path (directory w) = Some NoAccess ->
      is_valid_docx path w = (Return false, w)
      /\ forall force verbose,
          convert_plaintext_to_docx package_bytes path force verbose w
          = (Raise OSError, w)).
Proof.
  split.
  - rewrite is_valid_docx_eq. eexists. reflexivity.
  - intros H. split.
    + rewrite is_valid_docx_eq. destruct H as [-> | ->]; reflexivity.
    + intros force verbose. rewrite convert_eq.
      destruct H as [-> | ->]; reflexivity.
Qed.

Lemma backup_step_eq (src text : str) (enc : bytes) (w : world) :
  utf8_encode text = Some enc ->
  (present <- path_exists (backup_of src) ;;
   if negb present then write_text (backup_of src) text else ret tt) w
  = (Return tt,
     match lookup (backup_of src) (directory w) with
     | Some _ => w
     | None =>
         set_directory (store (backup_of src) (File enc) (directory w)) w
     end).
Proof.
  intros He. unfold bind, path_exists. cbv beta iota.
  destruct (lookup (backup_of src) (directory w)) as [b|] eqn:Lb.
  - reflexivity.
  - change (negb false) with true. cbv beta iota.
    unfold write_text. rewrite He. unfold write_bytes. rewrite Lb.
    reflexivity.
Qed.

(** Every source that can be read, is not skipped and has no line
    [add_run] refuses is converted, whether its bytes are valid UTF-8
    or not: the package of the decoded text is saved over it and the
    call answers [True]. *)
Lemma unskipped_source_is_converted (src : str) (data : bytes)
      (force verbose : bool) (w : world) (t : str) (doc : document) :
  lookup src (directory w) = Some (File data) ->
  bytes_eqb (firstn 2 data) PK && negb force = false ->
  utf8_decode true data = Some t ->
  build_document (universal_newlines t) = Return doc ->
  fst (convert_plaintext_to_docx package_bytes src force verbose w)
  = Return true
  /\ lookup src
       (directory (snd (convert_plaintext_to_docx package_bytes src force
                                                  verbose w)))
     = Some (File (package_bytes doc))
  /\ stdout (snd (convert_plaintext_to_docx package_bytes src force
                                            verbose w))
     = stdout w ++ (if verbose then [lit "Converted -> " ++ src] else [])
  /\ stderr (snd (convert_plaintext_to_docx package_bytes src force
                                            verbose w))
     = stderr w.
Proof.
  intros L Hs Ht Hd.
  destruct (decoded_text_encodes true data t Ht) as [enc He].
  set (w1 := match lookup (backup_of src) (directory w) with
             | Some _ => w
             | None => set_directory
                         (store (backup_of src) (File enc) (directory w)) w
             end).
  set (w2 := set_directory
               (store src (File (package_bytes doc)) (directory w1)) w1).
  assert (L1 : lookup src (directory w1) = Some (File data)).
  { unfold w1. destruct (lookup (backup_of src) (directory w)); [exact L|].
    simpl. rewrite lookup_store_other; [exact L|].
    apply not_eq_sym, backup_of_neq. }
  assert (O1 : stdout w1 = stdout w /\ stderr w1 = stderr w).
  { unfold w1. destruct (lookup (backup_of src) (directory w)); split;
      reflexivity. }
  destruct O1 as [O1 O2].
  assert (E : convert_plaintext_to_docx package_bytes src force verbose w
              = (Return true,
                 snd (if_verbose verbose (lit "Converted -> " ++ src) w2))).
  { rewrite convert_eq, L, Hs, Ht. unfold rewrite_source.
    change ((present <- path_exists (backup_of src) ;;
             (if negb present
              then write_text (backup_of src) (universal_newlines t)
              else ret tt) ;;;
             d <- lift (build_document (universal_newlines t)) ;;
             write_bytes src (package_bytes d) ;;;
             if_verbose verbose (lit "Converted -> " ++ src) ;;; ret true) w)
      with (((present <- path_exists (backup_of src) ;;
              if negb present
              then write_text (backup_of src) (universal_newlines t)
              else ret tt) ;;;
             (d <- lift (build_document (universal_newlines t)) ;;
              write_bytes src (package_bytes d) ;;;
              if_verbose verbose (lit "Converted -> " ++ src) ;;;
              ret true)) w).
    unfold bind at 1. rewrite (backup_step_eq src _ enc w He). fold w1.
    rewrite Hd. unfold bind, lift, write_bytes. rewrite L1. fold w2.
    destruct verbose; reflexivity. }
  rewrite E. cbn [fst snd].
  split; [reflexivity|].
  destruct verbose; cbn [if_verbose print ret snd directory stdout stderr];
    unfold w2; cbn [set_directory directory stdout stderr];
    rewrite lookup_store_same, ?O1, ?O2, ?app_nil_r; repeat split;
    reflexivity.
Qed.

(** C7 (as the code behaves).  A source holding [caf\xe9], which is no
    valid UTF-8, is not reported and not skipped: it is decoded with
    U+FFFD in place of the offending byte, backed up and converted, and
    [main] counts it among the converted files before going on to the
    next one.  No source ever takes the error branch, since reading
    with [errors='replace'] cannot raise [UnicodeDecodeError]. *)
Theorem undecodable_source_is_converted :
  utf8_decode false latin1_source = None
  /\ convert_plaintext_to_docx package_bytes src1 false true converter_world
     = (Return true,
        World (lit "/data") stamp
              [(src1,
                File (package_bytes
                        (Document_
                           (Font (Some Arial) None (Some 12))
                           [Paragraph
                              [Run (lit "caf" ++ [REPLACEMENT]) None
                                   arial_12]])));
               (src2, File (blit "**Q1**"));
               (src1 ++ lit ".orig.txt",
                File [x63; x61; x66; xef; xbf; xbd; x0a])]
              [lit "Converted -> transcript_PATIENT_001.docx"] [])
  /\ fst (main package_bytes sample_fnmatch false default_pattern
               converter_world) = Return 0
  /\ stdout (snd (main package_bytes sample_fnmatch false default_pattern
                       converter_world))
     = [lit "Converted -> transcript_PATIENT_001.docx";
        lit "Converted -> transcript_PATIENT_002.docx";
        lit "Done. 2 file(s) converted."]
  /\ (forall name w, fst (read_text name true w) <> Raise UnicodeDecodeError).
Proof.
  split; [reflexivity|].
  split; [reflexivity|].
  split; [reflexivity|].
  split; [reflexivity|].
  apply read_text_replace_decodes.
Qed.

End Environment.

End ConverterClaims.

Module DiscoveryReturns.
Import Py Codec OS OS.Notations Docx Aggregator AggregatorViews.
Import PyFacts LineFacts OSFacts AggregatorFacts AggregateOrder Discovery
       Exclusion.

Section Environment.
Variable decimal : char -> option N.
Hypothesis underscore_no_digit : decimal UNDERSCORE = None.

Lemma digit_not_underscore (d : char) :
  isdecimal decimal d = true -> (d =? UNDERSCORE) = false.
Proof.
  intros H. apply N.eqb_neq. intros ->. unfold isdecimal in H.
  rewrite underscore_no_digit in H. discriminate.
Qed.

(** The key of an identifier of the fixed-width form is the number its
    three digits spell. *)
Lemma sort_key_fixed_width (pid p : str) :
  fixed_width_id decimal pid ->
  exists k, sort_key decimal (pid, p) = Return k.
Proof.
  intros [d1 [d2 [d3 [D1 [D2 [D3 ->]]]]]].
  unfold sort_key. cbn [fst].
  assert (E : split_char UNDERSCORE (lit "PATIENT_" ++ [d1; d2; d3])
              = [lit "PATIENT"; [d1; d2; d3]]).
  { cbn. rewrite (digit_not_underscore _ D1), (digit_not_underscore _ D2),
      (digit_not_underscore _ D3). reflexivity. }
  rewrite E. cbn [nth_error]. unfold int. cbn [int_digits].
  unfold isdecimal in D1, D2, D3.
  destruct (decimal d1); [|discriminate].
  destruct (decimal d2); [|discriminate].
  destruct (decimal d3); [|discriminate].
  eexists. reflexivity.
Qed.

Lemma with_keys_total (files : list (str * str)) :
  (forall t, In t files -> exists k, sort_key decimal t = Return k) ->
  exists keyed, with_keys decimal files = Return keyed.
Proof.
  induction files as [|t files IH]; intros H.
  - exists []. reflexivity.
  - destruct (H t (or_introl eq_refl)) as [k Hk].
    destruct IH as [ks Hks]; [intros; apply H; right; assumption|].
    exists ((k, t) :: ks). simpl. rewrite Hk, Hks. reflexivity.
Qed.

(** Discovery raises nothing: the keys of what the pattern accepted
    always parse, and the list comes back in ascending order of the
    keys. *)
Lemma discovery_returns (w : world) :
  exists keyed,
    with_keys decimal (collect decimal (names w)) = Return keyed
    /\ iter_transcript_paths decimal w
       = (Return (map snd (sort_by N.leb fst keyed)), w)
    /\ StronglySorted (key_le fst) (sort_by N.leb fst keyed).
Proof.
  destruct (with_keys_total (collect decimal (names w))) as [keyed Hk].
  { intros [pid p] Hin. apply collect_In in Hin. destruct Hin as [_ S].
    destruct (search_Some _ _ _ S) as [pre [rest [_ M]]].
    apply sort_key_fixed_width.
    apply (match_here_Some _ _ _ M). }
  exists keyed. split; [exact Hk|]. split.
  - rewrite iter_transcript_paths_eq. unfold sort_files. rewrite Hk.
    reflexivity.
  - apply sort_by_sorted.
Qed.

End Environment.

End DiscoveryReturns.

Module Witnesses.
Import Py Codec OS OS.Notations Docx Aggregator AggregatorViews.
Import Converter ConverterViews Examples.
Import PyFacts LineFacts OSFacts AggregatorFacts AggregateOrder Discovery
       Exclusion AggregatorClaims Extraction ConverterFacts
       ConverterClaims.

Lemma aggregate_blocks_in_numeric_order_witness :
  fst (build_aggregate ascii_decimal None aggregator_world) = Return 0
  /\ fst (iter_transcript_paths ascii_decimal aggregator_world)
     = Return [(lit "PATIENT_002", src2); (lit "PATIENT_010", src10)]
  /\ sort_key ascii_decimal (lit "PATIENT_002", src2) = Return 2
  /\ sort_key ascii_decimal (lit "PATIENT_010", src10) = Return 10
  /\ exists T1 T2 T3,
      [(lit "PATIENT_002", src2); (lit "PATIENT_010", src10)]
      = T1 ++ (lit "PATIENT_002", src2) :: T2
           ++ (lit "PATIENT_010", src10) :: T3.
Proof.
  split; [vm_compute; reflexivity|].
  split; [vm_compute; reflexivity|].
  split; [vm_compute; reflexivity|].
  split; [vm_compute; reflexivity|].
  destruct (aggregate_blocks_in_numeric_order ascii_decimal None
              aggregator_world
              (snd (build_aggregate ascii_decimal None aggregator_world)) 0
              [(lit "PATIENT_002", src2); (lit "PATIENT_010", src10)]
              (lit "PATIENT_002") src2 (lit "PATIENT_010") src10 2 10)
    as [T1 [T2 [T3 [E1 [b1 [E2 [b2 [E3 [H _]]]]]]]]].
  - vm_compute; reflexivity.
  - vm_compute; reflexivity.
  - left; reflexivity.
  - right; left; reflexivity.
  - vm_compute; reflexivity.
  - vm_compute; reflexivity.
  - reflexivity.
  - exists T1, T2, T3. exact H.
Defined.

Lemma extraction_marks_fully_bold_paragraphs_witness :
  lookup src1 (directory bare_world) = Some (File (blit "PK"))
  /\ extract_text_from_docx (Some question_parse) src1 bare_world
     = (Return (lit "**Question 1**" ++ [LF] ++ [LF] ++ lit "An answer."),
        bare_world).
Proof.
  split; [reflexivity|].
  exact (proj1 (extraction_marks_fully_bold_paragraphs
                  question_parse src1 bare_world (blit "PK") _
                  eq_refl eq_refl)).
Defined.

Lemma backup_first_write_wins_witness :
  lookup (backup_of src1) (directory backed_up_world)
  = Some (File (blit "first text"))
  /\ lookup (backup_of src1)
       (directory (snd (convert_plaintext_to_docx sample_package src1 true
                                                  true backed_up_world)))
     = Some (File (blit "first text")).
Proof.
  split; [reflexivity|].
  apply (proj1 (backup_first_write_wins sample_package sample_fnmatch src1
                  backed_up_world)).
  reflexivity.
Defined.

Lemma valid_docx_is_skipped_witness :
  lookup src1 (directory valid_world) = Some (File (blit "PK-package"))
  /\ firstn 2 (blit "PK-package") = PK
  /\ convert_plaintext_to_docx sample_package src1 false true valid_world
     = (Return false,
        World (lit "/data") stamp [(src1, File (blit "PK-package"))]
              [lit "SKIP (already valid): transcript_PATIENT_001.docx"] []).
Proof.
  split; [reflexivity|]. split; [reflexivity|].
  exact (proj1 (valid_docx_is_skipped sample_package src1
                  (blit "PK-package") valid_world eq_refl eq_refl) true).
Defined.

Lemma missing_parser_is_fatal_witness :
  fst (iter_transcript_paths ascii_decimal bare_world)
  = Return [(lit "PATIENT_001", src1)]
  /\ fst (read_from_backup (backup_path src1) bare_world) = Return None
  /\ build_aggregate ascii_decimal None bare_world
     = (Raise (RuntimeError NOT_AVAILABLE), bare_world).
Proof.
  split; [vm_compute; reflexivity|].
  split; [vm_compute; reflexivity|].
  apply (proj2 (missing_parser_is_fatal ascii_decimal bare_world
                  [(lit "PATIENT_001", src1)] (lit "PATIENT_001") src1
                  ltac:(vm_compute; reflexivity)
                  (or_introl eq_refl)
                  ltac:(vm_compute; reflexivity))).
Defined.

Lemma discovery_keeps_fixed_width_names_witness :
  glob_match (lit "transcript_PATIENT_0001.docx") = true
  /\ ~ (exists pid, names_transcript ascii_decimal
                      (lit "transcript_PATIENT_0001.docx") pid)
  /\ observe (build_aggregate ascii_decimal None aggregator_world)
     = observe (build_aggregate ascii_decimal None aggregator_world_without).
Proof.
  assert (H : ~ (exists pid, names_transcript ascii_decimal
                               (lit "transcript_PATIENT_0001.docx") pid)).
  { intros [pid Hp]. apply (search_finds _ _ _ Hp). reflexivity. }
  split; [reflexivity|]. split; [exact H|].
  apply (discovery_keeps_fixed_width_names ascii_decimal None
           aggregator_world [(src10, File (blit "PK"))]
           [(src2, File (blit "PK"));
            (src2 ++ lit ".orig.txt", File (blit "two"));
            (src10 ++ lit ".orig.txt", File (blit "ten"))]
           (lit "transcript_PATIENT_0001.docx") (File (blit "PK"))
           eq_refl eq_refl H).
Defined.

Lemma validity_check_is_total_witness :
  lookup src1 (directory unreadable_world) = Some NoAccess
  /\ is_valid_docx src1 unreadable_world = (Return false, unreadable_world)
  /\ convert_plaintext_to_docx sample_package src1 false true unreadable_world
     = (Raise OSError, unreadable_world).
Proof.
  split; [reflexivity|].
  destruct (proj2 (validity_check_is_total sample_package src1
                     unreadable_world) (or_intror eq_refl)) as [H1 H2].
  split; [exact H1 | apply H2].
Defined.

(** *** Where three claims fail as they were written *)

(** Against C4 as it was written: a paragraph with a line break inside
    gives two lines of output, and a paragraph whose text comes from a
    hyperlink is wrapped although none of its runs has text. *)
Lemma soft_break_and_hyperlink_paragraphs :
  length (paragraphs soft_break_document) = 1%nat
  /\ extract_text_from_docx (Some soft_break_parse) src1 bare_world
     = (Return (lit "**top" ++ [LF] ++ lit "bottom**"), bare_world)
  /\ splitlines (lit "**top" ++ [LF] ++ lit "bottom**")
     = [lit "**top"; lit "bottom**"]
  /\ paragraph_line link_paragraph = lit "**link**"
  /\ wrapped link_paragraph
  /\ ~ (exists r, In r (runs link_paragraph) /\ has_text r = true).
Proof.
  split; [reflexivity|]. split; [reflexivity|]. split; [reflexivity|].
  split; [reflexivity|]. split; [reflexivity|].
  intros [r [[<-|[]] H]]. discriminate H.
Qed.

(** Against C5 as it was written: with the pattern
    [transcript_PATIENT_*] the sidecar is itself a matched source that is
    no package; the run converts it and saves the package over the text
    it held. *)
Lemma matched_sidecar_is_overwritten :
  lookup (backup_of src1) (directory backed_up_world)
  = Some (File (blit "first text"))
  /\ wildcard_fnmatch src1 wide_pattern = true
  /\ wildcard_fnmatch (backup_of src1) wide_pattern = true
  /\ fst (main sample_package wildcard_fnmatch false wide_pattern
               backed_up_world) = Return 0
  /\ lookup (backup_of src1)
       (directory (snd (main sample_package wildcard_fnmatch false
                             wide_pattern backed_up_world)))
     = Some (File (blit "PKfirst text"))
  /\ stdout (snd (main sample_package wildcard_fnmatch false wide_pattern
                       backed_up_world))
     = [lit "Converted -> transcript_PATIENT_001.docx";
        lit "Converted -> transcript_PATIENT_001.docx.orig.txt";
        lit "Done. 2 file(s) converted."].
Proof.
  split; [reflexivity|]. split; [reflexivity|]. split; [reflexivity|].
  split; [vm_compute; reflexivity|]. split; vm_compute; reflexivity.
Qed.

(** Against C9 as it was written: a name of the glob that is not
    [transcript_], an identifier of three digits and [.docx] is accepted
    all the same, because the pattern is searched for and not anchored
    at the start; it is given the identifier found at its end, a block
    and a place in the count. *)
Lemma odd_name_is_discovered :
  glob_match odd_name = true
  /\ ~ (exists pid, fixed_width_id ascii_decimal pid
                    /\ odd_name = lit "transcript_" ++ pid ++ lit ".docx")
  /\ iter_transcript_paths ascii_decimal odd_world
     = (Return [(lit "PATIENT_007", odd_name)], odd_world)
  /\ fst (build_aggregate ascii_decimal None odd_world) = Return 0
  /\ stdout (snd (build_aggregate ascii_decimal None odd_world))
     = [lit "Wrote aggregate file: /data/AllTranscripts_NVivo.txt"
        ++ lit " (1 transcripts)"].
Proof.
  split; [reflexivity|]. split.
  { intros [pid [[d1 [d2 [d3 [_ [_ [_ ->]]]]]] E]]. discriminate E. }
  split; [vm_compute; reflexivity|].
  split; vm_compute; reflexivity.
Qed.

End Witnesses.

(* ================================================================== *)
(** ** The UTF-8 codec: decoding and encoding are inverse *)
(* ================================================================== *)

Module CodecRoundTrip.
Import Py Codec PyFacts LineFacts CodecFacts.

Lemma octet_to_N (n : N) : n < 256 -> Byte.to_N (octet n) = n.
Proof.
  intros H. unfold octet. destruct (Byte.of_N n) as [b|] eqn:E.
  - apply Byte.to_of_N. exact E.
  - apply Byte.of_N_None_iff in E. lia.
Qed.

Lemma octet_of_to_N (b : byte) : octet (Byte.to_N b) = b.
Proof. unfold octet. rewrite Byte.of_to_N. reflexivity. Qed.

Ltac decide_guards :=
  repeat match goal with
         | |- context [?a <? ?b] =>
             destruct (N.ltb_spec a b); [try lia | try lia]
         | |- context [?a <=? ?b] =>
             destruct (N.leb_spec a b); [try lia | try lia]
         | |- context [?a =? ?b] =>
             destruct (N.eqb_spec a b); [try lia | try lia]
         end.

(** The four well-formed shapes, as the decoder reads them. *)
Lemma decode_one (replace : bool) (n0 : N) (rest : bytes) :
  n0 < 128 ->
  utf8_decode replace (octet n0 :: rest)
  = emit n0 (utf8_decode replace rest).
Proof.
  intros H. cbn [utf8_decode]. rewrite octet_to_N by lia.
  destruct (N.ltb_spec n0 128); [reflexivity | lia].
Qed.

Lemma decode_two (replace : bool) (n0 n1 : N) (rest : bytes) :
  194 <= n0 < 224 -> 128 <= n1 <= 191 ->
  utf8_decode replace (octet n0 :: octet n1 :: rest)
  = emit ((n0 - 192) * 64 + (n1 - 128)) (utf8_decode replace rest).
Proof.
  intros H0 H1. cbn [utf8_decode]. rewrite !octet_to_N by lia.
  unfold iscont. decide_guards. reflexivity.
Qed.

Lemma decode_three (replace : bool) (n0 n1 n2 : N) (rest : bytes) :
  224 <= n0 < 240 -> 128 <= n1 <= 191 -> 128 <= n2 <= 191 ->
  (n0 = 224 -> 160 <= n1) -> (n0 = 237 -> n1 < 160) ->
  utf8_decode replace (octet n0 :: octet n1 :: octet n2 :: rest)
  = emit ((n0 - 224) * 4096 + (n1 - 128) * 64 + (n2 - 128))
         (utf8_decode replace rest).
Proof.
  intros H0 H1 H2 L S. cbn [utf8_decode]. rewrite !octet_to_N by lia.
  unfold second_ok3, iscont. decide_guards; reflexivity.
Qed.

Lemma decode_four (replace : bool) (n0 n1 n2 n3 : N) (rest : bytes) :
  240 <= n0 <= 244 -> 128 <= n1 <= 191 -> 128 <= n2 <= 191 ->
  128 <= n3 <= 191 ->
  (n0 = 240 -> 144 <= n1) -> (n0 = 244 -> n1 < 144) ->
  utf8_decode replace (octet n0 :: octet n1 :: octet n2 :: octet n3 :: rest)
  = emit ((n0 - 240) * 262144 + (n1 - 128) * 4096 + (n2 - 128) * 64
          + (n3 - 128))
         (utf8_decode replace rest).
Proof.
  intros H0 H1 H2 H3 L S. cbn [utf8_decode]. rewrite !octet_to_N by lia.
  unfold second_ok4, iscont. decide_guards; reflexivity.
Qed.

(** Decoding what the encoder gave for one character gives it back. *)
Lemma utf8_decode_encoded_char (replace : bool) (c : char) (b rest : bytes) :
  utf8_encode_char c = Some b ->
  utf8_decode replace (b ++ rest) = emit c (utf8_decode replace rest).
Proof.
  unfold utf8_encode_char.
  pose proof (N.mod_lt c 64 ltac:(lia)) as R.
  pose proof (N.mod_lt (c / 64) 64 ltac:(lia)) as R1.
  pose proof (N.mod_lt (c / 4096) 64 ltac:(lia)) as R2.
  pose proof (N.div_mod c 64 ltac:(lia)) as Q.
  pose proof (N.div_mod (c / 64) 64 ltac:(lia)) as Q1.
  pose proof (N.div_mod (c / 4096) 64 ltac:(lia)) as Q2.
  assert (QQ : c / 64 / 64 = c / 4096)
    by (rewrite N.Div0.div_div; reflexivity).
  assert (QQ2 : c / 4096 / 64 = c / 262144)
    by (rewrite N.Div0.div_div; reflexivity).
  rewrite QQ in Q1. rewrite QQ2 in Q2. clear QQ QQ2.
  generalize dependent (c mod 64). intros r0 R Q.
  generalize dependent ((c / 64) mod 64). intros r1 R1 Q1.
  generalize dependent ((c / 4096) mod 64). intros r2 R2 Q2.
  generalize dependent (c / 262144). intros q2 Q2.
  generalize dependent (c / 4096). intros q1 Q1 Q2.
  generalize dependent (c / 64). intros q0 Q Q1.
  destruct (c <? 128) eqn:A.
  { intros H. assert (Eb : b = [octet c]) by congruence. subst b.
    bool_facts. apply decode_one. assumption. }
  destruct (c <? 2048) eqn:B.
  { intros H.
    assert (Eb : b = [octet (192 + q0); octet (128 + r0)]) by congruence.
    subst b. bool_facts.
    change ([octet (192 + q0); octet (128 + r0)] ++ rest)
      with (octet (192 + q0) :: octet (128 + r0) :: rest).
    rewrite decode_two by lia. f_equal. lia. }
  destruct (c <? 65536) eqn:C.
  { destruct ((55296 <=? c) && (c <=? 57343)) eqn:S; [discriminate|].
    intros H.
    assert (Eb : b = [octet (224 + q1); octet (128 + r1); octet (128 + r0)])
      by congruence.
    subst b. apply andb_false_iff in S. bool_facts.
    change ([octet (224 + q1); octet (128 + r1); octet (128 + r0)] ++ rest)
      with (octet (224 + q1) :: octet (128 + r1) :: octet (128 + r0) :: rest).
    rewrite decode_three; [f_equal; lia | lia | lia | lia | lia |].
    destruct S as [S|S]; bool_facts; lia. }
  destruct (c <? 1114112) eqn:E; [|discriminate].
  intros H.
  assert (Eb : b = [octet (240 + q2); octet (128 + r2); octet (128 + r1);
                    octet (128 + r0)]) by congruence.
  subst b. bool_facts.
  change ([octet (240 + q2); octet (128 + r2); octet (128 + r1);
           octet (128 + r0)] ++ rest)
    with (octet (240 + q2) :: octet (128 + r2) :: octet (128 + r1)
          :: octet (128 + r0) :: rest).
  rewrite decode_four; [f_equal; lia | lia ..].
Qed.

Lemma utf8_decode_encoded (replace : bool) (s : str) (b : bytes) :
  utf8_encode s = Some b -> utf8_decode replace b = Some s.
Proof.
  revert b. induction s as [|c s IH]; intros b.
  - intros H; injection H as <-. reflexivity.
  - cbn [utf8_encode].
    destruct (utf8_encode_char c) as [bc|] eqn:C; [|discriminate].
    destruct (utf8_encode s) as [bs|] eqn:S; [|discriminate].
    intros H; injection H as <-.
    rewrite (utf8_decode_encoded_char replace c bc bs C).
    rewrite (IH bs eq_refl). reflexivity.
Qed.

(** The encoder on what the decoder reads from each well-formed shape. *)
Lemma encode_one (n0 : N) :
  n0 < 128 -> utf8_encode_char n0 = Some [octet n0].
Proof.
  intros H. unfold utf8_encode_char.
  destruct (N.ltb_spec n0 128); [reflexivity | lia].
Qed.

Lemma encode_two (n0 n1 : N) :
  194 <= n0 < 224 -> 128 <= n1 <= 191 ->
  utf8_encode_char ((n0 - 192) * 64 + (n1 - 128)) = Some [octet n0; octet n1].
Proof.
  intros H0 H1. set (c := (n0 - 192) * 64 + (n1 - 128)).
  assert (Q : c / 64 = n0 - 192)
    by (symmetry; apply (N.div_unique c 64 (n0 - 192) (n1 - 128)); lia).
  assert (R : c mod 64 = n1 - 128)
    by (symmetry; apply (N.mod_unique c 64 (n0 - 192) (n1 - 128)); lia).
  unfold utf8_encode_char. rewrite Q, R.
  destruct (N.ltb_spec c 128); [lia|].
  destruct (N.ltb_spec c 2048); [|lia].
  repeat f_equal; lia.
Qed.

Lemma encode_three (n0 n1 n2 : N) :
  224 <= n0 < 240 -> 128 <= n1 <= 191 -> 128 <= n2 <= 191 ->
  (n0 = 224 -> 160 <= n1) -> (n0 = 237 -> n1 < 160) ->
  utf8_encode_char ((n0 - 224) * 4096 + (n1 - 128) * 64 + (n2 - 128))
  = Some [octet n0; octet n1; octet n2].
Proof.
  intros H0 H1 H2 L S.
  set (c := (n0 - 224) * 4096 + (n1 - 128) * 64 + (n2 - 128)).
  assert (Q : c / 64 = (n0 - 224) * 64 + (n1 - 128))
    by (symmetry;
        apply (N.div_unique c 64 ((n0 - 224) * 64 + (n1 - 128)) (n2 - 128));
        lia).
  assert (R : c mod 64 = n2 - 128)
    by (symmetry;
        apply (N.mod_unique c 64 ((n0 - 224) * 64 + (n1 - 128)) (n2 - 128));
        lia).
  assert (Q1 : c / 4096 = n0 - 224)
    by (symmetry;
        apply (N.div_unique c 4096 (n0 - 224)
                 ((n1 - 128) * 64 + (n2 - 128))); lia).
  assert (R1 : (c / 64) mod 64 = n1 - 128)
    by (rewrite Q; symmetry;
        apply (N.mod_unique _ 64 (n0 - 224) (n1 - 128)); lia).
  unfold utf8_encode_char. rewrite Q1, R1, R.
  destruct (N.ltb_spec c 128); [lia|].
  destruct (N.ltb_spec c 2048); [lia|].
  destruct (N.ltb_spec c 65536); [|lia].
  assert (G : (55296 <=? c) && (c <=? 57343) = false).
  { apply andb_false_iff.
    destruct (N.lt_ge_cases c 55296) as [A|A];
      [left; apply N.leb_gt; exact A|].
    right. apply N.leb_gt.
    assert (n0 <> 237) by lia. lia. }
  rewrite G. repeat f_equal; lia.
Qed.

Lemma encode_four (n0 n1 n2 n3 : N) :
  240 <= n0 <= 244 -> 128 <= n1 <= 191 -> 128 <= n2 <= 191 ->
  128 <= n3 <= 191 ->
  (n0 = 240 -> 144 <= n1) -> (n0 = 244 -> n1 < 144) ->
  utf8_encode_char ((n0 - 240) * 262144 + (n1 - 128) * 4096
                    + (n2 - 128) * 64 + (n3 - 128))
  = Some [octet n0; octet n1; octet n2; octet n3].
Proof.
  intros H0 H1 H2 H3 L S.
  set (c := (n0 - 240) * 262144 + (n1 - 128) * 4096 + (n2 - 128) * 64
            + (n3 - 128)).
  assert (Q : c / 64 = (n0 - 240) * 4096 + (n1 - 128) * 64 + (n2 - 128))
    by (symmetry; apply (N.div_unique c 64 _ (n3 - 128)); lia).
  assert (R : c mod 64 = n3 - 128)
    by (symmetry;
        apply (N.mod_unique c 64
                 ((n0 - 240) * 4096 + (n1 - 128) * 64 + (n2 - 128))
                 (n3 - 128)); lia).
  assert (Q1 : c / 4096 = (n0 - 240) * 64 + (n1 - 128))
    by (symmetry;
        apply (N.div_unique c 4096 _ ((n2 - 128) * 64 + (n3 - 128))); lia).
  assert (R1 : (c / 64) mod 64 = n2 - 128)
    by (rewrite Q; symmetry;
        apply (N.mod_unique _ 64 ((n0 - 240) * 64 + (n1 - 128)) (n2 - 128));
        lia).
  assert (Q2 : c / 262144 = n0 - 240)
    by (symmetry;
        apply (N.div_unique c 262144 _
                 ((n1 - 128) * 4096 + (n2 - 128) * 64 + (n3 - 128))); lia).
  assert (R2 : (c / 4096) mod 64 = n1 - 128)
    by (rewrite Q1; symmetry;
        apply (N.mod_unique _ 64 (n0 - 240) (n1 - 128)); lia).
  unfold utf8_encode_char. rewrite Q2, R2, R1, R.
  destruct (N.ltb_spec c 128); [lia|].
  destruct (N.ltb_spec c 2048); [lia|].
  destruct (N.ltb_spec c 65536); [lia|].
  destruct (N.ltb_spec c 1114112); [|lia].
  repeat f_equal; lia.
Qed.

(** One step of strict decoding: the bytes start with the encoding of
    the first character of the text. *)
Lemma strict_decode_step (b0 : byte) (r : bytes) (t : str) :
  utf8_decode false (b0 :: r) = Some t ->
  exists c bc rest t',
    b0 :: r = bc ++ rest /\ t = c :: t'
    /\ utf8_encode_char c = Some bc
    /\ utf8_decode false rest = Some t'
    /\ (length rest < length (b0 :: r))%nat
    /\ (c < 128 -> bc = [octet c])
    /\ (128 <= c -> Forall (fun b => 128 <= Byte.to_N b) bc).
Proof.
  assert (Emit : forall c bc rest,
             b0 :: r = bc ++ rest -> utf8_encode_char c = Some bc ->
             (length rest < length (b0 :: r))%nat ->
             (c < 128 -> bc = [octet c]) ->
             (128 <= c -> Forall (fun b => 128 <= Byte.to_N b) bc) ->
             emit c (utf8_decode false rest) = Some t ->
             exists c bc rest t',
               b0 :: r = bc ++ rest /\ t = c :: t'
               /\ utf8_encode_char c = Some bc
               /\ utf8_decode false rest = Some t'
               /\ (length rest < length (b0 :: r))%nat
               /\ (c < 128 -> bc = [octet c])
               /\ (128 <= c -> Forall (fun b => 128 <= Byte.to_N b) bc)).
  { intros c bc rest E1 E2 L S1 S2. unfold emit.
    destruct (utf8_decode false rest) as [t'|] eqn:D; [|discriminate].
    intros H. exists c, bc, rest, t'. simpl in H.
    split; [exact E1|]. split; [congruence|]. split; [exact E2|].
    split; [exact D|]. split; [exact L|]. split; assumption. }
  cbn [utf8_decode].
  pose proof (Byte.to_N_bounded b0) as B0.
  destruct (Byte.to_N b0 <? 128) eqn:A0.
  { bool_facts.
    apply (Emit (Byte.to_N b0) [b0] r); try reflexivity.
    - rewrite encode_one by assumption. rewrite octet_of_to_N. reflexivity.
    - simpl. lia.
    - intros _. rewrite octet_of_to_N. reflexivity.
    - intros. lia. }
  destruct ((Byte.to_N b0 <? 194) || (244 <? Byte.to_N b0)) eqn:A1;
    [discriminate|].
  destruct r as [|b1 r1]; [discriminate|].
  pose proof (Byte.to_N_bounded b1) as B1.
  destruct (Byte.to_N b0 <? 224) eqn:A3.
  { destruct (iscont (Byte.to_N b1)) eqn:C1; [|discriminate].
    unfold iscont in C1. bool_facts.
    apply (Emit _ [b0; b1] r1); try reflexivity.
    - rewrite encode_two by lia. rewrite !octet_of_to_N. reflexivity.
    - simpl. lia.
    - intros. lia.
    - intros _. repeat constructor; lia. }
  destruct (Byte.to_N b0 <? 240) eqn:A4.
  { destruct (second_ok3 (Byte.to_N b0) (Byte.to_N b1)) eqn:C1;
      [|discriminate].
    destruct r1 as [|b2 r2]; [discriminate|].
    destruct (iscont (Byte.to_N b2)) eqn:C2; [|discriminate].
    unfold second_ok3, iscont in C1, C2.
    apply andb_true_iff in C1. destruct C1 as [C1 C1'].
    bool_facts.
    assert (L : Byte.to_N b0 = 224 -> 160 <= Byte.to_N b1).
    { intros E. rewrite E in C1'. simpl in C1'. bool_facts. assumption. }
    assert (S : Byte.to_N b0 = 237 -> Byte.to_N b1 < 160).
    { intros E. rewrite E in C1'. simpl in C1'. bool_facts. assumption. }
    apply (Emit _ [b0; b1; b2] r2); try reflexivity.
    - rewrite encode_three by (assumption || lia).
      rewrite !octet_of_to_N. reflexivity.
    - simpl. lia.
    - intros. lia.
    - intros _. repeat constructor; lia. }
  destruct (second_ok4 (Byte.to_N b0) (Byte.to_N b1)) eqn:C1;
    [|discriminate].
  destruct r1 as [|b2 r2]; [discriminate|].
  destruct (iscont (Byte.to_N b2)) eqn:C2; [|discriminate].
  destruct r2 as [|b3 r3]; [discriminate|].
  destruct (iscont (Byte.to_N b3)) eqn:C3; [|discriminate].
  unfold second_ok4, iscont in C1, C2, C3.
  apply andb_true_iff in C1. destruct C1 as [C1 C1'].
  bool_facts.
  assert (L : Byte.to_N b0 = 240 -> 144 <= Byte.to_N b1).
  { intros E. rewrite E in C1'. simpl in C1'. bool_facts. assumption. }
  assert (S : Byte.to_N b0 = 244 -> Byte.to_N b1 < 144).
  { intros E. rewrite E in C1'. simpl in C1'. bool_facts. assumption. }
  apply (Emit _ [b0; b1; b2; b3] r3); try reflexivity.
  - rewrite encode_four by (assumption || lia).
    rewrite !octet_of_to_N. reflexivity.
  - simpl. lia.
  - intros. lia.
  - intros _. repeat constructor; lia.
Qed.

(** Encoding what strict decoding gave returns the bytes: a text has one
    encoding only. *)
Lemma utf8_encode_decoded (bs : bytes) (t : str) :
  utf8_decode false bs = Some t -> utf8_encode t = Some bs.
Proof.
  remember (length bs) as n eqn:Hn.
  assert (Hle : (length bs <= n)%nat) by lia. clear Hn.
  revert bs t Hle. induction n as [|n IH]; intros bs t Hle H.
  - destruct bs; [|simpl in Hle; lia]. injection H as <-. reflexivity.
  - destruct bs as [|b0 r]; [injection H as <-; reflexivity|].
    destruct (strict_decode_step b0 r t H)
      as [c [bc [rest [t' [E [-> [C [D [L _]]]]]]]]].
    rewrite E. cbn [utf8_encode]. rewrite C.
    rewrite (IH rest t'); [reflexivity | simpl in Hle, L; lia | exact D].
Qed.

(** On well-formed input the two error handlers agree. *)
Lemma strict_then_replace (bs : bytes) (t : str) :
  utf8_decode false bs = Some t -> utf8_decode true bs = Some t.
Proof.
  intros H. apply utf8_decode_encoded. apply utf8_encode_decoded. exact H.
Qed.

(** A carriage return in the text is a byte [0D] of the input. *)
Lemma decoded_CR (bs : bytes) (t : str) :
  utf8_decode false bs = Some t -> In CR t -> In x0d bs.
Proof.
  remember (length bs) as n eqn:Hn.
  assert (Hle : (length bs <= n)%nat) by lia. clear Hn.
  revert bs t Hle. induction n as [|n IH]; intros bs t Hle H.
  - destruct bs; [|simpl in Hle; lia]. injection H as <-. intros [].
  - destruct bs as [|b0 r]; [injection H as <-; intros []|].
    destruct (strict_decode_step b0 r t H)
      as [c [bc [rest [t' [E [-> [C [D [L [S1 S2]]]]]]]]]].
    rewrite E. intros [->|I]; apply in_or_app.
    + left. rewrite S1 by reflexivity. left. reflexivity.
    + right. apply (IH rest t'); [simpl in Hle, L; lia | exact D | exact I].
Qed.

(** Text without a carriage return passes the newline translation
    unchanged, and what the translation gives has none. *)
Lemma universal_newlines_id (s : str) :
  ~ In CR s -> universal_newlines s = s.
Proof.
  induction s as [|c s IH]; [reflexivity|]. intros H. cbn [universal_newlines].
  destruct (N.eqb_spec c CR) as [->|N].
  - exfalso. apply H. left. reflexivity.
  - rewrite IH; [reflexivity|]. intros I. apply H. right. exact I.
Qed.

Lemma universal_newlines_no_CR (s : str) : ~ In CR (universal_newlines s).
Proof.
  induction s as [|c|c c' t IH1 IH2] using str_ind2.
  - intros [].
  - cbn. destruct (N.eqb_spec c CR) as [->|N]; intros [E|[]];
      [discriminate | congruence].
  - change (universal_newlines (c :: c' :: t))
      with (if c =? CR
            then LF :: (if c' =? LF then universal_newlines t
                        else universal_newlines (c' :: t))
            else c :: universal_newlines (c' :: t)).
    destruct (N.eqb_spec c CR) as [->|N].
    + intros [E|I]; [discriminate|].
      destruct (c' =? LF); [exact (IH1 I) | exact (IH2 I)].
    + intros [E|I]; [congruence | exact (IH2 I)].
Qed.

Lemma universal_newlines_idempotent (s : str) :
  universal_newlines (universal_newlines s) = universal_newlines s.
Proof. apply universal_newlines_id, universal_newlines_no_CR. Qed.

End CodecRoundTrip.

(* ================================================================== *)
(** ** Further properties of build_nvivo_aggregate.py *)
(* ================================================================== *)

Module AggregatorProperties.
Import Py Codec OS OS.Notations Docx Aggregator AggregatorViews.
Import DiscoveryViews Examples MoreExamples.
Import PyFacts LineFacts OSFacts AggregatorFacts AggregateOrder Discovery
       Exclusion CodecFacts TrimmedLines HeaderNormalization DiscoveryReturns.

(** *** Sorting *)

Lemma sorted_map {A B : Type} (R : A -> A -> Prop) (R' : B -> B -> Prop)
      (f : A -> B) (l : list A) :
  (forall a b, In a l -> In b l -> R a b -> R' (f a) (f b)) ->
  StronglySorted R l -> StronglySorted R' (map f l).
Proof.
  intros H S. induction S as [|a l S IH F]; [constructor|].
  simpl. constructor.
  - apply IH. intros x y Hx Hy. apply H; right; assumption.
  - apply Forall_forall. intros y Hy. apply in_map_iff in Hy.
    destruct Hy as [b [<- Hb]].
    apply H; [left; reflexivity | right; assumption |].
    rewrite Forall_forall in F. apply F. assumption.
Qed.

Section Stability.
Variables (A : Type) (key : A -> N).

Lemma insert_by_stable (k : N) (x : A) (l : list A) :
filter (fun y => key y =? k) (insert_by N.leb key x l)
= filter (fun y => key y =? k) (x :: l).
Proof.
induction l as [|y l IH]; [reflexivity|].
cbn [insert_by]. destruct (N.leb_spec (key x) (key y)) as [L|L];
  [reflexivity|].
cbn [filter] in *. rewrite IH.
destruct (N.eqb_spec (key y) k) as [Ey|Ey]; [|reflexivity].
destruct (N.eqb_spec (key x) k) as [Ex|Ex]; [lia | reflexivity].
Qed.

Lemma sort_by_stable (k : N) (l : list A) :
filter (fun y => key y =? k) (sort_by N.leb key l)
= filter (fun y => key y =? k) l.
Proof.
induction l as [|x l IH]; [reflexivity|].
cbn [sort_by]. rewrite insert_by_stable. cbn [filter]. rewrite IH.
reflexivity.
Qed.

End Stability.

Lemma filter_map_snd (decimal : char -> option N) (k : N)
      (l : list (N * (str * str))) :
  Forall (fun kt => sort_key decimal (snd kt) = Return (fst kt)) l ->
  filter (has_key decimal k) (map snd l)
  = map snd (filter (fun kt => fst kt =? k) l).
Proof.
  induction 1 as [|kt l H F IH]; [reflexivity|].
  cbn [map filter]. unfold has_key at 1. rewrite H, IH.
  destruct (fst kt =? k); reflexivity.
Qed.

Section Environment.
Variable decimal : char -> option N.

Lemma sort_files_inv (files ts : list (str * str)) :
sort_files decimal files = Return ts ->
exists keyed,
  with_keys decimal files = Return keyed
  /\ ts = map snd (sort_by N.leb fst keyed)
  /\ map snd keyed = files
  /\ Forall (fun kt => sort_key decimal (snd kt) = Return (fst kt)) keyed
  /\ Forall (fun kt => sort_key decimal (snd kt) = Return (fst kt))
            (sort_by N.leb fst keyed).
Proof.
unfold sort_files. destruct (with_keys decimal files) as [keyed|e] eqn:K;
  [|discriminate].
intros H. injection H as <-. exists keyed.
destruct (with_keys_spec decimal files keyed K) as [M F].
repeat split; try assumption.
apply Forall_forall. intros kt Hin. rewrite Forall_forall in F. apply F.
apply (Permutation_in _ (sort_by_perm _ fst keyed)). exact Hin.
Qed.

(** X1.  Discovery never raises.  The decimal digits the pattern asks
  for always make a number, so the sort key of every accepted name
  parses; the list that comes back holds what the pattern accepted,
  each name as often as it is listed, in ascending order of the
  numbers, and the world is as it was. *)
Theorem discovery_returns_sorted (w : world) :
decimal UNDERSCORE = None ->
exists ts,
  iter_transcript_paths decimal w = (Return ts, w)
  /\ Permutation ts (collect decimal (names w))
  /\ StronglySorted (key_order decimal) ts.
Proof.
intros U. destruct (discovery_returns decimal U w) as [keyed [K [E S]]].
exists (map snd (sort_by N.leb fst keyed)). split; [exact E|].
assert (Hs : sort_files decimal (collect decimal (names w))
             = Return (map snd (sort_by N.leb fst keyed))).
{ unfold sort_files. rewrite K. reflexivity. }
split; [exact (sort_files_perm decimal _ _ Hs)|].
destruct (sort_files_inv _ _ Hs) as [keyed' [K' [_ [_ [_ F]]]]].
rewrite K in K'. injection K' as <-.
apply (sorted_map (key_le fst)); [|exact S].
intros a b Ha Hb L. rewrite Forall_forall in F.
exists (fst a), (fst b). split; [apply F; exact Ha|].
split; [apply F; exact Hb | exact L].
Qed.

(** X2.  The sort of discovery is stable: the transcripts of one number
  stay in the order in which the directory lists them. *)
Theorem equal_numbers_keep_listing_order
  (w : world) (ts : list (str * str)) (k : N) :
fst (iter_transcript_paths decimal w) = Return ts ->
filter (has_key decimal k) ts
= filter (has_key decimal k) (collect decimal (names w)).
Proof.
rewrite iter_transcript_paths_eq. cbn [fst]. intros Hs.
destruct (sort_files_inv _ _ Hs) as [keyed [_ [-> [M [F F']]]]].
rewrite <- M. rewrite !filter_map_snd by assumption.
rewrite sort_by_stable. reflexivity.
Qed.

(** X3.  The key discovery sorts by is the number the three digits of
  the identifier spell, most significant digit first. *)
Theorem sort_key_is_the_three_digit_number
  (w : world) (ts : list (str * str)) (pid p : str) :
decimal UNDERSCORE = None ->
fst (iter_transcript_paths decimal w) = Return ts ->
In (pid, p) ts ->
exists d1 d2 d3 v1 v2 v3,
  pid = lit "PATIENT_" ++ [d1; d2; d3]
  /\ decimal d1 = Some v1 /\ decimal d2 = Some v2 /\ decimal d3 = Some v3
  /\ sort_key decimal (pid, p) = Return (100 * v1 + 10 * v2 + v3).
Proof.
intros U Hts Hin.
destruct (discovered_accepted decimal w ts pid p Hts Hin) as [_ [_ S]].
destruct (search_Some _ _ _ S) as [pre [rest [_ M]]].
destruct (match_here_Some _ _ _ M) as [[d1 [d2 [d3 [D1 [D2 [D3 ->]]]]]] _].
unfold isdecimal in D1, D2, D3.
destruct (decimal d1) as [v1|] eqn:E1; [|discriminate].
destruct (decimal d2) as [v2|] eqn:E2; [|discriminate].
destruct (decimal d3) as [v3|] eqn:E3; [|discriminate].
exists d1, d2, d3, v1, v2, v3.
repeat (split; [reflexivity || assumption|]).
unfold sort_key. cbn [fst].
assert (E : split_char UNDERSCORE (lit "PATIENT_" ++ [d1; d2; d3])
            = [lit "PATIENT"; [d1; d2; d3]]).
{ assert (N1 : (d1 =? UNDERSCORE) = false)
    by (apply (digit_not_underscore decimal U); unfold isdecimal;
        rewrite E1; reflexivity).
  assert (N2 : (d2 =? UNDERSCORE) = false)
    by (apply (digit_not_underscore decimal U); unfold isdecimal;
        rewrite E2; reflexivity).
  assert (N3 : (d3 =? UNDERSCORE) = false)
    by (apply (digit_not_underscore decimal U); unfold isdecimal;
        rewrite E3; reflexivity).
  cbn. rewrite N1, N2, N3. reflexivity. }
rewrite E. cbn [nth_error]. unfold int. cbn [int_digits].
rewrite E1, E2, E3. f_equal. lia.
Qed.

(** X4.  Discovery never takes a backup sidecar or the aggregate file
  for a transcript: every discovered name starts with
  [transcript_PATIENT_] and ends with [.docx]. *)
Theorem discovery_skips_sidecars_and_aggregate
  (w : world) (ts : list (str * str)) (pid p : str) :
fst (iter_transcript_paths decimal w) = Return ts ->
In (pid, p) ts ->
(exists mid, p = lit "transcript_PATIENT_" ++ mid ++ lit ".docx")
/\ p <> AGGREGATE_NAME
/\ forall q, p <> backup_path q.
Proof.
intros Hts Hin.
destruct (discovered_accepted decimal w ts pid p Hts Hin) as [_ [G _]].
split; [exact (glob_match_shape p G)|]. split.
- intros E. exact (glob_match_not_aggregate p G (eq_sym E)).
- intros q E. exact (glob_match_not_backup p q G (eq_sym E)).
Qed.

End Environment.

Lemma discovery_returns_sorted_witness :
  ascii_decimal UNDERSCORE = None
  /\ exists ts,
      iter_transcript_paths ascii_decimal aggregator_world
      = (Return ts, aggregator_world)
      /\ Permutation ts (collect ascii_decimal (names aggregator_world))
      /\ StronglySorted (key_order ascii_decimal) ts.
Proof.
  split; [reflexivity|].
  apply (discovery_returns_sorted ascii_decimal aggregator_world). reflexivity.
Defined.

Lemma equal_numbers_keep_listing_order_witness :
  fst (iter_transcript_paths ascii_decimal tie_world)
  = Return [(lit "PATIENT_003", lit "transcript_PATIENT_003.docx");
            (lit "PATIENT_007",
             lit "transcript_PATIENT_Xtranscript_PATIENT_007.docx");
            (lit "PATIENT_007", lit "transcript_PATIENT_007.docx")]
  /\ filter (has_key ascii_decimal 7)
       [(lit "PATIENT_003", lit "transcript_PATIENT_003.docx");
        (lit "PATIENT_007",
         lit "transcript_PATIENT_Xtranscript_PATIENT_007.docx");
        (lit "PATIENT_007", lit "transcript_PATIENT_007.docx")]
     = filter (has_key ascii_decimal 7)
         (collect ascii_decimal (names tie_world)).
Proof.
  split; [vm_compute; reflexivity|].
  apply (equal_numbers_keep_listing_order ascii_decimal tie_world). vm_compute. reflexivity.
Defined.

Lemma sort_key_is_the_three_digit_number_witness :
  fst (iter_transcript_paths ascii_decimal aggregator_world)
  = Return [(lit "PATIENT_002", src2); (lit "PATIENT_010", src10)]
  /\ exists d1 d2 d3 v1 v2 v3,
      lit "PATIENT_010" = lit "PATIENT_" ++ [d1; d2; d3]
      /\ ascii_decimal d1 = Some v1 /\ ascii_decimal d2 = Some v2
      /\ ascii_decimal d3 = Some v3
      /\ sort_key ascii_decimal (lit "PATIENT_010", src10)
         = Return (100 * v1 + 10 * v2 + v3).
Proof.
  split; [vm_compute; reflexivity|].
  apply (sort_key_is_the_three_digit_number ascii_decimal aggregator_world
           [(lit "PATIENT_002", src2); (lit "PATIENT_010", src10)]).
  - reflexivity.
  - vm_compute. reflexivity.
  - right. left. reflexivity.
Defined.

Lemma discovery_skips_sidecars_and_aggregate_witness :
  fst (iter_transcript_paths ascii_decimal aggregator_world)
  = Return [(lit "PATIENT_002", src2); (lit "PATIENT_010", src10)]
  /\ src2 <> AGGREGATE_NAME
  /\ forall q, src2 <> backup_path q.
Proof.
  assert (H : fst (iter_transcript_paths ascii_decimal aggregator_world)
              = Return [(lit "PATIENT_002", src2); (lit "PATIENT_010", src10)])
    by (vm_compute; reflexivity).
  split; [exact H|].
  exact (proj2 (discovery_skips_sidecars_and_aggregate ascii_decimal
                  aggregator_world _ (lit "PATIENT_002") src2 H
                  (or_introl eq_refl))).
Defined.

(** *** Reading a backup *)

(** X5.  [read_from_backup] never raises and changes nothing: a sidecar
    that is missing, one that cannot be opened and one that is no valid
    UTF-8 all answer [None]; a sidecar of valid UTF-8 answers its text,
    line ends translated. *)
Theorem backup_reading_never_raises (p : str) (w : world) :
  exists r,
    read_from_backup p w = (Return r, w)
    /\ (lookup p (directory w) = None -> r = None)
    /\ (lookup p (directory w) = Some NoAccess -> r = None)
    /\ (forall data, lookup p (directory w) = Some (File data) ->
          r = option_map universal_newlines (utf8_decode false data)).
Proof.
  exists (backup_text p w). split; [apply read_from_backup_eq|].
  unfold backup_text.
  split; [intros ->; reflexivity|].
  split; [intros ->; reflexivity|].
  intros data ->. reflexivity.
Qed.

Lemma backup_reading_never_raises_witness :
  lookup src1 (directory unreadable_world) = Some NoAccess
  /\ read_from_backup src1 unreadable_world
     = (Return None, unreadable_world)
  /\ read_from_backup (backup_path src1) backed_up_world
     = (Return (Some (lit "first text")), backed_up_world).
Proof.
  split; [reflexivity|]. split.
  - destruct (backup_reading_never_raises src1 unreadable_world)
      as [r [E [_ [N _]]]].
    rewrite E, (N eq_refl). reflexivity.
  - destruct (backup_reading_never_raises (backup_path src1) backed_up_world)
      as [r [E [_ [_ F]]]].
    rewrite E, (F (blit "first text") eq_refl). reflexivity.
Defined.

(** *** The loop over the transcripts *)

Lemma for_each_agree {A B : Type} (f g : A -> M B) (w : world)
      (xs : list A) :
  (forall x, In x xs -> f x w = g x w) ->
  (forall x, snd (f x w) = w) ->
  for_each f xs w = for_each g xs w.
Proof.
  intros H R. induction xs as [|x xs IH]; [reflexivity|].
  cbn [for_each]. unfold bind.
  rewrite <- (H x (or_introl eq_refl)).
  pose proof (R x) as Rx. destruct (f x w) as [[y|e] w1]; simpl in Rx;
    subst w1; [|reflexivity].
  rewrite IH; [reflexivity|]. intros z Hz. apply H. right. exact Hz.
Qed.

Lemma finish_eq (ts : list (str * str)) (entries : list str) (w : world) :
  finish ts entries w
  = match lookup AGGREGATE_NAME (directory w) with
    | Some NoAccess => (Raise OSError, w)
    | _ =>
        match utf8_encode (aggregate_text (utcnow w) ts entries) with
        | Some data =>
            (Return 0,
             World (root w) (utcnow w)
                   (store AGGREGATE_NAME (File data) (directory w))
                   (stdout w ++ [wrote_line w ts]) (stderr w))
        | None =>
            (Raise UnicodeEncodeError,
             set_directory (store AGGREGATE_NAME (File []) (directory w)) w)
        end
    end.
Proof.
  unfold finish, bind, now, write_text, aggregate_text, wrote_line.
  cbv beta iota.
  destruct (utf8_encode _) as [data|];
    unfold bind, write_bytes, path_str, print, ret, raise; cbv beta iota;
    destruct (lookup AGGREGATE_NAME (directory w)) as [[old|]|];
    reflexivity.
Qed.

Section Runs.
Variable decimal : char -> option N.
Variable Document : option (option bytes -> outcome document).

Lemma entries_eq (ts : list (str * str)) (w : world) :
exists r, for_each (transcript_entry Document) ts w = (r, w).
Proof.
destruct (for_each_readonly (transcript_entry Document) w
            (fun t0 => transcript_entry_readonly Document t0 w) ts)
  as [Hw _].
destruct (for_each (transcript_entry Document) ts w) as [r w1].
simpl in Hw. subst w1. exists r. reflexivity.
Qed.

(** What a usable backup gives. *)
Lemma entry_from_backup (pid p c : str) (w : world) :
fst (read_from_backup (backup_path p) w) = Return (Some c) ->
transcript_entry Document (pid, p) w = (Return (entry_text pid c), w).
Proof.
rewrite read_from_backup_eq. cbn [fst]. intros H. injection H as H.
rewrite transcript_entry_eq. unfold entry_outcome. cbn [fst snd].
rewrite H. reflexivity.
Qed.

End Runs.

(** X6.  A usable backup takes precedence over the document: the block
    of such a transcript is made from the text of the sidecar, whatever
    the [.docx] holds and whether or not python-docx could be imported.
    When every discovered transcript has a usable backup the whole run
    is the same with and without the parser. *)
Theorem usable_backups_replace_the_parser
    (decimal : char -> option N) (w : world) (ts : list (str * str)) :
  fst (iter_transcript_paths decimal w) = Return ts ->
  (forall pid p, In (pid, p) ts ->
     exists c, fst (read_from_backup (backup_path p) w) = Return (Some c)) ->
  (forall D pid p c, In (pid, p) ts ->
     fst (read_from_backup (backup_path p) w) = Return (Some c) ->
     transcript_entry D (pid, p) w = (Return (entry_text pid c), w))
  /\ (forall D1 D2,
        build_aggregate decimal D1 w = build_aggregate decimal D2 w).
Proof.
  intros Hts Hb. split.
  - intros D pid p c _ H. apply entry_from_backup. exact H.
  - intros D1 D2. rewrite !build_aggregate_eq.
    rewrite iter_transcript_paths_eq in Hts. cbn [fst] in Hts. rewrite Hts.
    destruct ts as [|t ts']; [reflexivity|].
    rewrite (for_each_agree (transcript_entry D1) (transcript_entry D2) w
               (t :: ts')).
    + reflexivity.
    + intros [pid p] Hin. destruct (Hb pid p Hin) as [c Hc].
      rewrite !(entry_from_backup _ pid p c w Hc). reflexivity.
    + intros x. apply transcript_entry_readonly.
Qed.

Lemma usable_backups_replace_the_parser_witness :
  fst (iter_transcript_paths ascii_decimal aggregator_world)
  = Return [(lit "PATIENT_002", src2); (lit "PATIENT_010", src10)]
  /\ fst (read_from_backup (backup_path src2) aggregator_world)
     = Return (Some (lit "two"))
  /\ fst (read_from_backup (backup_path src10) aggregator_world)
     = Return (Some (lit "ten"))
  /\ build_aggregate ascii_decimal None aggregator_world
     = build_aggregate ascii_decimal (Some question_parse) aggregator_world.
Proof.
  split; [vm_compute; reflexivity|].
  split; [vm_compute; reflexivity|].
  split; [vm_compute; reflexivity|].
  apply (usable_backups_replace_the_parser ascii_decimal aggregator_world
           [(lit "PATIENT_002", src2); (lit "PATIENT_010", src10)]).
  - vm_compute. reflexivity.
  - intros pid p [E|[E|[]]]; injection E as <- <-;
      eexists; vm_compute; reflexivity.
Defined.

Section Outcomes.
Variable decimal : char -> option N.
Variable Document : option (option bytes -> outcome document).

Lemma collect_nil (names : list str) :
collect decimal names = []
<-> forall n, In n names -> TRANSCRIPT_PATTERN_search decimal n = None.
Proof.
induction names as [|n names IH]; simpl.
- split; [intros _ n [] | reflexivity].
- destruct (TRANSCRIPT_PATTERN_search decimal n) as [pid|] eqn:S.
  + split; [discriminate|]. intros H.
    specialize (H n (or_introl eq_refl)). congruence.
  + rewrite IH. split.
    * intros H m [<-|Hm]; [exact S | apply H; exact Hm].
    * intros H m Hm. apply H. right. exact Hm.
Qed.

Lemma names_In (w : world) (n : str) :
In n (names w) <-> In n (map fst (directory w)) /\ glob_match n = true.
Proof. unfold names. apply filter_In. Qed.

(** X7.  When the directory holds no name that both the glob and the
  pattern accept, the run ends with exit code 1 after one line on
  standard error; no file is written and nothing goes to standard
  output.  Exit code 1 is returned in no other case. *)
Theorem nothing_found_nothing_written (w : world) :
((forall n, In n (map fst (directory w)) -> glob_match n = true ->
            TRANSCRIPT_PATTERN_search decimal n = None)
 -> build_aggregate decimal Document w = (Return 1, nothing_found w))
/\ (fst (build_aggregate decimal Document w) = Return 1 ->
    forall n, In n (map fst (directory w)) -> glob_match n = true ->
              TRANSCRIPT_PATTERN_search decimal n = None).
Proof.
split.
- intros H. rewrite build_aggregate_eq.
  assert (E : collect decimal (names w) = []).
  { apply collect_nil. intros n Hn. apply names_In in Hn.
    apply H; tauto. }
  rewrite E. reflexivity.
- intros H n Hn G.
  destruct (build_aggregate decimal Document w) as [r w'] eqn:B.
  simpl in H. subst r.
  destruct (build_aggregate_success decimal Document w w' 1 B)
    as [[_ I]|[ts [entries [data [C _]]]]]; [|discriminate].
  rewrite iter_transcript_paths_eq in I. cbn [fst] in I.
  pose proof (sort_files_perm decimal _ _ I) as P.
  apply Permutation_nil in P.
  apply (proj1 (collect_nil (names w)) P). apply names_In. tauto.
Qed.

End Outcomes.

Lemma nothing_found_nothing_written_witness :
  (forall n, In n (map fst (directory rejected_world)) ->
             glob_match n = true ->
             TRANSCRIPT_PATTERN_search ascii_decimal n = None)
  /\ build_aggregate ascii_decimal None rejected_world
     = (Return 1,
        World (lit "/data") stamp (directory rejected_world) []
              [lit "No transcript files found."]).
Proof.
  assert (H : forall n, In n (map fst (directory rejected_world)) ->
                glob_match n = true ->
                TRANSCRIPT_PATTERN_search ascii_decimal n = None).
  { intros n [<-|[<-|[]]] G; [reflexivity | discriminate G]. }
  split; [exact H|].
  exact (proj1 (nothing_found_nothing_written ascii_decimal None
                  rejected_world) H).
Defined.

(** *** What a run writes *)

Lemma store_lookup_id (n : str) (x : node) (d : list (str * node)) :
  lookup n d = Some x -> store n x d = d.
Proof.
  induction d as [|[m y] d IH]; [discriminate|]. simpl.
  destruct (str_eqb n m); [congruence|].
  intros H. rewrite (IH H). reflexivity.
Qed.

Lemma map_fst_store (n : str) (x : node) (d : list (str * node)) :
  map fst (store n x d) = map fst d
  \/ (lookup n d = None /\ map fst (store n x d) = map fst d ++ [n]).
Proof.
  induction d as [|[m y] d IH]; [right; split; reflexivity|]. simpl.
  destruct (str_eqb n m); [left; reflexivity|].
  destruct IH as [E|[L E]]; [left | right; split; [exact L|]];
    simpl; rewrite E; reflexivity.
Qed.

Lemma backup_not_aggregate (p : str) : backup_path p <> AGGREGATE_NAME.
Proof.
  unfold backup_path. rewrite with_suffix_append. intros E.
  apply (f_equal (@rev _)) in E. rewrite rev_app_distr in E.
  simpl in E. discriminate.
Qed.

Lemma names_store_aggregate (w w' : world) (x : node) :
  directory w' = store AGGREGATE_NAME x (directory w) ->
  names w' = names w.
Proof.
  intros E. unfold names. rewrite E.
  destruct (map_fst_store AGGREGATE_NAME x (directory w)) as [->|[_ ->]];
    [reflexivity|].
  rewrite filter_app. simpl. apply app_nil_r.
Qed.

Section Writing.
Variable decimal : char -> option N.
Variable Document : option (option bytes -> outcome document).

Lemma discovered_is_globbed (w : world) (ts : list (str * str))
    (pid p : str) :
sort_files decimal (collect decimal (names w)) = Return ts ->
In (pid, p) ts -> glob_match p = true.
Proof.
intros Hs Hin.
apply (Permutation_in _ (sort_files_perm decimal _ _ Hs)) in Hin.
apply collect_In in Hin. destruct Hin as [Hn _].
apply names_In in Hn. tauto.
Qed.

(** X8.  A run of the aggregator leaves every file but
  [AllTranscripts_NVivo.txt] as it was, whether the run succeeds,
  finds nothing or ends in an exception: the transcripts and their
  backups are only read. *)
Theorem only_the_aggregate_is_written (w : world) (m : str) :
m <> AGGREGATE_NAME ->
lookup m (directory (snd (build_aggregate decimal Document w)))
= lookup m (directory w).
Proof.
intros Hm. rewrite build_aggregate_eq.
destruct (sort_files decimal (collect decimal (names w))) as [[|t ts]|e];
  [reflexivity | | reflexivity].
destruct (entries_eq Document (t :: ts) w) as [r ->].
destruct r as [entries|e]; [|reflexivity].
rewrite finish_eq.
destruct (lookup AGGREGATE_NAME (directory w)) as [[old|]|];
  try reflexivity;
  destruct (utf8_encode _); simpl; apply lookup_store_other; exact Hm.
Qed.

(** X9.  Running the aggregator again on what a successful run left
  behind, at the same reading of the clock, succeeds and writes the
  same bytes: the aggregate file is no input of the run, and the
  directory after the second run is the directory after the first. *)
Theorem second_run_reproduces_the_aggregate (w w1 w' : world) :
build_aggregate decimal Document w = (Return 0, w1) ->
directory w' = directory w1 -> utcnow w' = utcnow w ->
exists w2,
  build_aggregate decimal Document w' = (Return 0, w2)
  /\ directory w2 = directory w1.
Proof.
rewrite !build_aggregate_eq. intros B Ed Eu.
destruct (sort_files decimal (collect decimal (names w))) as [ts|e] eqn:Hs;
  [|discriminate].
destruct ts as [|t ts]; [discriminate|].
destruct (entries_eq Document (t :: ts) w) as [r R]. rewrite R in B.
destruct r as [entries|e]; [|discriminate].
rewrite finish_eq in B.
assert (W : exists data,
           utf8_encode (aggregate_text (utcnow w) (t :: ts) entries)
           = Some data
           /\ directory w1
              = store AGGREGATE_NAME (File data) (directory w)).
{ destruct (lookup AGGREGATE_NAME (directory w)) as [[old|]|];
    try discriminate;
    destruct (utf8_encode _) as [data|]; try discriminate;
    injection B as <-; exists data; split; reflexivity. }
destruct W as [data [Enc D1]]. rewrite D1 in Ed.
rewrite (names_store_aggregate w w' _ Ed), Hs.
assert (A : forall m, m <> AGGREGATE_NAME ->
              lookup m (directory w) = lookup m (directory w')).
{ intros m Hm. rewrite Ed. symmetry. apply lookup_store_other. exact Hm. }
destruct (for_each_entries_agree Document w w' (t :: ts)) as [r [F F']].
{ intros [pid p] Hin. apply (entry_outcome_agree Document AGGREGATE_NAME).
  - exact A.
  - simpl. intros E.
    apply (glob_match_not_aggregate p); [|symmetry; exact E].
    exact (discovered_is_globbed w _ pid p Hs Hin).
  - apply backup_not_aggregate. }
rewrite R in F. injection F as <-. rewrite F'.
rewrite finish_eq.
assert (L : lookup AGGREGATE_NAME (directory w') = Some (File data))
  by (rewrite Ed; apply lookup_store_same).
rewrite L, Eu, Enc. eexists. split; [reflexivity|].
simpl. rewrite (store_lookup_id _ _ _ L). rewrite Ed, D1. reflexivity.
Qed.

(** X10.  A transcript whose block cannot be made ends the run: the
  exception of a discovered transcript that fails leaves
  [build_aggregate], and no aggregate is written, nothing is printed
  and no file is changed, whatever the other transcripts gave. *)
Theorem failed_block_aborts_the_run
  (w : world) (ts : list (str * str)) (t : str * str) (e : exn) :
fst (iter_transcript_paths decimal w) = Return ts ->
In t ts ->
fst (transcript_entry Document t w) = Raise e ->
exists t' e',
  In t' ts /\ fst (transcript_entry Document t' w) = Raise e'
  /\ build_aggregate decimal Document w = (Raise e', w).
Proof.
intros Hts Hin Ht. rewrite build_aggregate_eq.
rewrite iter_transcript_paths_eq in Hts. cbn [fst] in Hts. rewrite Hts.
destruct ts as [|t0 ts']; [destruct Hin|].
destruct (for_each_readonly (transcript_entry Document) w
            (fun t1 => transcript_entry_readonly Document t1 w)
            (t0 :: ts'))
  as [_ [_ [Hraise Hsome]]].
destruct (entries_eq Document (t0 :: ts') w) as [r R].
rewrite R in Hraise, Hsome. rewrite R. cbn [fst] in Hraise, Hsome.
destruct (Hsome t e Hin Ht) as [e' He']. subst r.
destruct (Hraise e' eq_refl) as [t' [Hin' Ht']].
exists t', e'. repeat split; assumption.
Qed.

End Writing.

(** *** The shape of a block *)





Lemma only_the_aggregate_is_written_witness :
  src2 <> AGGREGATE_NAME
  /\ fst (build_aggregate ascii_decimal None aggregator_world) = Return 0
  /\ lookup src2
       (directory (snd (build_aggregate ascii_decimal None aggregator_world)))
     = Some (File (blit "PK")).
Proof.
  assert (H : src2 <> AGGREGATE_NAME) by discriminate.
  split; [exact H|]. split; [vm_compute; reflexivity|].
  rewrite (only_the_aggregate_is_written ascii_decimal None aggregator_world
             src2 H).
  reflexivity.
Defined.

Lemma second_run_reproduces_the_aggregate_witness :
  fst (build_aggregate ascii_decimal None aggregator_world) = Return 0
  /\ exists w2,
      build_aggregate ascii_decimal None
        (snd (build_aggregate ascii_decimal None aggregator_world))
      = (Return 0, w2)
      /\ directory w2
         = directory (snd (build_aggregate ascii_decimal None
                                           aggregator_world)).
Proof.
  split; [vm_compute; reflexivity|].
  apply (second_run_reproduces_the_aggregate ascii_decimal None
           aggregator_world
           (snd (build_aggregate ascii_decimal None aggregator_world))
           (snd (build_aggregate ascii_decimal None aggregator_world))).
  - vm_compute. reflexivity.
  - reflexivity.
  - vm_compute. reflexivity.
Defined.

Lemma failed_block_aborts_the_run_witness :
  fst (iter_transcript_paths ascii_decimal bare_world)
  = Return [(lit "PATIENT_001", src1)]
  /\ fst (transcript_entry (Some no_package) (lit "PATIENT_001", src1)
                           bare_world)
     = Raise PackageNotFoundError
  /\ exists t' e',
      In t' [(lit "PATIENT_001", src1)]
      /\ fst (transcript_entry (Some no_package) t' bare_world) = Raise e'
      /\ build_aggregate ascii_decimal (Some no_package) bare_world
         = (Raise e', bare_world).
Proof.
  split; [vm_compute; reflexivity|]. split; [vm_compute; reflexivity|].
  apply (failed_block_aborts_the_run ascii_decimal (Some no_package)
           bare_world [(lit "PATIENT_001", src1)] (lit "PATIENT_001", src1)
           PackageNotFoundError).
  - vm_compute. reflexivity.
  - left. reflexivity.
  - vm_compute. reflexivity.
Defined.

End AggregatorProperties.

(* ================================================================== *)
(** ** Further properties of regenerate_valid_docx.py *)
(* ================================================================== *)

Module ConverterProperties.
Import Py Codec OS OS.Notations Docx Converter ConverterViews.
Import ConversionViews Examples MoreExamples.
Import PyFacts LineFacts OSFacts CodecFacts ConverterFacts ConverterClaims
       CodecRoundTrip.

(** *** Fonts *)

Lemma filter_map {A B : Type} (p : B -> bool) (f : A -> B) (l : list A) :
  filter p (map f l) = map f (filter (fun a => p (f a)) l).
Proof.
  induction l as [|a l IH]; [reflexivity|]. simpl.
  destruct (p (f a)); simpl; rewrite IH; reflexivity.
Qed.

Lemma forallb_map {A B : Type} (p : B -> bool) (f : A -> B) (l : list A) :
  forallb p (map f l) = forallb (fun a => p (f a)) l.
Proof.
  induction l as [|a l IH]; [reflexivity|]. simpl. rewrite IH. reflexivity.
Qed.

Lemma runs_apply_font (p : paragraph) :
  runs (apply_font p)
  = map (fun r => Run (text r) (bold r) arial_12) (runs p).
Proof.
  destruct p as [items]. unfold runs, apply_font. cbn [content].
  induction items as [|i items IH]; [reflexivity|].
  cbn [map flat_map]. rewrite IH. destruct i; reflexivity.
Qed.

Lemma paragraph_text_apply_font (p : paragraph) :
  paragraph_text (apply_font p) = paragraph_text p.
Proof.
  destruct p as [items]. unfold paragraph_text, apply_font. cbn [content].
  rewrite map_map. f_equal. apply map_ext. intros [r|inner]; reflexivity.
Qed.

(** X12.  [apply_font] sets the three font attributes of every run to
    Arial, Arial and 12 pt and touches nothing else: the runs keep their
    number, their texts and their bold flags, a second application
    changes nothing, and the line the aggregator extracts from the
    paragraph is the same before and after. *)
Theorem apply_font_sets_fonts_only (p : paragraph) :
  map text (runs (apply_font p)) = map text (runs p)
  /\ map bold (runs (apply_font p)) = map bold (runs p)
  /\ Forall (fun r => run_font r = arial_12) (runs (apply_font p))
  /\ apply_font (apply_font p) = apply_font p
  /\ Aggregator.paragraph_line (apply_font p) = Aggregator.paragraph_line p.
Proof.
  rewrite runs_apply_font.
  split; [rewrite map_map; reflexivity|].
  split; [rewrite map_map; reflexivity|].
  split.
  { apply Forall_forall. intros r Hr. apply in_map_iff in Hr.
    destruct Hr as [r0 [<- _]]. reflexivity. }
  split.
  { destruct p as [items]. unfold apply_font. cbn [content].
    rewrite map_map. f_equal. apply map_ext. intros [r|inner]; reflexivity. }
  unfold Aggregator.paragraph_line.
  rewrite paragraph_text_apply_font, runs_apply_font.
  destruct (rstrip (paragraph_text p)) as [|c t]; [reflexivity|].
  rewrite filter_map, forallb_map.
  destruct (runs p) as [|r rs]; reflexivity.
Qed.

(** *** The order of the files *)






(** *** One conversion, in full *)

Section Environment.
Variable package_bytes : document -> bytes.

Lemma decoded_eq (data : bytes) :
exists t enc,
  utf8_decode true data = Some t /\ decoded data = universal_newlines t
  /\ utf8_encode (decoded data) = Some enc /\ encoded (decoded data) = enc.
Proof.
destruct (utf8_decode_replace_total data) as [t Ht].
destruct (decoded_text_encodes true data t Ht) as [enc He].
exists t, enc. unfold decoded, encoded. rewrite Ht, He. auto.
Qed.

Lemma convert_file_eq (src : str) (data : bytes) (force verbose : bool)
    (w : world) :
lookup src (directory w) = Some (File data) ->
convert_plaintext_to_docx package_bytes src force verbose w
= if bytes_eqb (firstn 2 data) PK && negb force
  then (Return false, said verbose (skip_line src) w)
  else
    match build_document (decoded data) with
    | Return doc =>
        (Return true,
         said verbose (converted_line src)
              (set_directory
                 (converted_directory package_bytes src data doc
                                      (directory w))
                 w))
    | Raise e =>
        (Raise e,
         set_directory (with_backup src (decoded data) (directory w)) w)
    end.
Proof.
intros L. rewrite convert_eq, L.
destruct (bytes_eqb (firstn 2 data) PK && negb force).
{ destruct verbose; reflexivity. }
destruct (decoded_eq data) as [t [enc [Ht [Ed [He Ee]]]]].
rewrite Ht, <- Ed.
unfold converted_directory, with_backup. rewrite Ee.
unfold rewrite_source, bind, path_exists. cbv beta iota.
destruct (lookup (backup_of src) (directory w)) as [b|] eqn:Lb.
- change (negb true) with false. cbv beta iota.
  unfold ret at 1. cbv beta iota. unfold lift.
  destruct (build_document (decoded data)) as [doc|e];
    [|destruct w; reflexivity].
  unfold write_bytes. rewrite L.
  destruct verbose; reflexivity.
- change (negb false) with true. cbv beta iota.
  unfold write_text. rewrite He. unfold write_bytes at 1. rewrite Lb.
  cbv beta iota. unfold lift.
  destruct (build_document (decoded data)) as [doc|e]; [|reflexivity].
  unfold write_bytes. cbn [directory set_directory].
  rewrite lookup_store_other by (apply not_eq_sym, backup_of_neq).
  rewrite L. destruct verbose; reflexivity.
Qed.

Lemma convert_missing_eq (src : str) (force verbose : bool) (w : world) :
(forall data, lookup src (directory w) <> Some (File data)) ->
convert_plaintext_to_docx package_bytes src force verbose w
= (Raise OSError, w).
Proof.
intros H. rewrite convert_eq.
destruct (lookup src (directory w)) as [[data|]|]; try reflexivity.
contradiction (H data). reflexivity.
Qed.

Lemma directory_said (verbose : bool) (line : str) (w : world) :
directory (said verbose line w) = directory w.
Proof. destruct verbose; reflexivity. Qed.

(** The directory a conversion of a readable source leaves. *)
Lemma convert_directory (src : str) (data : bytes) (force verbose : bool)
    (w : world) :
lookup src (directory w) = Some (File data) ->
directory (snd (convert_plaintext_to_docx package_bytes src force verbose
                                          w))
= if bytes_eqb (firstn 2 data) PK && negb force then directory w
  else
    match build_document (decoded data) with
    | Return doc =>
        converted_directory package_bytes src data doc (directory w)
    | Raise _ => with_backup src (decoded data) (directory w)
    end.
Proof.
intros L. rewrite (convert_file_eq src data force verbose w L).
destruct (bytes_eqb (firstn 2 data) PK && negb force);
  [apply directory_said|].
destruct (build_document (decoded data)); cbn [snd];
  rewrite ?directory_said; reflexivity.
Qed.

Lemma lookup_with_backup (src text m : str) (d : list (str * node)) :
m <> backup_of src -> lookup m (with_backup src text d) = lookup m d.
Proof.
intros H. unfold with_backup.
destruct (lookup (backup_of src) d); [reflexivity|].
apply lookup_store_other. exact H.
Qed.

Lemma lookup_with_backup_present (src text m : str) (d : list (str * node)) :
lookup m d <> None -> lookup m (with_backup src text d) = lookup m d.
Proof.
intros H. unfold with_backup.
destruct (lookup (backup_of src) d) eqn:Lb; [reflexivity|].
apply lookup_store_other. intros ->. contradiction.
Qed.

Lemma convert_each_cons (f : str) (rest : list str) (force : bool) (k : N)
    (w : world) :
convert_each package_bytes (f :: rest) force k w
= match convert_plaintext_to_docx package_bytes f force true w with
  | (Return done, w1) =>
      convert_each package_bytes rest force
                   (if done then k + 1 else k) w1
  | (Raise e, w1) => (Raise e, w1)
  end.
Proof. reflexivity. Qed.

Variable fnmatch : str -> str -> bool.

Lemma main_eq (force : bool) (pattern : str) (w : world) :
main package_bytes fnmatch force pattern w
= match files_of fnmatch pattern w with
  | [] => (Return 1, nothing_matched w)
  | (_ :: _) as files =>
      match convert_each package_bytes files force 0 w with
      | (Return n, w1) => (Return 0, said true (done_line n) w1)
      | (Raise e, w1) => (Raise e, w1)
      end
  end.
Proof.
unfold main, bind, iter_transcript_files, files_of, matching.
cbv beta iota.
destruct (sort_by str_leb (fun p => p) _) as [|f files]; [reflexivity|].
destruct (convert_each package_bytes (f :: files) force 0 w) as [[n|e] w1];
  reflexivity.
Qed.

Lemma files_of_In (pattern : str) (w : world) (f : str) :
In f (files_of fnmatch pattern w) <-> In f (matching fnmatch pattern w).
Proof.
unfold files_of. split; apply Permutation_in;
  [|apply Permutation_sym]; apply sort_by_permutation.
Qed.


(** *** What a conversion leaves alone *)

Lemma convert_elsewhere (src : str) (force verbose : bool) (w : world)
    (m : str) :
m <> src -> m <> backup_of src ->
lookup m (directory (snd (convert_plaintext_to_docx package_bytes src force
                                                    verbose w)))
= lookup m (directory w).
Proof.
intros H1 H2.
destruct (lookup src (directory w)) as [[data|]|] eqn:L.
- rewrite (convert_directory src data force verbose w L).
  destruct (bytes_eqb (firstn 2 data) PK && negb force); [reflexivity|].
  destruct (build_document (decoded data)) as [doc|e];
    unfold converted_directory;
    rewrite ?(lookup_store_other _ _ _ _ H1);
    apply lookup_with_backup; exact H2.
- rewrite convert_missing_eq; [reflexivity|]. intros data. congruence.
- rewrite convert_missing_eq; [reflexivity|]. intros data. congruence.
Qed.

Lemma convert_each_elsewhere (files : list str) (force : bool) (k : N)
    (w : world) (m : str) :
(forall f, In f files -> m <> f /\ m <> backup_of f) ->
lookup m (directory (snd (convert_each package_bytes files force k w)))
= lookup m (directory w).
Proof.
revert k w. induction files as [|f rest IH]; intros k w H; [reflexivity|].
rewrite convert_each_cons.
destruct (H f (or_introl eq_refl)) as [H1 H2].
pose proof (convert_elsewhere f force true w m H1 H2) as E.
destruct (convert_plaintext_to_docx package_bytes f force true w)
  as [[done|e] w1]; cbn [snd] in E; [|exact E].
rewrite IH; [exact E|]. intros g Hg. apply H. right. exact Hg.
Qed.

(** X15.  A conversion reads and writes the source and its sidecar and
  no other file; a run of [main] leaves every file alone that is
  neither matched by the pattern nor the sidecar of a matched file.
  What was missing stays missing: no third file is created. *)
Theorem conversion_touches_source_and_sidecar (w : world) (m : str) :
(forall src force verbose,
    m <> src -> m <> backup_of src ->
    lookup m (directory (snd (convert_plaintext_to_docx package_bytes src
                                                        force verbose w)))
    = lookup m (directory w))
/\ (forall force pattern,
      (forall f, In f (matching fnmatch pattern w) ->
                 m <> f /\ m <> backup_of f) ->
      lookup m (directory (snd (main package_bytes fnmatch force pattern w)))
      = lookup m (directory w)).
Proof.
split.
- intros src force verbose. apply convert_elsewhere.
- intros force pattern H. rewrite main_eq.
  destruct (files_of fnmatch pattern w) as [|f files] eqn:E;
    [reflexivity|].
  pose proof (convert_each_elsewhere (f :: files) force 0 w m) as F.
  destruct (convert_each package_bytes (f :: files) force 0 w)
    as [[n|e] w1]; cbn [snd] in *; apply F;
    intros g Hg; apply H; apply files_of_In; rewrite E; exact Hg.
Qed.

(** *** Validity after a run *)

Lemma valid_at_directory (w w' : world) (f : str) :
directory w' = directory w -> valid_at w' f = valid_at w f.
Proof. unfold valid_at. intros ->. reflexivity. Qed.

Lemma valid_at_file (w : world) (f : str) :
valid_at w f = true ->
exists data, lookup f (directory w) = Some (File data)
             /\ bytes_eqb (firstn 2 data) PK = true.
Proof.
unfold valid_at. destruct (lookup f (directory w)) as [[data|]|];
  try discriminate.
intros H. exists data. split; [reflexivity | exact H].
Qed.

Section Packages.
Hypothesis package_magic : forall d, firstn 2 (package_bytes d) = PK.

Lemma valid_after_convert (f : str) (force verbose : bool) (w : world)
    (b : bool) :
fst (convert_plaintext_to_docx package_bytes f force verbose w) = Return b ->
valid_at (snd (convert_plaintext_to_docx package_bytes f force verbose w)) f
= true.
Proof.
destruct (lookup f (directory w)) as [[data|]|] eqn:L.
- unfold valid_at. rewrite (convert_directory f data force verbose w L).
  rewrite (convert_file_eq f data force verbose w L).
  destruct (bytes_eqb (firstn 2 data) PK && negb force) eqn:C.
  + intros _. rewrite L. apply andb_true_iff in C. tauto.
  + destruct (build_document (decoded data)) as [doc|e]; [|discriminate].
    intros _. unfold converted_directory.
    rewrite lookup_store_same, package_magic. reflexivity.
- rewrite convert_missing_eq; [discriminate|]. intros data. congruence.
- rewrite convert_missing_eq; [discriminate|]. intros data. congruence.
Qed.

Lemma valid_kept_by_convert (f g : str) (force verbose : bool) (w : world) :
valid_at w g = true ->
valid_at (snd (convert_plaintext_to_docx package_bytes f force verbose w)) g
= true.
Proof.
intros V. destruct (valid_at_file w g V) as [dg [Lg Vg]].
destruct (lookup f (directory w)) as [[data|]|] eqn:L.
- unfold valid_at. rewrite (convert_directory f data force verbose w L).
  assert (B : lookup g (with_backup f (decoded data) (directory w))
              = Some (File dg)).
  { rewrite lookup_with_backup_present; [exact Lg | congruence]. }
  destruct (bytes_eqb (firstn 2 data) PK && negb force) eqn:C.
  + rewrite Lg. exact Vg.
  + destruct (build_document (decoded data)) as [doc|e];
      [|rewrite B; exact Vg].
    unfold converted_directory.
    destruct (str_eqb g f) eqn:E.
    * apply str_eqb_eq in E. subst g.
      rewrite lookup_store_same, package_magic. reflexivity.
    * apply str_eqb_neq in E. rewrite lookup_store_other by exact E.
      rewrite B. exact Vg.
- rewrite convert_missing_eq; [exact V|]. intros data. congruence.
- rewrite convert_missing_eq; [exact V|]. intros data. congruence.
Qed.

Lemma valid_kept_by_convert_each (files : list str) (g : str) (force : bool)
    (k : N) (w : world) :
valid_at w g = true ->
valid_at (snd (convert_each package_bytes files force k w)) g = true.
Proof.
revert k w. induction files as [|f rest IH]; intros k w V; [exact V|].
rewrite convert_each_cons.
pose proof (valid_kept_by_convert f g force true w V) as V1.
destruct (convert_plaintext_to_docx package_bytes f force true w)
  as [[done|e] w1]; cbn [snd] in V1; [|exact V1].
apply IH. exact V1.
Qed.

Lemma all_valid_after_convert_each (files : list str) (force : bool)
    (k n : N) (w w' : world) :
convert_each package_bytes files force k w = (Return n, w') ->
forall f, In f files -> valid_at w' f = true.
Proof.
revert k w. induction files as [|f rest IH]; intros k w H g Hg;
  [destruct Hg|].
rewrite convert_each_cons in H.
pose proof (valid_after_convert f force true w) as V.
destruct (convert_plaintext_to_docx package_bytes f force true w)
  as [[done|e] w1]; [|discriminate].
cbn [fst snd] in V. specialize (V done eq_refl).
destruct Hg as [<-|Hg].
- pose proof (valid_kept_by_convert_each rest f force
                (if done then k + 1 else k) w1 V) as K.
  rewrite H in K. exact K.
- exact (IH _ _ H g Hg).
Qed.

End Packages.

Lemma map_fst_store_present (n : str) (x y : node) (d : list (str * node)) :
lookup n d = Some y -> map fst (store n x d) = map fst d.
Proof.
intros L.
destruct (AggregatorProperties.map_fst_store n x d) as [E|[N _]];
  [exact E | congruence].
Qed.

Lemma matching_after_convert (f : str) (force verbose : bool)
    (pattern : str) (w : world) :
fnmatch (backup_of f) pattern = false ->
matching fnmatch pattern
  (snd (convert_plaintext_to_docx package_bytes f force verbose w))
= matching fnmatch pattern w.
Proof.
intros B. destruct (lookup f (directory w)) as [[data|]|] eqn:L.
- unfold matching. rewrite (convert_directory f data force verbose w L).
  destruct (bytes_eqb (firstn 2 data) PK && negb force); [reflexivity|].
  assert (Eb : filter (fun name => fnmatch name pattern)
                 (map fst (with_backup f (decoded data) (directory w)))
               = filter (fun name => fnmatch name pattern)
                   (map fst (directory w))).
  { unfold with_backup.
    destruct (lookup (backup_of f) (directory w)); [reflexivity|].
    destruct (AggregatorProperties.map_fst_store (backup_of f)
                (File (encoded (decoded data))) (directory w))
      as [->|[_ ->]]; [reflexivity|].
    rewrite filter_app. simpl. rewrite B. apply app_nil_r. }
  destruct (build_document (decoded data)) as [doc|e]; [|exact Eb].
  unfold converted_directory.
  rewrite (map_fst_store_present f _ (File data)); [exact Eb|].
  rewrite lookup_with_backup; [exact L|].
  apply not_eq_sym, backup_of_neq.
- rewrite convert_missing_eq; [reflexivity|]. intros data. congruence.
- rewrite convert_missing_eq; [reflexivity|]. intros data. congruence.
Qed.

Lemma matching_after_convert_each (files : list str) (force : bool) (k : N)
    (pattern : str) (w : world) :
(forall f, In f files -> fnmatch (backup_of f) pattern = false) ->
matching fnmatch pattern
  (snd (convert_each package_bytes files force k w))
= matching fnmatch pattern w.
Proof.
revert k w. induction files as [|f rest IH]; intros k w H; [reflexivity|].
rewrite convert_each_cons.
pose proof (matching_after_convert f force true pattern w
              (H f (or_introl eq_refl))) as E.
destruct (convert_plaintext_to_docx package_bytes f force true w)
  as [[done|e] w1]; cbn [snd] in E; [|exact E].
rewrite IH; [exact E|]. intros g Hg. apply H. right. exact Hg.
Qed.

Lemma convert_each_all_valid (files : list str) (k : N) (w : world) :
(forall f, In f files -> valid_at w f = true) ->
convert_each package_bytes files false k w
= (Return k,
   World (root w) (utcnow w) (directory w)
         (stdout w ++ map skip_line files) (stderr w)).
Proof.
revert w. induction files as [|f rest IH]; intros w H.
- simpl. rewrite app_nil_r. destruct w; reflexivity.
- rewrite convert_each_cons.
  destruct (valid_at_file w f (H f (or_introl eq_refl))) as [data [L V]].
  rewrite (convert_file_eq f data false true w L), V. cbn [andb negb said].
  rewrite IH.
  + cbn [root utcnow directory stdout stderr map].
    rewrite <- app_assoc. reflexivity.
  + intros g Hg. rewrite <- (H g (or_intror Hg)).
    apply valid_at_directory. reflexivity.
Qed.

(** X16.  After a run of [main] that ended with exit code 0, a second
  run without [--force] converts nothing: every matched file now
  starts with the package signature, so each of them is reported as
  skipped, the count is 0 and the directory stays as the first run
  left it.  The writer is taken to start every package with [PK], and
  the pattern not to match the sidecars of the files it matches. *)
Theorem second_run_converts_nothing
  (force : bool) (pattern : str) (w w1 : world) :
(forall d, firstn 2 (package_bytes d) = PK) ->
(forall f, In f (matching fnmatch pattern w) ->
           fnmatch (backup_of f) pattern = false) ->
main package_bytes fnmatch force pattern w = (Return 0, w1) ->
main package_bytes fnmatch false pattern w1
= (Return 0,
   World (root w1) (utcnow w1) (directory w1)
         (stdout w1 ++ map skip_line (files_of fnmatch pattern w)
          ++ [done_line 0])
         (stderr w1)).
Proof.
intros Magic B. rewrite (main_eq force pattern w).
destruct (files_of fnmatch pattern w) as [|f files] eqn:E; [discriminate|].
destruct (convert_each package_bytes (f :: files) force 0 w)
  as [[n|e] w0] eqn:C; [|discriminate].
intros H.
assert (E1 : w1 = said true (done_line n) w0) by congruence.
subst w1. clear H. rewrite main_eq.
assert (B' : forall g, In g (f :: files) ->
               fnmatch (backup_of g) pattern = false).
{ intros g Hg. apply B. apply files_of_In. rewrite E. exact Hg. }
pose proof (matching_after_convert_each (f :: files) force 0 pattern w B')
  as Em.
rewrite C in Em. cbn [snd] in Em.
assert (Ef : files_of fnmatch pattern (said true (done_line n) w0)
             = f :: files).
{ unfold files_of, matching. cbn [said directory].
  fold (matching fnmatch pattern w0). rewrite Em.
  fold (files_of fnmatch pattern w). exact E. }
rewrite Ef. rewrite convert_each_all_valid.
- cbn [said root utcnow directory stdout stderr].
  rewrite <- !app_assoc. reflexivity.
- intros g Hg.
  rewrite (valid_at_directory w0 (said true (done_line n) w0) g eq_refl).
  exact (all_valid_after_convert_each Magic _ _ _ _ _ _ C g Hg).
Qed.

(** *** The count *)

Lemma lookup_In (n : str) (d : list (str * node)) :
In n (map fst d) -> lookup n d <> None.
Proof.
induction d as [|[m y] d IH]; [intros []|]. simpl.
destruct (str_eqb n m) eqn:E; [discriminate|].
intros [H|H]; [|exact (IH H)].
apply str_eqb_neq in E. congruence.
Qed.

Lemma convert_keeps_listed (f g : str) (force verbose : bool) (w : world) :
g <> f -> lookup g (directory w) <> None ->
lookup g (directory (snd (convert_plaintext_to_docx package_bytes f force
                                                    verbose w)))
= lookup g (directory w).
Proof.
intros N Lg. destruct (lookup f (directory w)) as [[data|]|] eqn:L.
- rewrite (convert_directory f data force verbose w L).
  destruct (bytes_eqb (firstn 2 data) PK && negb force); [reflexivity|].
  destruct (build_document (decoded data)) as [doc|e];
    unfold converted_directory;
    rewrite ?(lookup_store_other _ _ _ _ N);
    apply lookup_with_backup_present; exact Lg.
- rewrite convert_missing_eq; [reflexivity|]. intros data. congruence.
- rewrite convert_missing_eq; [reflexivity|]. intros data. congruence.
Qed.

Lemma convert_done (f : str) (force verbose : bool) (w w1 : world)
    (done : bool) :
convert_plaintext_to_docx package_bytes f force verbose w
= (Return done, w1) ->
done = to_convert force w f.
Proof.
destruct (lookup f (directory w)) as [[data|]|] eqn:L.
- rewrite (convert_file_eq f data force verbose w L).
  unfold to_convert, valid_at. rewrite L.
  destruct (bytes_eqb (firstn 2 data) PK), force; simpl;
    try congruence;
    destruct (build_document (decoded data)); congruence.
- rewrite convert_missing_eq; [discriminate|]. intros data. congruence.
- rewrite convert_missing_eq; [discriminate|]. intros data. congruence.
Qed.

Lemma count_convert_each (files : list str) (force : bool) (k n : N)
    (w w' : world) :
NoDup files ->
(forall f, In f files -> lookup f (directory w) <> None) ->
convert_each package_bytes files force k w = (Return n, w') ->
n = k + N.of_nat (length (filter (to_convert force w) files)).
Proof.
revert k w. induction files as [|f rest IH]; intros k w D Ex H.
- simpl in H. injection H as <- _. simpl. lia.
- rewrite convert_each_cons in H.
  inversion D as [|? ? Nin D']; subst.
  destruct (convert_plaintext_to_docx package_bytes f force true w)
    as [[done|e] w1] eqn:C; [|discriminate].
  pose proof (convert_done f force true w w1 done C) as Ed.
  assert (K : forall g, In g rest ->
                lookup g (directory w1) = lookup g (directory w)).
  { intros g Hg.
    pose proof (convert_keeps_listed f g force true w) as Kg.
    rewrite C in Kg. apply Kg; [|apply Ex; right; exact Hg].
    intros ->. contradiction. }
  rewrite (IH _ w1 D') with (1 := fun g Hg =>
      eq_ind_r (fun o => o <> None) (Ex g (or_intror Hg)) (K g Hg))
    (2 := H).
  assert (F : filter (to_convert force w1) rest
              = filter (to_convert force w) rest).
  { apply filter_ext_in. intros g Hg. unfold to_convert, valid_at.
    rewrite (K g Hg). reflexivity. }
  rewrite F. cbn [filter]. rewrite <- Ed.
  destruct done; cbn [length]; lia.
Qed.

Lemma filter_length_permutation {A : Type} (p : A -> bool) (l l' : list A) :
Permutation l l' -> length (filter p l) = length (filter p l').
Proof.
induction 1 as [|x l l' P IH|x y l|l l' l'' P1 IH1 P2 IH2];
  simpl; try reflexivity.
- destruct (p x); simpl; congruence.
- destruct (p x), (p y); reflexivity.
- congruence.
Qed.

(** X17.  The number in the closing line of [main] is the number of
  matched files that had to be converted: those that did not start
  with the package signature when the run began, or all of them with
  [--force].  The names of the directory are taken to be distinct. *)
Theorem reported_count_is_files_converted
  (force : bool) (pattern : str) (w w1 : world) :
NoDup (map fst (directory w)) ->
main package_bytes fnmatch force pattern w = (Return 0, w1) ->
exists out,
  stdout w1
  = out ++ [done_line
              (N.of_nat (length (filter (to_convert force w)
                                        (matching fnmatch pattern w))))].
Proof.
intros D. rewrite main_eq.
destruct (files_of fnmatch pattern w) as [|f files] eqn:E; [discriminate|].
destruct (convert_each package_bytes (f :: files) force 0 w)
  as [[n|e] w0] eqn:C; [|discriminate].
intros H. assert (E1 : w1 = said true (done_line n) w0) by congruence.
subst w1. clear H. exists (stdout w0). cbn [said stdout].
assert (P : Permutation (f :: files) (matching fnmatch pattern w)).
{ rewrite <- E. apply sort_by_permutation. }
assert (Dm : NoDup (matching fnmatch pattern w))
  by (apply NoDup_filter; exact D).
rewrite (count_convert_each (f :: files) force 0 n w w0).
- rewrite (filter_length_permutation _ _ _ P). reflexivity.
- apply (Permutation_NoDup (Permutation_sym P)). exact Dm.
- intros g Hg. apply lookup_In.
  apply (Permutation_in _ P) in Hg. apply filter_In in Hg. tauto.
- exact C.
Qed.

End Environment.

Lemma sample_package_magic (d : document) : firstn 2 (sample_package d) = PK.
Proof. reflexivity. Qed.


Lemma conversion_touches_source_and_sidecar_witness :
  src2 <> src1 /\ src2 <> backup_of src1
  /\ lookup src2
       (directory (snd (convert_plaintext_to_docx sample_package src1 false
                                                  true converter_world)))
     = Some (File (blit "**Q1**")).
Proof.
  assert (H1 : src2 <> src1) by discriminate.
  assert (H2 : src2 <> backup_of src1) by discriminate.
  split; [exact H1|]. split; [exact H2|].
  rewrite (proj1 (conversion_touches_source_and_sidecar sample_package
                    sample_fnmatch converter_world src2)
             src1 false true H1 H2).
  reflexivity.
Defined.

Lemma second_run_converts_nothing_witness :
  (forall d, firstn 2 (sample_package d) = PK)
  /\ (forall f, In f (matching sample_fnmatch default_pattern converter_world)
                -> sample_fnmatch (backup_of f) default_pattern = false)
  /\ fst (main sample_package sample_fnmatch false default_pattern
               converter_world) = Return 0
  /\ main sample_package sample_fnmatch false default_pattern
          (snd (main sample_package sample_fnmatch false default_pattern
                     converter_world))
     = (Return 0,
        World (lit "/data") stamp
              (directory (snd (main sample_package sample_fnmatch false
                                    default_pattern converter_world)))
              [lit "Converted -> transcript_PATIENT_001.docx";
               lit "Converted -> transcript_PATIENT_002.docx";
               lit "Done. 2 file(s) converted.";
               lit "SKIP (already valid): transcript_PATIENT_001.docx";
               lit "SKIP (already valid): transcript_PATIENT_002.docx";
               lit "Done. 0 file(s) converted."] []).
Proof.
  assert (B : forall f,
             In f (matching sample_fnmatch default_pattern converter_world)
             -> sample_fnmatch (backup_of f) default_pattern = false).
  { intros f [<-|[<-|[]]]; reflexivity. }
  split; [exact sample_package_magic|]. split; [exact B|].
  split; [vm_compute; reflexivity|].
  rewrite (second_run_converts_nothing sample_package sample_fnmatch false
             default_pattern converter_world
             (snd (main sample_package sample_fnmatch false default_pattern
                        converter_world))
             sample_package_magic B);
    vm_compute; reflexivity.
Defined.

Lemma reported_count_is_files_converted_witness :
  NoDup (map fst (directory converter_world))
  /\ fst (main sample_package sample_fnmatch false default_pattern
               converter_world) = Return 0
  /\ exists out,
      stdout (snd (main sample_package sample_fnmatch false default_pattern
                        converter_world))
      = out ++ [lit "Done. 2 file(s) converted."].
Proof.
  assert (D : NoDup (map fst (directory converter_world))).
  { constructor; [intros [E|[]]; discriminate E|].
    constructor; [intros []|constructor]. }
  split; [exact D|]. split; [vm_compute; reflexivity|].
  apply (reported_count_is_files_converted sample_package sample_fnmatch
           false default_pattern converter_world
           (snd (main sample_package sample_fnmatch false default_pattern
                      converter_world)) D).
  vm_compute. reflexivity.
Defined.

End ConverterProperties.

(* ================================================================== *)
(** ** The two scripts together *)
(* ================================================================== *)

Module Pipeline.
Import Py Codec OS OS.Notations Docx Aggregator AggregatorViews.
Import Converter ConverterViews ConversionViews PipelineViews.
Import Examples MoreExamples.
Import PyFacts LineFacts OSFacts AggregatorFacts CodecFacts ConverterFacts
       ConverterLines TrimmedLines CodecRoundTrip ConverterProperties.

(** *** From a line of text to a paragraph and back *)

Lemma star_no_space : isspace STAR = false.
Proof. reflexivity. Qed.

Lemma all_space_no_marker (l : str) :
  all_space l -> contains MARKER l = false.
Proof.
  induction l as [|c|c c' t IH1 IH2] using str_ind2; intros H.
  - reflexivity.
  - apply contains_marker_short.
  - rewrite contains_marker_cons.
    apply all_space_cons in H. destruct H as [Hc H].
    rewrite (IH2 H), orb_false_r.
    destruct (N.eqb_spec c STAR) as [->|N]; [|reflexivity].
    rewrite star_no_space in Hc. discriminate.
Qed.

Lemma converted_line_extracted (line : str) :
  paragraph_line (paragraph_of_line line)
  = match rstrip (remove_marker line) with
    | [] => []
    | (_ :: _) as t =>
        if contains MARKER line then lit "**" ++ t ++ lit "**" else t
    end.
Proof.
  unfold paragraph_of_line.
  destruct (strip line) as [|c0 r0] eqn:S.
  - apply strip_nil in S.
    rewrite (remove_marker_absent _ (all_space_no_marker _ S)).
    rewrite (proj2 (rstrip_nil line) S). reflexivity.
  - unfold paragraph_line, text_paragraph.
    rewrite Extraction.runs_Paragraph, Extraction.paragraph_text_Paragraph.
    cbn [map concat text]. rewrite app_nil_r.
    destruct (rstrip (remove_marker line)) as [|c t] eqn:R; [reflexivity|].
    assert (T : has_text (Run (remove_marker line)
                              (if contains MARKER line
                               then Some true else None) arial_12) = true).
    { unfold has_text. cbn [text].
      destruct (strip (remove_marker line)) eqn:S'; [|reflexivity].
      apply strip_nil in S'. apply rstrip_nil in S'. congruence. }
    cbn [filter]. rewrite T. cbn [forallb]. unfold is_bold. cbn [bold].
    destruct (contains MARKER line); reflexivity.
Qed.

Lemma converted_document_extracted (text : str) (doc : document) :
  build_document text = Return doc ->
  extract_lines doc
  = map (fun line => paragraph_line (paragraph_of_line line))
        (splitlines text).
Proof.
  intros H. unfold extract_lines.
  rewrite (proj1 (build_document_paragraphs text doc H)), map_map.
  reflexivity.
Qed.

(** X18.  What the aggregator extracts from the document the converter
    builds from a text, when it builds one (no line [add_run] refuses):
    one line per line of the text; an empty line when the line without
    its markers is blank; otherwise that text without its trailing
    blanks, wrapped as a whole in one pair of markers when the line had
    a marker anywhere, and bare when it had none. *)
Theorem extraction_of_a_converted_text (text : str) (doc : document) :
  build_document text = Return doc ->
  extract_lines doc
  = map (fun line =>
           match rstrip (remove_marker line) with
           | [] => []
           | (_ :: _) as t =>
               if contains MARKER line then lit "**" ++ t ++ lit "**" else t
           end)
        (splitlines text).
Proof.
  intros H. rewrite (converted_document_extracted text doc H).
  apply map_ext. intros line. apply converted_line_extracted.
Qed.

Lemma extraction_of_a_converted_text_witness :
  build_document example_text = Return example_document
  /\ extract_lines example_document
     = [lit "**Question 1**"; []; lit "An answer."].
Proof.
  assert (H : build_document example_text = Return example_document)
    by reflexivity.
  split; [exact H|].
  rewrite (extraction_of_a_converted_text example_text example_document H).
  reflexivity.
Defined.







(** *** From the converter's backup to the aggregator *)

Section Environment.
Variable package_bytes : document -> bytes.

Lemma read_text_replace_file (src text : str) (w : world) :
fst (read_text src true w) = Return text ->
exists data,
  lookup src (directory w) = Some (File data) /\ text = decoded data.
Proof.
rewrite read_text_replace_eq. cbn [fst].
destruct (lookup src (directory w)) as [[data|]|]; try discriminate.
intros H. exists data. split; [reflexivity|]. unfold decoded.
destruct (utf8_decode true data); congruence.
Qed.

Lemma backup_after_convert (src : str) (data : bytes) (force verbose : bool)
    (w : world) :
lookup src (directory w) = Some (File data) ->
bytes_eqb (firstn 2 data) PK && negb force = false ->
lookup (backup_of src) (directory w) = None ->
lookup (backup_of src)
       (directory (snd (convert_plaintext_to_docx package_bytes src force
                                                  verbose w)))
= Some (File (encoded (decoded data))).
Proof.
intros L C B.
rewrite (convert_directory package_bytes src data force verbose w L), C.
assert (W : lookup (backup_of src)
              (with_backup src (decoded data) (directory w))
            = Some (File (encoded (decoded data)))).
{ unfold with_backup. rewrite B. apply lookup_store_same. }
destruct (build_document (decoded data)) as [doc|e]; [|exact W].
unfold converted_directory.
rewrite lookup_store_other by apply backup_of_neq. exact W.
Qed.

(** X20.  The sidecar the converter writes is the sidecar the
  aggregator reads: after the conversion of a source that had no
  backup, [read_from_backup] on the backup path answers exactly the
  text the converter read from the source, and the block the
  aggregator makes for that transcript is made from this text, with
  or without the document parser. *)
Theorem aggregator_reads_the_converter_backup
  (src text : str) (force verbose : bool) (w : world) :
fst (read_text src true w) = Return text ->
force = true \/ fst (is_valid_docx src w) = Return false ->
lookup (backup_of src) (directory w) = None ->
let w1 := snd (convert_plaintext_to_docx package_bytes src force verbose w)
in
read_from_backup (backup_path src) w1 = (Return (Some text), w1)
/\ forall D pid,
    transcript_entry D (pid, src) w1 = (Return (entry_text pid text), w1).
Proof.
intros R V B w1.
destruct (read_text_replace_file src text w R) as [data [L ->]].
assert (C : bytes_eqb (firstn 2 data) PK && negb force = false).
{ destruct V as [->|V]; [apply andb_false_r|].
  rewrite is_valid_docx_eq, L in V. cbn [fst] in V.
  assert (E : bytes_eqb (firstn 2 data) PK = false) by congruence.
  rewrite E. reflexivity. }
pose proof (backup_after_convert src data force verbose w L C B) as Lb.
fold w1 in Lb.
destruct (decoded_eq data) as [t [enc [Ht [Ed [He Ee]]]]].
assert (Rb : read_from_backup (backup_path src) w1
             = (Return (Some (decoded data)), w1)).
{ rewrite read_from_backup_eq. unfold backup_text.
  change (backup_path src) with (backup_of src). rewrite Lb, Ee.
  rewrite (utf8_decode_encoded false _ _ He). cbn [option_map].
  rewrite Ed, universal_newlines_idempotent. reflexivity. }
split; [exact Rb|].
intros D pid. apply AggregatorProperties.entry_from_backup.
rewrite Rb. reflexivity.
Qed.

(** X21.  The backup of a source that is valid UTF-8 and holds no
  carriage return is the source byte for byte. *)
Theorem backup_of_clean_text_is_verbatim
  (src : str) (data : bytes) (t : str) (force verbose : bool) (w : world) :
lookup src (directory w) = Some (File data) ->
force = true \/ fst (is_valid_docx src w) = Return false ->
lookup (backup_of src) (directory w) = None ->
utf8_decode false data = Some t ->
~ In x0d data ->
lookup (backup_of src)
       (directory (snd (convert_plaintext_to_docx package_bytes src force
                                                  verbose w)))
= Some (File data).
Proof.
intros L V B S N.
assert (C : bytes_eqb (firstn 2 data) PK && negb force = false).
{ destruct V as [->|V]; [apply andb_false_r|].
  rewrite is_valid_docx_eq, L in V. cbn [fst] in V.
  assert (E : bytes_eqb (firstn 2 data) PK = false) by congruence.
  rewrite E. reflexivity. }
rewrite (backup_after_convert src data force verbose w L C B).
unfold decoded. rewrite (strict_then_replace data t S).
rewrite universal_newlines_id.
- unfold encoded. rewrite (utf8_encode_decoded data t S). reflexivity.
- intros I. apply N. exact (decoded_CR data t S I).
Qed.

End Environment.

Lemma aggregator_reads_the_converter_backup_witness :
  fst (read_text src1 true converter_world)
  = Return (lit "caf" ++ [REPLACEMENT; LF])
  /\ fst (is_valid_docx src1 converter_world) = Return false
  /\ lookup (backup_of src1) (directory converter_world) = None
  /\ fst (read_from_backup (backup_path src1)
            (snd (convert_plaintext_to_docx sample_package src1 false true
                                            converter_world)))
     = Return (Some (lit "caf" ++ [REPLACEMENT; LF])).
Proof.
  assert (R : fst (read_text src1 true converter_world)
              = Return (lit "caf" ++ [REPLACEMENT; LF]))
    by (vm_compute; reflexivity).
  assert (V : fst (is_valid_docx src1 converter_world) = Return false)
    by (vm_compute; reflexivity).
  split; [exact R|]. split; [exact V|]. split; [reflexivity|].
  rewrite (proj1 (aggregator_reads_the_converter_backup sample_package src1
                    (lit "caf" ++ [REPLACEMENT; LF]) false true
                    converter_world R (or_intror V) eq_refl)).
  reflexivity.
Defined.

Lemma backup_of_clean_text_is_verbatim_witness :
  lookup src2 (directory converter_world) = Some (File (blit "**Q1**"))
  /\ utf8_decode false (blit "**Q1**") = Some (lit "**Q1**")
  /\ ~ In x0d (blit "**Q1**")
  /\ lookup (backup_of src2)
       (directory (snd (convert_plaintext_to_docx sample_package src2 false
                                                  true converter_world)))
     = Some (File (blit "**Q1**")).
Proof.
  assert (N : ~ In x0d (blit "**Q1**")).
  { cbn. intros I. repeat (destruct I as [I|I]; [discriminate I|]). exact I. }
  split; [reflexivity|]. split; [reflexivity|]. split; [exact N|].
  apply (backup_of_clean_text_is_verbatim sample_package src2
           (blit "**Q1**") (lit "**Q1**") false true converter_world).
  - reflexivity.
  - right. vm_compute. reflexivity.
  - reflexivity.
  - reflexivity.
  - exact N.
Defined.

End Pipeline.
